(** * Sharing-Backend: authentication and session lifecycle

    A shallow embedding of the authentication code of the backend:
    - [utils/passwordValidator.js]  (password policy),
    - [utils/generateToken.js]      (token issuance, verification, extraction),
    - [model/User.js], [model/Session.js], [model/TokenBlacklist.js]
      (schemas, hooks, instance and static methods),
    - [middlwares/authMiddlwares.js] ([requireSignIn], [alowedTo],
      [isBlocked], [optionalAuth]),
    - the auth controller, every route of [routes/Auth.js] ([signup],
      [login], [adminLogin], [getCurrentUser], [updateProfile],
      [changePassword], [refreshToken], [logout], [logoutAll],
      [getActiveSessions]),
    - the admin controller ([updateUserStatus]).

    Conventions of the embedding.
    - A JavaScript string is the [string] of its UTF-16 code units, one
      character for each unit; the strings here are those whose units are
      all below 256 (ASCII and the Latin-1 supplement).  On these the
      string functions below do what JavaScript does: [length] counts the
      units, [toLowerCase] folds the letters of both ranges, [trim] strips
      the white space of both.
    - A [Date] is its number of milliseconds since the epoch, a [Z].  Every
      handler reads the clock once: it receives the value of [Date.now()]
      as an argument [now].  The one exception is the second reading that
      [createToken] and [createRefreshToken] take when they sign: it is
      the first reading plus a lag, which the call draws with its random
      values.
    - A MongoDB collection is the list of its documents in natural order.
      Schema validation and unique indexes are the ones the schemas declare.
    - [await] is sequencing: handlers are state-passing functions on the
      [Store], returning what they hand to Express. *)

From Stdlib Require Import ZArith String Ascii List Bool Lia Sorted.
From stdpp Require Import base option list gmap strings pretty.

Import ListNotations.
Local Open Scope string_scope.
Local Open Scope list_scope.
Local Open Scope Z_scope.

(** ** JavaScript string primitives *)

Module Js.

Definition code (c : ascii) : N := N_of_ascii c.

Definition inRange (lo hi : N) (c : ascii) : bool :=
  (lo <=? code c)%N && (code c <=? hi)%N.

(** [/[A-Z]/], [/[a-z]/], [/[0-9]/] *)
Definition isUpper : ascii -> bool := inRange 65 90.
Definition isLower : ascii -> bool := inRange 97 122.
Definition isDigit : ascii -> bool := inRange 48 57.

(** The character class of the special-character test of
    [validatePasswordStrength], by character code: the thirty characters
    that the regular expression lists, in its order, the quotes (39, 34)
    and the backslash (92) among them. *)
Definition specialCodes : list N :=
  [33; 64; 35; 36; 37; 94; 38; 42; 40; 41; 95; 43; 45; 61; 91; 93; 123; 125;
   59; 39; 58; 34; 92; 124; 44; 46; 60; 62; 47; 63]%N.

Definition isSpecial (c : ascii) : bool :=
  existsb (N.eqb (code c)) specialCodes.

(** [.] of a regular expression: any character but a line terminator. *)
Definition isDot (c : ascii) : bool :=
  negb (N.eqb (code c) 10) && negb (N.eqb (code c) 13).

(** [re.test(s)] for a one-character class. *)
Fixpoint test (cls : ascii -> bool) (s : string) : bool :=
  match s with
  | EmptyString => false
  | String c s' => cls c || test cls s'
  end.

(** The capital letters of the Latin-1 supplement: the code units from 192
    to 222, the multiplication sign (215) apart. *)
Definition isUpperLatin1 (c : ascii) : bool :=
  inRange 192 222 c && negb (N.eqb (code c) 215).

(** [toLowerCase] on one code unit below 256: a capital letter of either
    range has its small letter 32 units above it. *)
Definition lowerChar (c : ascii) : ascii :=
  if isUpper c || isUpperLatin1 c then ascii_of_N (code c + 32) else c.

Fixpoint toLowerCase (s : string) : string :=
  match s with
  | EmptyString => EmptyString
  | String c s' => String (lowerChar c) (toLowerCase s')
  end.

(** [s.includes(sub)] *)
Fixpoint includes (s sub : string) : bool :=
  match s with
  | EmptyString => String.prefix sub EmptyString
  | String _ s' => String.prefix sub s || includes s' sub
  end.

(** [s.split(sep)[0]] for a one-character separator. *)
Fixpoint splitHead (sep : ascii) (s : string) : string :=
  match s with
  | EmptyString => EmptyString
  | String c s' => if Ascii.eqb c sep then EmptyString else String c (splitHead sep s')
  end.

(** [s.split(sep).slice(1).join(sep)] for a one-character separator: what
    follows the first separator, nothing when there is none. *)
Fixpoint splitRest (sep : ascii) (s : string) : string :=
  match s with
  | EmptyString => EmptyString
  | String c s' => if Ascii.eqb c sep then s' else splitRest sep s'
  end.

(** [/(.)\1{2,}/.test(s)]: some character other than a line terminator
    stands three times in a row. *)
Fixpoint hasTripleRun (s : string) : bool :=
  match s with
  | EmptyString => false
  | String a s1 =>
      match s1 with
      | String b (String c _) =>
          (isDot a && Ascii.eqb a b && Ascii.eqb b c) || hasTripleRun s1
      | _ => false
      end
  end.

(** White space and line terminators of [trim], among the code units below
    256: tab to carriage return, the space and the no-break space. *)
Definition isSpace (c : ascii) : bool :=
  inRange 9 13 c || N.eqb (code c) 32 || N.eqb (code c) 160.

Fixpoint trimStart (s : string) : string :=
  match s with
  | EmptyString => EmptyString
  | String c s' => if isSpace c then trimStart s' else s
  end.

Fixpoint trimEnd (s : string) : string :=
  match s with
  | EmptyString => EmptyString
  | String c s' =>
      let r := trimEnd s' in
      if isSpace c && String.eqb r EmptyString then EmptyString else String c r
  end.

(** [s.trim()] *)
Definition trim (s : string) : string := trimEnd (trimStart s).

(** Truthiness of a value that is a string or [undefined]. *)
Definition truthy (v : option string) : bool :=
  match v with
  | Some s => negb (String.eqb s EmptyString)
  | None => false
  end.

(** The string of a value known to be one. *)
Definition str (v : option string) : string :=
  match v with
  | Some s => s
  | None => EmptyString
  end.

(** [v || d] for a string literal [d]. *)
Definition orDefault (v : option string) (d : string) : string :=
  if truthy v then str v else d.

(** [a || b] on such values. *)
Definition orElse (a b : option string) : option string :=
  if truthy a then a else b.

(** [String(n)] for an integer, as a template literal prints it. *)
Definition ofZ (n : Z) : string := pretty n.

(** [/[^a-zA-Z0-9]/]: a character that is neither a letter nor a digit. *)
Definition isOther (c : ascii) : bool :=
  negb (isLower c || isUpper c || isDigit c).

(** The lookahead [(?=.*[cls])] at the start of [s]: a character of the
    class stands ahead, with no line terminator before it. *)
Fixpoint ahead (cls : ascii -> bool) (s : string) : bool :=
  match s with
  | EmptyString => false
  | String c s' => cls c || (isDot c && ahead cls s')
  end.

(** [re.test(s)] for an expression that is not anchored: the match is tried
    at every position of [s], [re] deciding the match at the start of a
    string. *)
Fixpoint testAt (re : string -> bool) (s : string) : bool :=
  re s || match s with
          | EmptyString => false
          | String _ s' => testAt re s'
          end.

End Js.

(** ** utils/passwordValidator.js *)

Module PasswordValidator.

(** The result of a list-valued check: [{ isValid, errors }]. *)
Record Validation := { isValid : bool; errors : list string }.

(** The result of a single-valued check: [{ isValid, error }]. *)
Record Check1 := { isValid1 : bool; error : option string }.

(** [userInfo]: each field is a string or [undefined]. *)
Record UserInfo := {
  email : option string;
  firstname : option string;
  lastname : option string
}.

Definition msgTooShort := "Password must be at least 8 characters long".
Definition msgTooLong := "Password must not exceed 128 characters".
Definition msgNoUpper := "Password must contain at least one uppercase letter".
Definition msgNoLower := "Password must contain at least one lowercase letter".
Definition msgNoDigit := "Password must contain at least one number".
Definition msgNoSpecial :=
  "Password must contain at least one special character (!@#$%^&*()_+-=[]{}; etc.)".
Definition msgCommon := "Password is too common and easily guessable".
Definition msgRepeated :=
  "Password should not contain repeated characters (e.g., aaa, 111)".
Definition msgMismatch := "Passwords do not match".
Definition msgEmail := "Password should not contain your email address".
Definition msgFirstName := "Password should not contain your first name".
Definition msgLastName := "Password should not contain your last name".

Definition commonPasswords : list string :=
  [ "password"; "password123"; "12345678"; "qwerty"; "abc123";
    "password1"; "123456789"; "12345"; "1234567890"; "letmein";
    "welcome"; "monkey"; "dragon"; "master"; "sunshine"; "princess";
    "admin"; "admin123"; "root"; "toor"; "pass"; "test"; "guest" ].

(** [errors.push(m)] when [c] holds. *)
Definition pushIf (c : bool) (m : string) (errs : list string) : list string :=
  if c then errs ++ [m] else errs.

Definition validatePasswordStrength (password : string) : Validation :=
  let len := Z.of_nat (String.length password) in
  let errs := [] in
  let errs := pushIf (len <? 8) msgTooShort errs in
  let errs := pushIf (128 <? len) msgTooLong errs in
  let errs := pushIf (negb (Js.test Js.isUpper password)) msgNoUpper errs in
  let errs := pushIf (negb (Js.test Js.isLower password)) msgNoLower errs in
  let errs := pushIf (negb (Js.test Js.isDigit password)) msgNoDigit errs in
  let errs := pushIf (negb (Js.test Js.isSpecial password)) msgNoSpecial errs in
  let errs :=
    pushIf (existsb (String.eqb (Js.toLowerCase password)) commonPasswords)
           msgCommon errs in
  let errs := pushIf (Js.hasTripleRun password) msgRepeated errs in
  {| isValid := Nat.eqb (List.length errs) 0; errors := errs |}.

Definition validatePasswordMatch (password confirmPassword : string) : Check1 :=
  if negb (String.eqb password confirmPassword)
  then {| isValid1 := false; error := Some msgMismatch |}
  else {| isValid1 := true; error := None |}.

(** [v && v.length >= 3 && lowerPassword.includes(v.toLowerCase())] *)
Definition nameContained (lowerPassword : string) (v : option string) : bool :=
  match v with
  | Some n =>
      Js.truthy v && (3 <=? Z.of_nat (String.length n))
      && Js.includes lowerPassword (Js.toLowerCase n)
  | None => false
  end.

(** [if (email) { ... lowerPassword.includes(emailLocalPart) }] *)
Definition emailContained (lowerPassword : string) (v : option string) : bool :=
  match v with
  | Some e =>
      Js.truthy v
      && Js.includes lowerPassword (Js.toLowerCase (Js.splitHead "@" e))
  | None => false
  end.

Definition validatePasswordNoUserInfo (password : string) (userInfo : UserInfo)
  : Check1 :=
  let lowerPassword := Js.toLowerCase password in
  if emailContained lowerPassword (email userInfo)
  then {| isValid1 := false; error := Some msgEmail |}
  else if nameContained lowerPassword (firstname userInfo)
  then {| isValid1 := false; error := Some msgFirstName |}
  else if nameContained lowerPassword (lastname userInfo)
  then {| isValid1 := false; error := Some msgLastName |}
  else {| isValid1 := true; error := None |}.

(** [allErrors.push(check.error)] when the check failed. *)
Definition pushError (c : Check1) (errs : list string) : list string :=
  if isValid1 c then errs
  else match error c with Some m => errs ++ [m] | None => errs end.

(** [validatePassword(password, confirmPassword = null, userInfo = null)].
    The confirmation is a string or [None]: [None] is [null], which
    [signup] passes, and is also what the default of the parameter makes of
    an argument that is [undefined], as the [confirmPassword] of a request
    body without that field is. *)
Definition validatePassword (password : string) (confirmPassword : option string)
    (userInfo : option UserInfo) : Validation :=
  let allErrors := [] in
  let strengthCheck := validatePasswordStrength password in
  let allErrors :=
    if isValid strengthCheck then allErrors
    else allErrors ++ errors strengthCheck in
  let allErrors :=
    match confirmPassword with
    | None => allErrors
    | Some c => pushError (validatePasswordMatch password c) allErrors
    end in
  let allErrors :=
    match userInfo with
    | Some info => pushError (validatePasswordNoUserInfo password info) allErrors
    | None => allErrors
    end in
  {| isValid := Nat.eqb (List.length allErrors) 0; errors := allErrors |}.

(** The result of [calculatePasswordStrength]: [{ score, strength }]. *)
Record Strength := { score : Z; strength : string }.

(** [/(?=.*[a-z])(?=.*[A-Z])(?=.*[0-9])(?=.*[^a-zA-Z0-9])/] at the start of
    a string: the four lookaheads hold there. *)
Definition allClassesAhead (s : string) : bool :=
  Js.ahead Js.isLower s && Js.ahead Js.isUpper s
  && Js.ahead Js.isDigit s && Js.ahead Js.isOther s.

(** The label of a score. *)
Definition strengthLabel (score : Z) : string :=
  if score <? 30 then "Very Weak"
  else if score <? 50 then "Weak"
  else if score <? 70 then "Moderate"
  else if score <? 90 then "Strong"
  else "Very Strong".

(** [if (c) score += 10] *)
Definition bonus (c : bool) (score : Z) : Z :=
  if c then score + 10 else score.

(** The variable [score] of [calculatePasswordStrength] when the label is
    determined, for a password that is not empty. *)
Definition rawScore (password : string) : Z :=
  let len := Z.of_nat (String.length password) in
  let score := 0 in
  let score := score + Z.min (len * 2) 30 in
  let score := bonus (Js.test Js.isLower password) score in
  let score := bonus (Js.test Js.isUpper password) score in
  let score := bonus (Js.test Js.isDigit password) score in
  let score := bonus (Js.test Js.isOther password) score in
  let score := bonus (12 <=? len) score in
  let score := bonus (16 <=? len) score in
  bonus (Js.testAt allClassesAhead password) score.

Definition calculatePasswordStrength (password : option string) : Strength :=
  if negb (Js.truthy password) then {| score := 0; strength := "Very Weak" |}
  else
    let score := rawScore (Js.str password) in
    {| score := Z.min score 100; strength := strengthLabel score |}.

End PasswordValidator.

(** ** The password policy, rule by rule

    The rules the validator checks, each with the condition under which the
    source counts it violated and the message it pushes.  [violatedRules]
    follows the words of the specification (every violated rule is listed);
    [reportedRules] is what the source reports. *)
Module PasswordPolicy.

Import PasswordValidator.

Variant Rule :=
| TooShort | TooLong | NoUpper | NoLower | NoDigit | NoSpecial | Common | Repeated
| Mismatch
| ContainsEmail | ContainsFirstName | ContainsLastName.

Definition strengthRules : list Rule :=
  [TooShort; TooLong; NoUpper; NoLower; NoDigit; NoSpecial; Common; Repeated].

Definition containmentRules : list Rule :=
  [ContainsEmail; ContainsFirstName; ContainsLastName].

Definition allRules : list Rule := strengthRules ++ [Mismatch] ++ containmentRules.

Definition ruleMessage (r : Rule) : string :=
  match r with
  | TooShort => msgTooShort
  | TooLong => msgTooLong
  | NoUpper => msgNoUpper
  | NoLower => msgNoLower
  | NoDigit => msgNoDigit
  | NoSpecial => msgNoSpecial
  | Common => msgCommon
  | Repeated => msgRepeated
  | Mismatch => msgMismatch
  | ContainsEmail => msgEmail
  | ContainsFirstName => msgFirstName
  | ContainsLastName => msgLastName
  end.

(** The condition of each rule, as the source tests it. *)
Definition violated (password : string) (confirm : option string) (info : UserInfo)
    (r : Rule) : bool :=
  let len := Z.of_nat (String.length password) in
  let lowerPassword := Js.toLowerCase password in
  match r with
  | TooShort => len <? 8
  | TooLong => 128 <? len
  | NoUpper => negb (Js.test Js.isUpper password)
  | NoLower => negb (Js.test Js.isLower password)
  | NoDigit => negb (Js.test Js.isDigit password)
  | NoSpecial => negb (Js.test Js.isSpecial password)
  | Common => existsb (String.eqb lowerPassword) commonPasswords
  | Repeated => Js.hasTripleRun password
  | Mismatch =>
      match confirm with
      | Some c => negb (String.eqb password c)
      | None => false
      end
  | ContainsEmail => emailContained lowerPassword (email info)
  | ContainsFirstName => nameContained lowerPassword (firstname info)
  | ContainsLastName => nameContained lowerPassword (lastname info)
  end.

(** The specification's reading: the message of every violated rule. *)
Definition violatedRules (password : string) (confirm : option string) (info : UserInfo)
  : list Rule :=
  List.filter (violated password confirm info) allRules.

(** What the source reports: every violated strength rule, the mismatch, and
    of the containment rules only the first violated one, in the order
    email, first name, last name. *)
Definition reported (password : string) (confirm : option string) (info : UserInfo)
    (r : Rule) : bool :=
  let v := violated password confirm info in
  match r with
  | ContainsFirstName => v ContainsFirstName && negb (v ContainsEmail)
  | ContainsLastName =>
      v ContainsLastName && negb (v ContainsEmail) && negb (v ContainsFirstName)
  | _ => v r
  end.

Definition reportedRules (password : string) (confirm : option string) (info : UserInfo)
  : list Rule :=
  List.filter (reported password confirm info) allRules.

End PasswordPolicy.

(** ** Documents, exceptions and collections *)

(** An [ObjectId] is an integer; a [Date] is its time in milliseconds. *)
Abbreviation ObjectId := Z (only parsing).
Abbreviation Date := Z (only parsing).

(** A thrown JavaScript exception: [error.name] and [error.message]. *)
Record Exn := { name : string; message : string }.

Inductive Try (A : Type) :=
| Ok (a : A)
| Throw (e : Exn).
Arguments Ok {A} a.
Arguments Throw {A} e.

(** A failed schema validator: the path and the validator's message. *)
Definition PathError := (string * string)%type.

(** Mongoose's [ValidationError] for the failed validators of a model. *)
Definition ValidationError (model : string) (errs : list PathError) : Exn :=
  {| name := "ValidationError";
     message := model +:+ " validation failed: "
       +:+ String.concat ", " (map (fun pe => fst pe +:+ ": " +:+ snd pe) errs) |}.

(** The [ValidationError] of the validators of an update, which names no
    model. *)
Definition UpdateValidationError (errs : list PathError) : Exn :=
  {| name := "ValidationError";
     message := "Validation failed: "
       +:+ String.concat ", " (map (fun pe => fst pe +:+ ": " +:+ snd pe) errs) |}.

(** The server's duplicate-key error for a unique index. *)
Definition DuplicateKey (collection index value : string) : Exn :=
  {| name := "MongoServerError";
     message := "E11000 duplicate key error collection: " +:+ collection
       +:+ " index: " +:+ index +:+ " dup key: " +:+ value |}.

Definition TypeError (m : string) : Exn := {| name := "TypeError"; message := m |}.
Definition Error (m : string) : Exn := {| name := "Error"; message := m |}.

(** [required] on a String path: the value is a non-empty string. *)
Definition requiredStr (path msg : string) (v : option string) : list PathError :=
  if Js.truthy v then [] else [(path, msg)].

(** [enum] on a String path. *)
Definition enumStr (path : string) (allowed : list string) (v : string) : list PathError :=
  if existsb (String.eqb v) allowed then []
  else [(path, "`" +:+ v +:+ "` is not a valid enum value for path `" +:+ path +:+ "`.")].

(** A fresh [_id]: one that no document of the collection carries. *)
Definition freshId (ids : list ObjectId) : ObjectId := 1 + fold_right Z.max 0 ids.

(** [updateOne] on a collection: the first document that matches is updated. *)
Fixpoint updateFirst {A : Type} (p : A -> bool) (f : A -> A) (docs : list A) : list A :=
  match docs with
  | [] => []
  | d :: rest => if p d then f d :: rest else d :: updateFirst p f rest
  end.

(** *** model/Post: the Post schema is not part of the sources; the hook of
    the User schema reads its [author] and [createdAt]. *)
Module Post.

Record t := { author : ObjectId; createdAt : Date }.

(** [Post.find({ author: userId })] *)
Definition find (userId : ObjectId) (posts : list t) : list t :=
  List.filter (fun p => author p =? userId) posts.

End Post.

(** *** model/User.js (the list-valued social fields are left out) *)
Module User.

Record t := {
  _id : ObjectId;
  firstname : string;
  lastname : string;
  image : option string;
  email : string;
  phone : option string;
  password : string;
  passwordChangedAt : option Date;
  tokenVersion : Z;
  loginAttempts : Z;
  lockUntil : option Date;
  lastLogin : option Date;
  lastPasswordChange : option Date;
  isBlocked : bool;
  role : string;
  plan : string;
  userAward : string
}.

Definition setIsBlocked (b : bool) (u : t) : t :=
  {| _id := _id u; firstname := firstname u; lastname := lastname u;
     image := image u; email := email u; phone := phone u; password := password u;
     passwordChangedAt := passwordChangedAt u; tokenVersion := tokenVersion u;
     loginAttempts := loginAttempts u; lockUntil := lockUntil u;
     lastLogin := lastLogin u; lastPasswordChange := lastPasswordChange u;
     isBlocked := b; role := role u; plan := plan u; userAward := userAward u |}.

Definition setUserAward (a : string) (u : t) : t :=
  {| _id := _id u; firstname := firstname u; lastname := lastname u;
     image := image u; email := email u; phone := phone u; password := password u;
     passwordChangedAt := passwordChangedAt u; tokenVersion := tokenVersion u;
     loginAttempts := loginAttempts u; lockUntil := lockUntil u;
     lastLogin := lastLogin u; lastPasswordChange := lastPasswordChange u;
     isBlocked := isBlocked u; role := role u; plan := plan u; userAward := a |}.

(** The lockout fields, as one update writes them. *)
Definition setLockout (attempts : Z) (lock : option Date) (login : option Date) (u : t) : t :=
  {| _id := _id u; firstname := firstname u; lastname := lastname u;
     image := image u; email := email u; phone := phone u; password := password u;
     passwordChangedAt := passwordChangedAt u; tokenVersion := tokenVersion u;
     loginAttempts := attempts; lockUntil := lock;
     lastLogin := login; lastPasswordChange := lastPasswordChange u;
     isBlocked := isBlocked u; role := role u; plan := plan u; userAward := userAward u |}.

(** The password fields, as the pre-save hook writes them. *)
Definition setPassword (hash : string) (changed : option Date) (version : Z) (u : t) : t :=
  {| _id := _id u; firstname := firstname u; lastname := lastname u;
     image := image u; email := email u; phone := phone u; password := hash;
     passwordChangedAt := changed; tokenVersion := version;
     loginAttempts := loginAttempts u; lockUntil := lockUntil u;
     lastLogin := lastLogin u; lastPasswordChange := changed;
     isBlocked := isBlocked u; role := role u; plan := plan u; userAward := userAward u |}.

(** The profile fields, as [updateProfile] writes them. *)
Definition setProfile (first last mail : string) (tel img : option string) (u : t) : t :=
  {| _id := _id u; firstname := first; lastname := last;
     image := img; email := mail; phone := tel; password := password u;
     passwordChangedAt := passwordChangedAt u; tokenVersion := tokenVersion u;
     loginAttempts := loginAttempts u; lockUntil := lockUntil u;
     lastLogin := lastLogin u; lastPasswordChange := lastPasswordChange u;
     isBlocked := isBlocked u; role := role u; plan := plan u; userAward := userAward u |}.

Definition hasId (id : ObjectId) (u : t) : bool := _id u =? id.

(** [User.findByIdAndUpdate(id, update)]: no [findOne] hook runs. *)
Definition findByIdAndUpdate (id : ObjectId) (update : t -> t) (users : list t) : list t :=
  updateFirst (hasId id) update users.

(** [this.updateOne(update)] on a loaded document. *)
Definition updateOne (this : t) (update : t -> t) (users : list t) : list t :=
  updateFirst (hasId (_id this)) update users.

Definition DAY : Z := 1000 * 3600 * 24.

(** [userAward] from the number of posts. *)
Definition awardFor (n : nat) : string :=
  if (Z.of_nat n <? 10) then "Bronze"
  else if (Z.of_nat n <? 20) then "Silver"
  else "Gold".

(** [UserSchema.pre("findOne")]: the store effect of the hook for a query
    whose [_id] condition is [userId].  [diff > 30] compares days as a
    quotient by [DAY]; on integers of milliseconds that is
    [30 * DAY < now - lastPostDate]. *)
Definition preFindOne (userId : ObjectId) (posts : list Post.t) (now : Date)
    (users : list t) : list t :=
  let found := Post.find userId posts in
  match last found with
  | Some lastPost =>
      let lastPostDate := Post.createdAt lastPost in
      let users :=
        if 30 * DAY <? now - lastPostDate
        then findByIdAndUpdate userId (setIsBlocked true) users
        else findByIdAndUpdate userId (setIsBlocked false) users in
      findByIdAndUpdate userId (setUserAward (awardFor (List.length found))) users
  | None => users
  end.

(** The effect of the [findOne] hook on the document of the queried [_id]
    when the user has posts, [lastPost] being the last one found. *)
Definition hookUpdate (found : list Post.t) (lastPost : Post.t) (now : Date)
    (u : t) : t :=
  setUserAward (awardFor (List.length found))
    (setIsBlocked (30 * DAY <? now - Post.createdAt lastPost) u).

(** [User.findById(id)]: the hook, then the query. *)
Definition findById (id : ObjectId) (posts : list Post.t) (now : Date)
    (users : list t) : option t * list t :=
  let users := preFindOne id posts now users in
  (List.find (hasId id) users, users).

(** [User.findOne({ email })].  The hook runs with [_conditions._id]
    undefined, so each [findByIdAndUpdate(undefined, ...)] of it matches no
    document: the collection is left as it is.  The filter is cast by the
    schema ([trim]); an undefined [email] matches no stored user, whose
    [email] is required. *)
Definition findOneByEmail (e : option string) (users : list t) : option t :=
  match e with
  | Some e => List.find (fun u => String.eqb (email u) (Js.trim e)) users
  | None => None
  end.

(** The virtual [isLocked]. *)
Definition isLocked (u : t) (now : Date) : bool :=
  match lockUntil u with
  | Some l => now <? l
  | None => false
  end.

Definition maxAttempts : Z := 5.
Definition lockTime : Z := 2 * 60 * 60 * 1000.

(** [incLoginAttempts]: [$inc] and [$set] act on the stored document, the
    conditions read the loaded one. *)
Definition incLoginAttempts (this : t) (now : Date) (users : list t) : list t :=
  let expired :=
    match lockUntil this with Some l => l <? now | None => false end in
  if expired then
    updateOne this (fun d => setLockout 1 None (lastLogin d) d) users
  else if (maxAttempts <=? loginAttempts this + 1) && negb (isLocked this now) then
    updateOne this
      (fun d => setLockout (loginAttempts d + 1) (Some (now + lockTime)) (lastLogin d) d)
      users
  else
    updateOne this
      (fun d => setLockout (loginAttempts d + 1) (lockUntil d) (lastLogin d) d) users.

Definition resetLoginAttempts (this : t) (now : Date) (users : list t) : list t :=
  updateOne this (fun d => setLockout 0 None (Some now) d) users.

Definition isTokenVersionValid (this : t) (tokenVersion' : Z) : bool :=
  tokenVersion this =? tokenVersion'.

(** [{ $inc: { tokenVersion: 1 } }] *)
Definition incTokenVersion (u : t) : t :=
  {| _id := _id u; firstname := firstname u; lastname := lastname u;
     image := image u; email := email u; phone := phone u; password := password u;
     passwordChangedAt := passwordChangedAt u; tokenVersion := tokenVersion u + 1;
     loginAttempts := loginAttempts u; lockUntil := lockUntil u;
     lastLogin := lastLogin u; lastPasswordChange := lastPasswordChange u;
     isBlocked := isBlocked u; role := role u; plan := plan u; userAward := userAward u |}.

End User.

(** *** model/TokenBlacklist.js *)
Module TokenBlacklist.

Record t := {
  token : string;
  userId : ObjectId;
  reason : string;
  expiresAt : Date;
  blacklistedAt : Date;
  ipAddress : option string;
  userAgent : option string
}.

(** The [enum] of the [reason] path. *)
Definition reasons : list string :=
  ["logout"; "password_change"; "account_deleted"; "forced_logout"; "expired"].

(** [isBlacklisted]: an entry for the token whose [expiresAt] is still ahead. *)
Definition isBlacklisted (tok : string) (now : Date) (entries : list t) : bool :=
  match List.find (fun e => String.eqb (token e) tok && (now <? expiresAt e)) entries with
  | Some _ => true
  | None => false
  end.

(** The unique index on [token]. *)
Definition hasToken (tok : string) (entries : list t) : bool :=
  existsb (fun e => String.eqb (token e) tok) entries.

(** [TokenBlacklist.create(doc)]: the schema validators, then the insert
    under the unique index on [token]. *)
Definition create (doc : t) (entries : list t) : Try (list t) :=
  match requiredStr "token" "Path `token` is required." (Some (token doc))
        ++ enumStr "reason" reasons (reason doc) with
  | [] =>
      if hasToken (token doc) entries
      then Throw (DuplicateKey "tokenblacklists" "token_1" (token doc))
      else Ok (entries ++ [doc])
  | errs => Throw (ValidationError "TokenBlacklist" errs)
  end.

(** [blacklistToken(token, userId, expiresAt, reason, metadata)] *)
Definition blacklistToken (tok : string) (uid : ObjectId) (expires : Date)
    (why : string) (ip ua : option string) (now : Date) (entries : list t)
  : Try (list t) :=
  create {| token := tok; userId := uid; reason := why; expiresAt := expires;
            blacklistedAt := now; ipAddress := ip; userAgent := ua |} entries.

(** [blacklistAllUserTokens(userId, reason)]: the token version of the user
    is incremented; the reason is not read. *)
Definition blacklistAllUserTokens (uid : ObjectId) (why : string) (users : list User.t)
  : list User.t :=
  User.findByIdAndUpdate uid User.incTokenVersion users.

(** [cleanupExpired()]: the entries whose [expiresAt] is behind are deleted;
    the number of deleted entries, and the entries left. *)
Definition cleanupExpired (now : Date) (entries : list t) : nat * list t :=
  (List.length (List.filter (fun e => expiresAt e <? now) entries),
   List.filter (fun e => negb (expiresAt e <? now)) entries).

End TokenBlacklist.

(** *** model/Session.js (device and location details and the timestamps
    are left out) *)
Module Session.

Record t := {
  _id : ObjectId;
  userId : ObjectId;
  token : string;
  refreshToken : option string;
  ipAddress : option string;
  userAgent : option string;
  lastActivity : Date;
  expiresAt : Date;
  isActive : bool
}.

Definition setIsActive (b : bool) (s : t) : t :=
  {| _id := _id s; userId := userId s; token := token s;
     refreshToken := refreshToken s; ipAddress := ipAddress s;
     userAgent := userAgent s; lastActivity := lastActivity s;
     expiresAt := expiresAt s; isActive := b |}.

Definition setLastActivity (d : Date) (s : t) : t :=
  {| _id := _id s; userId := userId s; token := token s;
     refreshToken := refreshToken s; ipAddress := ipAddress s;
     userAgent := userAgent s; lastActivity := d;
     expiresAt := expiresAt s; isActive := isActive s |}.

Definition hasId (id : ObjectId) (s : t) : bool := _id s =? id.

(** [this.field = v; await this.save()] on a loaded session: the save
    writes the modified path to the stored document of that [_id]. *)
Definition save (this : t) (modify : t -> t) (sessions : list t) : list t :=
  updateFirst (hasId (_id this)) modify sessions.

(** The fields [Session.create] is called with. *)
Record Fields := {
  f_userId : ObjectId;
  f_token : string;
  f_refreshToken : string;
  f_ipAddress : option string;
  f_userAgent : option string;
  f_expiresAt : Date
}.

Definition hasToken (tok : string) (sessions : list t) : bool :=
  existsb (fun s => String.eqb (token s) tok) sessions.

(** The validators of the Session schema on the fields of a new session:
    [required] on the String paths [token] and [ipAddress]. *)
Definition failedValidators (f : Fields) : list PathError :=
  requiredStr "token" "Path `token` is required." (Some (f_token f))
  ++ requiredStr "ipAddress" "Path `ipAddress` is required." (f_ipAddress f).

(** [Session.create(fields)]: the schema defaults and validators, then the
    insert under the unique index on [token].  Mongoose records a failed
    validator by calling [invalidate(path, error)] on the document, and on
    a session that name is the method of the schema (Session.js, line 91),
    which stands in the place of Mongoose's own: the call sets [isActive]
    to false with the path as its reason, no validation error is recorded,
    and the document is inserted as it then is.  The promise of that call
    is dropped; what it goes on to do writes nothing (the path is no reason
    of the blacklist's enum). *)
Definition create (f : Fields) (now : Date) (sessions : list t) : Try (t * list t) :=
  let valid := match failedValidators f with [] => true | _ => false end in
  if hasToken (f_token f) sessions
  then Throw (DuplicateKey "sessions" "token_1" (f_token f))
  else
    let doc :=
      {| _id := freshId (map _id sessions); userId := f_userId f;
         token := f_token f; refreshToken := Some (f_refreshToken f);
         ipAddress := f_ipAddress f;
         userAgent := f_userAgent f; lastActivity := now;
         expiresAt := f_expiresAt f; isActive := valid |} in
    Ok (doc, sessions ++ [doc]).

(** [updateActivity] *)
Definition updateActivity (this : t) (now : Date) (sessions : list t) : t * list t :=
  (setLastActivity now this, save this (setLastActivity now) sessions).

(** [isInactive(maxInactivityMinutes)]: the quotient of milliseconds by
    [1000 * 60] exceeds the bound. *)
Definition isInactive (this : t) (maxInactivityMinutes : Z) (now : Date) : bool :=
  maxInactivityMinutes * (1000 * 60) <? now - lastActivity this.

(** [invalidate(reason)]: the session is saved inactive, then its token is
    blacklisted; the second step may throw after the first took effect. *)
Definition invalidate (this : t) (why : string) (now : Date)
    (sessions : list t) (entries : list TokenBlacklist.t)
  : list t * Try (list TokenBlacklist.t) :=
  let sessions := save this (setIsActive false) sessions in
  (sessions,
   TokenBlacklist.blacklistToken (token this) (userId this) (expiresAt this) why
     (ipAddress this) (userAgent this) now entries).

(** [Session.findOne({ token, userId, isActive: true })] *)
Definition findActive (tok : string) (uid : ObjectId) (sessions : list t) : option t :=
  List.find (fun s => String.eqb (token s) tok && (userId s =? uid) && isActive s) sessions.

(** [Session.updateOne({ refreshToken, userId }, { $set: { isActive: false } })] *)
Definition deactivateByRefreshToken (rt : string) (uid : ObjectId) (sessions : list t)
  : list t :=
  updateFirst
    (fun s => match refreshToken s with
              | Some r => String.eqb r rt && (userId s =? uid)
              | None => false
              end)
    (setIsActive false) sessions.

(** The loop of [invalidateAllUserSessions] over the sessions found. *)
Fixpoint invalidateEach (found : list t) (uid : ObjectId) (why : string) (now : Date)
    (sessions : list t) (entries : list TokenBlacklist.t)
  : list t * list TokenBlacklist.t * option Exn :=
  match found with
  | [] => (sessions, entries, None)
  | s :: rest =>
      let sessions := save s (setIsActive false) sessions in
      match TokenBlacklist.blacklistToken (token s) uid (expiresAt s) why
              (ipAddress s) (userAgent s) now entries with
      | Ok entries => invalidateEach rest uid why now sessions entries
      | Throw e => (sessions, entries, Some e)
      end
  end.

(** [invalidateAllUserSessions(userId, reason)]: the number of sessions
    found, or the exception that stopped the loop. *)
Definition invalidateAllUserSessions (uid : ObjectId) (why : string) (now : Date)
    (sessions : list t) (entries : list TokenBlacklist.t)
  : list t * list TokenBlacklist.t * Try nat :=
  let found := List.filter (fun s => (userId s =? uid) && isActive s) sessions in
  match invalidateEach found uid why now sessions entries with
  | (sessions, entries, None) => (sessions, entries, Ok (List.length found))
  | (sessions, entries, Some e) => (sessions, entries, Throw e)
  end.

(** Insertion into a list that descends by [lastActivity], before the
    first session that was not active later. *)
Fixpoint insertByActivity (s : t) (sorted : list t) : list t :=
  match sorted with
  | [] => [s]
  | x :: rest =>
      if lastActivity x <=? lastActivity s then s :: sorted
      else x :: insertByActivity s rest
  end.

(** [findActiveSessions(userId)]: the active sessions of the user that have
    not expired, by descending [lastActivity].  Sessions of one
    [lastActivity] stand here in their natural order; MongoDB leaves the
    order of such sessions open. *)
Definition findActiveSessions (uid : ObjectId) (now : Date) (sessions : list t) : list t :=
  fold_right insertByActivity []
    (List.filter (fun s => (userId s =? uid) && isActive s && (now <? expiresAt s))
       sessions).

(** The filter of [cleanupInactiveSessions]: the session is expired, or it
    is active and its last activity is before the cutoff. *)
Definition stale (cutoffTime now : Date) (s : t) : bool :=
  (expiresAt s <? now) || ((lastActivity s <? cutoffTime) && isActive s).

(** [cleanupInactiveSessions(inactivityHours)]: the number of deleted
    sessions, and the sessions left. *)
Definition cleanupInactiveSessions (inactivityHours : Z) (now : Date) (sessions : list t)
  : nat * list t :=
  let cutoffTime := now - inactivityHours * 60 * 60 * 1000 in
  (List.length (List.filter (stale cutoffTime now) sessions),
   List.filter (fun s => negb (stale cutoffTime now s)) sessions).

End Session.

(** ** utils/generateToken.js *)
Module Jwt.

Variant TokenType := access | refresh.

Definition typeName (t : TokenType) : string :=
  match t with access => "access" | refresh => "refresh" end.

Definition typeEqb (a b : TokenType) : bool :=
  match a, b with
  | access, access | refresh, refresh => true
  | _, _ => false
  end.

(** The claims of a token this server signs. *)
Record Payload := {
  id : ObjectId;
  type : TokenType;
  tokenVersion : option Z;
  jti : string;
  iat : Z;
  exp : Z;
  ipAddress : option string;
  userAgent : option string
}.

(** [{ ipAddress, userAgent }] of [getClientMetadata]. *)
Record Metadata := { m_ipAddress : option string; m_userAgent : string }.

Fixpoint digitsValue (acc : Z) (s : string) : option Z :=
  match s with
  | EmptyString => Some acc
  | String c s' =>
      if Js.isDigit c
      then digitsValue (10 * acc + Z.of_N (Js.code c - 48)) s'
      else None
  end.

Definition unitMs (c : ascii) : option Z :=
  if Ascii.eqb c "s" then Some 1000
  else if Ascii.eqb c "m" then Some (60 * 1000)
  else if Ascii.eqb c "h" then Some (60 * 60 * 1000)
  else if Ascii.eqb c "d" then Some (24 * 60 * 60 * 1000)
  else None.

(** Splits a string into all but its last character, and the last. *)
Fixpoint unsnoc (s : string) : option (string * ascii) :=
  match s with
  | EmptyString => None
  | String c s' =>
      match unsnoc s' with
      | None => Some (EmptyString, c)
      | Some (init, l) => Some (String c init, l)
      end
  end.

(** [parseExpiration]: the expression [^(\d+)([smhd])$] and the product. *)
Definition parseExpiration (expiration : string) : Try Z :=
  let bad := Throw (Error ("Invalid expiration format: " +:+ expiration)) in
  match unsnoc expiration with
  | Some (String c ds, u) =>
      match digitsValue 0 (String c ds), unitMs u with
      | Some v, Some ms => Ok (v * ms)
      | _, _ => bad
      end
  | _ => bad
  end.

End Jwt.

(** ** Requests, responses and the store *)
Module Http.

(** A scalar of a JSON document. *)
Variant Scalar :=
| SStr (s : string)
| SNum (n : Z)
| SBool (b : bool).

(** A plain object with scalar fields, keyed by field name. *)
Abbreviation Object := (gmap string Scalar).

(** The Express request, as far as the handlers read and extend it.  The
    fields of [body], [cookies] and [headers] are strings when present. *)
Record Request := {
  cookies : gmap string string;
  headers : gmap string string;
  ip : option string;
  remoteAddress : option string;
  body : gmap string string;
  user : option User.t;
  token : option string;
  session : option Session.t
}.

(** [req.user = user; req.token = token; req.session = session] *)
Definition attach (req : Request) (u : User.t) (tok : string) (s : option Session.t)
  : Request :=
  {| cookies := cookies req; headers := headers req; ip := ip req;
     remoteAddress := remoteAddress req; body := body req;
     user := Some u; token := Some tok; session := s |}.

(** The request with another body. *)
Definition withBody (b : gmap string string) (req : Request) : Request :=
  {| cookies := cookies req; headers := headers req; ip := ip req;
     remoteAddress := remoteAddress req; body := b;
     user := user req; token := token req; session := session req |}.

(** The JSON body of a response: [success], [token], [refreshToken],
    [message], [count], and [data], which is an object ([data]) or an array
    of objects ([rows]). *)
Record Body := {
  success : bool;
  b_token : option string;
  b_refreshToken : option string;
  b_message : option string;
  b_count : option Z;
  data : option Object;
  rows : option (list Object)
}.

(** What a handler hands to Express. *)
Variant Outcome :=
| Respond (status : Z) (payload : Body) (setCookies : list (string * string))
| NextError (msg : string) (statusCode : Z)
| NextThrown (e : Exn)
| Next (req : Request).

End Http.

(** The collections of the database. *)
Record Store := {
  users : list User.t;
  posts : list Post.t;
  blacklist : list TokenBlacklist.t;
  sessions : list Session.t
}.

Definition withUsers (us : list User.t) (st : Store) : Store :=
  {| users := us; posts := posts st; blacklist := blacklist st; sessions := sessions st |}.

Definition withBlacklist (bl : list TokenBlacklist.t) (st : Store) : Store :=
  {| users := users st; posts := posts st; blacklist := bl; sessions := sessions st |}.

Definition withSessions (ss : list Session.t) (st : Store) : Store :=
  {| users := users st; posts := posts st; blacklist := blacklist st; sessions := ss |}.

(** [user.toObject()] *)
Definition toObject (u : User.t) : Http.Object :=
  let opt (k : string) (v : option Z) (o : Http.Object) : Http.Object :=
    match v with Some d => <[k := Http.SNum d]> o | None => o end in
  let o : Http.Object :=
    list_to_map
      [ ("_id", Http.SNum (User._id u));
        ("firstname", Http.SStr (User.firstname u));
        ("lastname", Http.SStr (User.lastname u));
        ("email", Http.SStr (User.email u));
        ("password", Http.SStr (User.password u));
        ("tokenVersion", Http.SNum (User.tokenVersion u));
        ("loginAttempts", Http.SNum (User.loginAttempts u));
        ("isBlocked", Http.SBool (User.isBlocked u));
        ("role", Http.SStr (User.role u));
        ("plan", Http.SStr (User.plan u));
        ("userAward", Http.SStr (User.userAward u)) ] in
  let o := match User.phone u with Some p => <["phone" := Http.SStr p]> o | None => o end in
  let o := match User.image u with Some i => <["image" := Http.SStr i]> o | None => o end in
  opt "passwordChangedAt" (User.passwordChangedAt u)
    (opt "lockUntil" (User.lockUntil u)
       (opt "lastLogin" (User.lastLogin u)
          (opt "lastPasswordChange" (User.lastPasswordChange u) o))).

(** What one request draws from outside: the [jti] of each token, the
    bcrypt salt, and for each token the milliseconds that pass between the
    two readings of the clock in [createToken] and [createRefreshToken]. *)
Record Entropy := {
  jtiAccess : string;
  jtiRefresh : string;
  salt : string;
  lagAccess : Z;
  lagRefresh : Z
}.

(** ** The handlers *)

Section Auth.

(** [jsonwebtoken] under [process.env.JWT_SECRET]: [jwt_sign] serialises and
    signs a payload; [jwt_decode] is the signature and format check of
    [jwt.verify], [None] standing for its [JsonWebTokenError]. *)
Variable jwt_sign : Jwt.Payload -> string.
Variable jwt_decode : string -> option Jwt.Payload.

(** [bcrypt.hash(password, salt)] and [bcrypt.compare(candidate, hash)]. *)
Variable bcrypt_hash : string -> string -> string.
Variable bcrypt_compare : string -> string -> bool.

(** The environment: [process.env.JWT_EXPIRES_IN],
    [process.env.JWT_REFRESH_EXPIRES_IN], and the constant
    [SESSION_TIMEOUT_MINUTES] the middleware computes when it is loaded. *)
Variable JWT_EXPIRES_IN : option string.
Variable JWT_REFRESH_EXPIRES_IN : option string.
Variable SESSION_TIMEOUT_MINUTES : Z.

(** [getClientMetadata] *)
Definition getClientMetadata (req : Http.Request) : Jwt.Metadata :=
  {| Jwt.m_ipAddress := Js.orElse (Http.ip req) (Http.remoteAddress req);
     Jwt.m_userAgent :=
       Js.orDefault (Http.headers req !! "user-agent") "Unknown" |}.

(** The payload [createToken] and [createRefreshToken] sign for a time span
    of [ms] milliseconds, [signedAt] being the clock when the payload is
    built; [jwt.sign] sets [exp] to [iat] plus the span in seconds. *)
Definition tokenPayload (ty : Jwt.TokenType) (ms : Z) (id : ObjectId)
    (tokenVersion : Z) (metadata : Jwt.Metadata) (signedAt : Date) (jti : string)
  : Jwt.Payload :=
  let iat := signedAt / 1000 in
  {| Jwt.id := id; Jwt.type := ty;
     Jwt.tokenVersion := Some tokenVersion; Jwt.jti := jti;
     Jwt.iat := iat; Jwt.exp := iat + ms / 1000;
     Jwt.ipAddress := Jwt.m_ipAddress metadata;
     Jwt.userAgent := Some (Jwt.m_userAgent metadata) |}.

(** The body of [createToken] and [createRefreshToken].  The clock is read
    twice: [now] for [expiresAt], and [signedAt] for the [iat] of the
    payload. *)
Definition signToken (ty : Jwt.TokenType) (expiresIn : string) (id : ObjectId)
    (tokenVersion : Z) (metadata : Jwt.Metadata) (now signedAt : Date) (jti : string)
  : Try (string * Date) :=
  match Jwt.parseExpiration expiresIn with
  | Throw e => Throw e
  | Ok ms =>
      let expiresAt := now + ms in
      Ok (jwt_sign (tokenPayload ty ms id tokenVersion metadata signedAt jti), expiresAt)
  end.

(** [process.env.JWT_EXPIRES_IN || "2h"] and
    [process.env.JWT_REFRESH_EXPIRES_IN || "7d"] *)
Definition accessExpiresIn : string :=
  Js.orDefault JWT_EXPIRES_IN "2h".
Definition refreshExpiresIn : string :=
  Js.orDefault JWT_REFRESH_EXPIRES_IN "7d".

Definition createToken
  : ObjectId -> Z -> Jwt.Metadata -> Date -> Date -> string -> Try (string * Date) :=
  signToken Jwt.access accessExpiresIn.

Definition createRefreshToken
  : ObjectId -> Z -> Jwt.Metadata -> Date -> Date -> string -> Try (string * Date) :=
  signToken Jwt.refresh refreshExpiresIn.

(** [verifyToken(token, expectedType)]: [jwt.verify] checks the signature,
    then [exp] against the clock in seconds; then the type is compared. *)
Definition verifyToken (tok : string) (expectedType : option Jwt.TokenType) (now : Date)
  : Try Jwt.Payload :=
  match jwt_decode tok with
  | None => Throw (Error "Invalid token")
  | Some decoded =>
      if Jwt.exp decoded <=? now / 1000 then Throw (Error "Token has expired")
      else
        match expectedType with
        | Some t =>
            if Jwt.typeEqb (Jwt.type decoded) t then Ok decoded
            else Throw (Error ("Invalid token type. Expected " +:+ Jwt.typeName t
                               +:+ ", got " +:+ Jwt.typeName (Jwt.type decoded)))
        | None => Ok decoded
        end
  end.

(** [extractToken]: the cookie first, else a Bearer header. *)
Definition extractToken (req : Http.Request) : option string :=
  if Js.truthy (Http.cookies req !! "accessToken") then Http.cookies req !! "accessToken"
  else
    match Http.headers req !! "authorization" with
    | Some authHeader =>
        if Js.truthy (Some authHeader) && String.prefix "Bearer " authHeader
        then Some (String.substring 7 (String.length authHeader - 7) authHeader)
        else None
    | None => None
    end.

Definition setTokenCookies (accessToken refreshToken : string) : list (string * string) :=
  [("accessToken", accessToken); ("refreshToken", refreshToken)].

Definition clearTokenCookies : list (string * string) :=
  [("accessToken", EmptyString); ("refreshToken", EmptyString)].

(** [Math.ceil((user.lockUntil - Date.now()) / 1000 / 60)] *)
Definition lockTimeRemaining (u : User.t) (now : Date) : Z :=
  match User.lockUntil u with
  | Some l => - ((- (l - now)) / (1000 * 60))
  | None => 0
  end.

(** [User.create(doc)]: the validators, the pre-save hook (a new document:
    the password is hashed, the token version is not incremented), then the
    insert under the unique index on [email]. *)
Definition User_create (firstname lastname email password phone : option string)
    (role : string) (salt : string) (us : list User.t) : Try (User.t * list User.t) :=
  let email := option_map Js.trim email in
  match requiredStr "firstname" "First Name is Required" firstname
        ++ requiredStr "lastname" "Last Name is Required" lastname
        ++ requiredStr "email" "Email is Required" email
        ++ (match password with
            | Some p =>
                if Js.truthy password then
                  if Z.of_nat (String.length p) <? 8
                  then [("password", "Password must be at least 8 characters")]
                  else []
                else [("password", "Password is Required")]
            | None => [("password", "Password is Required")]
            end)
        ++ enumStr "role" ["user"; "admin"] role with
  | [] =>
      let e := Js.str email in
      if existsb (fun u => String.eqb (User.email u) e) us
      then Throw (DuplicateKey "users" "email_1" e)
      else
        let doc :=
          {| User._id := freshId (map User._id us);
             User.firstname := Js.str firstname;
             User.lastname := Js.str lastname;
             User.image := None;
             User.email := e;
             User.phone := phone;
             User.password := bcrypt_hash (Js.str password) salt;
             User.passwordChangedAt := None;
             User.tokenVersion := 0;
             User.loginAttempts := 0;
             User.lockUntil := None;
             User.lastLogin := None;
             User.lastPasswordChange := None;
             User.isBlocked := false;
             User.role := role;
             User.plan := "Free";
             User.userAward := "Bronze" |} in
        Ok (doc, us ++ [doc])
  | errs => Throw (ValidationError "User" errs)
  end.

(** [this.password = newPassword; await this.save()] on a stored user: the
    path is modified when the value differs from the loaded one; then the
    validators of the path run, and the pre-save hook hashes the password
    and increments the token version. *)
Definition User_savePassword (this : User.t) (newPassword : string) (salt : string)
    (now : Date) (us : list User.t) : Try (list User.t) :=
  if String.eqb newPassword (User.password this) then Ok us
  else
    match requiredStr "password" "Password is Required" (Some newPassword)
          ++ (if Z.of_nat (String.length newPassword) <? 8
              then [("password", "Password must be at least 8 characters")]
              else []) with
    | [] =>
        Ok (User.updateOne this
              (User.setPassword (bcrypt_hash newPassword salt) (Some now)
                 (User.tokenVersion this + 1)) us)
    | errs => Throw (ValidationError "User" errs)
    end.

Definition msgLocked (prefix : string) (u : User.t) (now : Date) : string :=
  prefix +:+ " temporarily locked due to multiple failed login attempts. Try again in "
    +:+ Js.ofZ (lockTimeRemaining u now) +:+ " minutes".

Definition msgRevoked : string :=
  "Your session has been invalidated. Please login again".
Definition msgStale : string := "Your password was changed. Please login again".

(** *** middlwares/authMiddlwares.js: [requireSignIn] *)
Definition requireSignIn (st : Store) (now : Date) (req : Http.Request)
  : Http.Outcome * Store :=
  let token := extractToken req in
  if negb (Js.truthy token)
  then (Http.NextError "You are not logged in. Please login to access this route" 401, st)
  else
  let token := Js.str token in
  if TokenBlacklist.isBlacklisted token now (blacklist st)
  then (Http.NextError msgRevoked 401, st)
  else
  match verifyToken token (Some Jwt.access) now with
  | Throw err =>
      if Js.includes (message err) "expired"
      then (Http.NextError "Your session has expired. Please login again" 401, st)
      else if Js.includes (message err) "Invalid"
      then (Http.NextError "Invalid token. Please login again" 401, st)
      else (Http.NextError (message err) 401, st)
  | Ok decoded =>
  let (found, us) := User.findById (Jwt.id decoded) (posts st) now (users st) in
  let st := withUsers us st in
  match found with
  | None =>
      (Http.NextError "The user that belongs to this token no longer exists" 401, st)
  | Some user =>
  if match Jwt.tokenVersion decoded with
     | Some v => negb (User.isTokenVersionValid user v)
     | None => false
     end
  then
    match TokenBlacklist.blacklistToken token (User._id user) (Jwt.exp decoded * 1000)
            "password_change" None None now (blacklist st) with
    | Throw e => (Http.NextThrown e, st)
    | Ok bl =>
        (Http.NextError msgStale 401, withBlacklist bl st)
    end
  else if User.isBlocked user
  then (Http.NextError "Your account has been blocked. Contact support for assistance" 403, st)
  else if User.isLocked user now
  then (Http.NextError (msgLocked "Your account is" user now) 403, st)
  else
  match Session.findActive token (User._id user) (sessions st) with
  | Some session =>
      if Session.isInactive session SESSION_TIMEOUT_MINUTES now then
        let (ss, r) :=
          Session.invalidate session "inactivity_timeout" now (sessions st) (blacklist st) in
        match r with
        | Throw e => (Http.NextThrown e, withSessions ss st)
        | Ok bl =>
            (Http.NextError
               ("Your session expired due to " +:+ Js.ofZ SESSION_TIMEOUT_MINUTES
                +:+ " minutes of inactivity. Please login again") 401,
             withBlacklist bl (withSessions ss st))
        end
      else
        let (session, ss) := Session.updateActivity session now (sessions st) in
        (Http.Next (Http.attach req user token (Some session)), withSessions ss st)
  | None => (Http.Next (Http.attach req user token None), st)
  end
  end
  end.

(** The token pair and the session record that [signup], [login] and
    [refreshToken] issue for a user. *)
Definition issueSession (u : User.t) (req : Http.Request) (now : Date) (rnd : Entropy)
    (ss : list Session.t) : Try (string * string * list Session.t) :=
  let metadata := getClientMetadata req in
  match createToken (User._id u) (User.tokenVersion u) metadata
          now (now + lagAccess rnd) (jtiAccess rnd) with
  | Throw e => Throw e
  | Ok (accessToken, accessExpiresAt) =>
  match createRefreshToken (User._id u) (User.tokenVersion u) metadata
          now (now + lagRefresh rnd) (jtiRefresh rnd) with
  | Throw e => Throw e
  | Ok (refreshToken, _) =>
  match Session.create
          {| Session.f_userId := User._id u; Session.f_token := accessToken;
             Session.f_refreshToken := refreshToken;
             Session.f_ipAddress := Jwt.m_ipAddress metadata;
             Session.f_userAgent := Some (Jwt.m_userAgent metadata);
             Session.f_expiresAt := accessExpiresAt |} now ss with
  | Throw e => Throw e
  | Ok (_, ss) => Ok (accessToken, refreshToken, ss)
  end
  end
  end.

(** Conditions under which [issueSession] succeeds and the session it
    stores is active: both configured life times parse, the client address
    is known, and the signed access token is a non-empty string that no
    stored session carries. *)
Definition Issuable (u : User.t) (req : Http.Request) (now : Date) (rnd : Entropy)
    (ss : list Session.t) : Prop :=
  exists msA msR : Z,
    Jwt.parseExpiration accessExpiresIn = Ok msA
    /\ Jwt.parseExpiration refreshExpiresIn = Ok msR
    /\ Js.truthy (Jwt.m_ipAddress (getClientMetadata req)) = true
    /\ (let accessToken :=
          jwt_sign (tokenPayload Jwt.access msA (User._id u) (User.tokenVersion u)
                      (getClientMetadata req) (now + lagAccess rnd) (jtiAccess rnd)) in
        accessToken <> EmptyString /\ Session.hasToken accessToken ss = false).

Definition msgInvalidCredentials : string := "Invalid Password or Email".

Definition tokenBody (accessToken refreshToken : string) (d : option Http.Object)
  : Http.Body :=
  {| Http.success := true; Http.b_token := Some accessToken;
     Http.b_refreshToken := Some refreshToken; Http.b_message := None;
     Http.b_count := None; Http.data := d; Http.rows := None |}.

Definition messageBody (m : string) : Http.Body :=
  {| Http.success := true; Http.b_token := None; Http.b_refreshToken := None;
     Http.b_message := Some m; Http.b_count := None; Http.data := None;
     Http.rows := None |}.

(** *** [signup] *)
Definition signup (st : Store) (now : Date) (rnd : Entropy) (req : Http.Request)
  : Http.Outcome * Store :=
  let firstname := Http.body req !! "firstname" in
  let lastname := Http.body req !! "lastname" in
  let email := Http.body req !! "email" in
  let password := Http.body req !! "password" in
  let phone := Http.body req !! "phone" in
  match password with
  | None =>
      (Http.NextThrown
         (TypeError "Cannot read properties of undefined (reading 'toLowerCase')"), st)
  | Some pw =>
  let passwordValidation :=
    PasswordValidator.validatePassword pw None
      (Some {| PasswordValidator.email := email;
               PasswordValidator.firstname := firstname;
               PasswordValidator.lastname := lastname |}) in
  if negb (PasswordValidator.isValid passwordValidation)
  then (Http.NextError (String.concat ", " (PasswordValidator.errors passwordValidation)) 400, st)
  else
  match User_create firstname lastname email password phone "user" (salt rnd) (users st) with
  | Throw e => (Http.NextThrown e, st)
  | Ok (user, us) =>
  let st := withUsers us st in
  match issueSession user req now rnd (sessions st) with
  | Throw e => (Http.NextThrown e, st)
  | Ok (accessToken, refreshToken, ss) =>
      let userResponse := toObject user in
      let userResponse := delete "password" userResponse in
      (Http.Respond 201 (tokenBody accessToken refreshToken (Some userResponse))
         (setTokenCookies accessToken refreshToken),
       withSessions ss st)
  end
  end
  end.

(** *** [login]; the [data] of the response leaves the virtuals out. *)
Definition login (st : Store) (now : Date) (rnd : Entropy) (req : Http.Request)
  : Http.Outcome * Store :=
  let email := Http.body req !! "email" in
  let password := Http.body req !! "password" in
  match User.findOneByEmail email (users st) with
  | None => (Http.NextError msgInvalidCredentials 401, st)
  | Some user =>
  if User.isLocked user now
  then (Http.NextError (msgLocked "Account" user now) 403, st)
  else if User.isBlocked user
  then (Http.NextError "Your Account has been disabled" 403, st)
  else
  match password with
  | None => (Http.NextThrown (Error "data and hash arguments required"), st)
  | Some pw =>
  if negb (bcrypt_compare pw (User.password user))
  then (Http.NextError msgInvalidCredentials 401,
        withUsers (User.incLoginAttempts user now (users st)) st)
  else
  let st := withUsers (User.resetLoginAttempts user now (users st)) st in
  match issueSession user req now rnd (sessions st) with
  | Throw e => (Http.NextThrown e, st)
  | Ok (accessToken, refreshToken, ss) =>
      (Http.Respond 200
         (tokenBody accessToken refreshToken (Some (delete "password" (toObject user))))
         (setTokenCookies accessToken refreshToken),
       withSessions ss st)
  end
  end
  end.

(** A login call (its clock, its random draws, its request) that presents
    the email [e] with a password that does not match [hash]. *)
Definition wrongPassword (e hash : string) (c : Date * Entropy * Http.Request) : Prop :=
  Http.body c.2 !! "email" = Some e
  /\ exists pw, Http.body c.2 !! "password" = Some pw /\ bcrypt_compare pw hash = false.

(** *** [changePassword] *)
Definition changePassword (st : Store) (now : Date) (rnd : Entropy) (req : Http.Request)
  : Http.Outcome * Store :=
  let currentPassword := Http.body req !! "currentPassword" in
  let newPassword := Http.body req !! "newPassword" in
  let confirmPassword := Http.body req !! "confirmPassword" in
  if negb (Js.truthy currentPassword) || negb (Js.truthy newPassword)
  then (Http.NextError "Please provide current password and new password" 400, st)
  else
  let currentPassword := Js.str currentPassword in
  let newPassword := Js.str newPassword in
  match Http.user req with
  | None =>
      (Http.NextThrown (TypeError "Cannot read properties of undefined (reading '_id')"), st)
  | Some reqUser =>
  let (found, us) := User.findById (User._id reqUser) (posts st) now (users st) in
  let st := withUsers us st in
  match found with
  | None => (Http.NextError "User not found" 404, st)
  | Some user =>
  if negb (bcrypt_compare currentPassword (User.password user))
  then (Http.NextError "Current password is incorrect" 401, st)
  else
  let passwordValidation :=
    PasswordValidator.validatePassword newPassword confirmPassword
      (Some {| PasswordValidator.email := Some (User.email user);
               PasswordValidator.firstname := Some (User.firstname user);
               PasswordValidator.lastname := Some (User.lastname user) |}) in
  if negb (PasswordValidator.isValid passwordValidation)
  then (Http.NextError (String.concat ", " (PasswordValidator.errors passwordValidation)) 400, st)
  else
  match User_savePassword user newPassword (salt rnd) now (users st) with
  | Throw e => (Http.NextThrown e, st)
  | Ok us =>
  let st := withUsers us st in
  match Session.invalidateAllUserSessions (User._id user) "password_change" now
          (sessions st) (blacklist st) with
  | (ss, bl, Throw e) => (Http.NextThrown e, withBlacklist bl (withSessions ss st))
  | (ss, bl, Ok _) =>
      (Http.Respond 200
         (messageBody
            "Password changed successfully. Please login again with your new password.")
         clearTokenCookies,
       withBlacklist bl (withSessions ss st))
  end
  end
  end
  end.

Definition msgRefreshRevoked : string :=
  "Refresh token has been invalidated. Please login again".
Definition msgInvalidRefresh : string := "Invalid refresh token".

(** [req.cookies?.refreshToken || req.body.refreshToken] *)
Definition presentedRefreshToken (req : Http.Request) : option string :=
  Js.orElse (Http.cookies req !! "refreshToken") (Http.body req !! "refreshToken").

(** *** [refreshToken]; what the [try] block throws reaches its [catch]. *)
Definition refreshToken (st : Store) (now : Date) (rnd : Entropy) (req : Http.Request)
  : Http.Outcome * Store :=
  let presented := presentedRefreshToken req in
  if negb (Js.truthy presented)
  then (Http.NextError "Refresh token is required" 400, st)
  else
  let presented := Js.str presented in
  let catch (error : Exn) (st : Store) : Http.Outcome * Store :=
    if Js.includes (message error) "expired"
    then (Http.NextError "Refresh token has expired. Please login again" 401, st)
    else (Http.NextError msgInvalidRefresh 401, st) in
  if TokenBlacklist.isBlacklisted presented now (blacklist st)
  then (Http.NextError msgRefreshRevoked 401, st)
  else
  match verifyToken presented (Some Jwt.refresh) now with
  | Throw e => catch e st
  | Ok decoded =>
  if negb (Jwt.typeEqb (Jwt.type decoded) Jwt.refresh)
  then (Http.NextError "Invalid token type" 401, st)
  else
  let (found, us) := User.findById (Jwt.id decoded) (posts st) now (users st) in
  let st := withUsers us st in
  match found with
  | None => (Http.NextError "User not found" 404, st)
  | Some user =>
  if match Jwt.tokenVersion decoded with
     | Some v => negb (User.isTokenVersionValid user v)
     | None => false
     end
  then (Http.NextError "Your password was changed. Please login again" 401, st)
  else if User.isBlocked user || User.isLocked user now
  then (Http.NextError "Your account has been disabled" 403, st)
  else
  match TokenBlacklist.blacklistToken presented (User._id user) (Jwt.exp decoded * 1000)
          "token_rotation" None None now (blacklist st) with
  | Throw e => catch e st
  | Ok bl =>
  let st := withBlacklist bl st in
  let st :=
    withSessions (Session.deactivateByRefreshToken presented (User._id user) (sessions st)) st in
  match issueSession user req now rnd (sessions st) with
  | Throw e => catch e st
  | Ok (newAccessToken, newRefreshToken, ss) =>
      (Http.Respond 200 (tokenBody newAccessToken newRefreshToken None)
         (setTokenCookies newAccessToken newRefreshToken),
       withSessions ss st)
  end
  end
  end
  end.

Definition msgLogoutFailed : string := "Logout failed".

(** *** [logout]; what the [try] block throws reaches its [catch]. *)
Definition logout (st : Store) (now : Date) (req : Http.Request)
  : Http.Outcome * Store :=
  if negb (Js.truthy (Http.token req))
  then (Http.NextError "No active session found" 400, st)
  else
  let token := Js.str (Http.token req) in
  let failed (st : Store) := (Http.NextError msgLogoutFailed 500, st) in
  match verifyToken token None now with
  | Throw _ => failed st
  | Ok decoded =>
  match Http.user req with
  | None => failed st
  | Some reqUser =>
  let metadata := getClientMetadata req in
  match TokenBlacklist.blacklistToken token (User._id reqUser) (Jwt.exp decoded * 1000)
          "logout" (Jwt.m_ipAddress metadata) (Some (Jwt.m_userAgent metadata)) now
          (blacklist st) with
  | Throw _ => failed st
  | Ok bl =>
  let st := withBlacklist bl st in
  match Http.session req with
  | Some session =>
      let (ss, r) := Session.invalidate session "logout" now (sessions st) (blacklist st) in
      match r with
      | Throw _ => failed (withSessions ss st)
      | Ok bl =>
          (Http.Respond 200 (messageBody "Logged out successfully") clearTokenCookies,
           withBlacklist bl (withSessions ss st))
      end
  | None =>
      (Http.Respond 200 (messageBody "Logged out successfully") clearTokenCookies, st)
  end
  end
  end
  end.

(** The entry [logout] writes for a token. *)
Definition logoutEntry (tok : string) (u : User.t) (decoded : Jwt.Payload)
    (req : Http.Request) (now : Date) : TokenBlacklist.t :=
  {| TokenBlacklist.token := tok; TokenBlacklist.userId := User._id u;
     TokenBlacklist.reason := "logout";
     TokenBlacklist.expiresAt := Jwt.exp decoded * 1000;
     TokenBlacklist.blacklistedAt := now;
     TokenBlacklist.ipAddress := Jwt.m_ipAddress (getClientMetadata req);
     TokenBlacklist.userAgent := Some (Jwt.m_userAgent (getClientMetadata req)) |}.

(** *** [adminLogin]: [login] behind a check of the role. *)
Definition msgAccessDenied : string := "Access denied. Admin privileges required.".

Definition adminLogin (st : Store) (now : Date) (rnd : Entropy) (req : Http.Request)
  : Http.Outcome * Store :=
  let email := Http.body req !! "email" in
  let password := Http.body req !! "password" in
  match User.findOneByEmail email (users st) with
  | None => (Http.NextError msgInvalidCredentials 401, st)
  | Some user =>
  if negb (String.eqb (User.role user) "admin")
  then (Http.NextError msgAccessDenied 403, st)
  else if User.isLocked user now
  then (Http.NextError (msgLocked "Account" user now) 403, st)
  else if User.isBlocked user
  then (Http.NextError "Your Account has been disabled" 403, st)
  else
  match password with
  | None => (Http.NextThrown (Error "data and hash arguments required"), st)
  | Some pw =>
  if negb (bcrypt_compare pw (User.password user))
  then (Http.NextError msgInvalidCredentials 401,
        withUsers (User.incLoginAttempts user now (users st)) st)
  else
  let st := withUsers (User.resetLoginAttempts user now (users st)) st in
  match issueSession user req now rnd (sessions st) with
  | Throw e => (Http.NextThrown e, st)
  | Ok (accessToken, refreshToken, ss) =>
      (Http.Respond 200
         (tokenBody accessToken refreshToken (Some (delete "password" (toObject user))))
         (setTokenCookies accessToken refreshToken),
       withSessions ss st)
  end
  end
  end.

Definition msgLogoutAllFailed : string := "Logout from all devices failed".

(** The message of a [logoutAll] that invalidated [n] sessions. *)
Definition msgLoggedOutAll (n : nat) : string :=
  "Logged out from all devices. " +:+ Js.ofZ (Z.of_nat n) +:+ " session(s) invalidated.".

(** *** [logoutAll]; what the [try] block throws reaches its [catch]. *)
Definition logoutAll (st : Store) (now : Date) (req : Http.Request)
  : Http.Outcome * Store :=
  let failed (st : Store) := (Http.NextError msgLogoutAllFailed 500, st) in
  match Http.user req with
  | None => failed st
  | Some reqUser =>
  match Session.invalidateAllUserSessions (User._id reqUser) "logout_all" now
          (sessions st) (blacklist st) with
  | (ss, bl, Throw _) => failed (withBlacklist bl (withSessions ss st))
  | (ss, bl, Ok sessionsInvalidated) =>
      (Http.Respond 200 (messageBody (msgLoggedOutAll sessionsInvalidated))
         clearTokenCookies,
       withBlacklist bl (withSessions ss st))
  end
  end.

Definition msgUndefinedId : string :=
  "Cannot read properties of undefined (reading '_id')".

Definition dataBody (m : option string) (d : option Http.Object) : Http.Body :=
  {| Http.success := true; Http.b_token := None; Http.b_refreshToken := None;
     Http.b_message := m; Http.b_count := None; Http.data := d; Http.rows := None |}.

(** *** [getCurrentUser]; the [data] of the response leaves the virtuals
    out. *)
Definition getCurrentUser (st : Store) (now : Date) (req : Http.Request)
  : Http.Outcome * Store :=
  match Http.user req with
  | None => (Http.NextThrown (TypeError msgUndefinedId), st)
  | Some reqUser =>
  let (found, us) := User.findById (User._id reqUser) (posts st) now (users st) in
  let st := withUsers us st in
  match found with
  | None => (Http.NextError "User not found" 404, st)
  | Some user =>
      (Http.Respond 200 (dataBody None (Some (delete "password" (toObject user)))) [], st)
  end
  end.

Definition msgProfileUpdated : string := "Profile updated successfully".

(** *** [updateProfile].  The fields of the body overwrite those of the
    loaded document when they are truthy, the [email] through the setter of
    its path ([trim]); a [name] is split at its first space.  The update
    then runs the validators of the paths it sets, and is carried out under
    the unique index on [email].  A [phone] or [image] that the document
    does not have is not set.  The [data] of the response leaves the
    virtuals out. *)
Definition updateProfile (st : Store) (now : Date) (req : Http.Request)
  : Http.Outcome * Store :=
  let name := Http.body req !! "name" in
  let phone := Http.body req !! "phone" in
  let avatar := Http.body req !! "avatar" in
  let firstname := Http.body req !! "firstname" in
  let lastname := Http.body req !! "lastname" in
  let email := Http.body req !! "email" in
  match Http.user req with
  | None => (Http.NextThrown (TypeError msgUndefinedId), st)
  | Some reqUser =>
  let (found, us) := User.findById (User._id reqUser) (posts st) now (users st) in
  let st := withUsers us st in
  match found with
  | None => (Http.NextError "User not found" 404, st)
  | Some user =>
  let user_firstname := if Js.truthy firstname then Js.str firstname else User.firstname user in
  let user_lastname := if Js.truthy lastname then Js.str lastname else User.lastname user in
  let user_email := if Js.truthy email then Js.trim (Js.str email) else User.email user in
  let user_phone := if Js.truthy phone then phone else User.phone user in
  let user_image := if Js.truthy avatar then avatar else User.image user in
  let nameParts := Js.trim (Js.str name) in
  let user_firstname :=
    if Js.truthy name then Js.splitHead " " nameParts else user_firstname in
  let user_lastname :=
    if Js.truthy name
    then Js.orDefault (Some (Js.splitRest " " nameParts)) (Js.splitHead " " nameParts)
    else user_lastname in
  match requiredStr "firstname" "First Name is Required" (Some user_firstname)
        ++ requiredStr "lastname" "Last Name is Required" (Some user_lastname)
        ++ requiredStr "email" "Email is Required" (Some user_email) with
  | [] =>
      if existsb (fun u => String.eqb (User.email u) user_email
                           && negb (User.hasId (User._id reqUser) u)) (users st)
      then (Http.NextThrown (DuplicateKey "users" "email_1" user_email), st)
      else
        let us :=
          User.findByIdAndUpdate (User._id reqUser)
            (User.setProfile user_firstname user_lastname user_email user_phone
               user_image) (users st) in
        let updatedUser := List.find (User.hasId (User._id reqUser)) us in
        (Http.Respond 200
           (dataBody (Some msgProfileUpdated)
              (option_map (fun u => delete "password" (toObject u)) updatedUser)) [],
         withUsers us st)
  | errs => (Http.NextThrown (UpdateValidationError errs), st)
  end
  end
  end.

(** A row of the [data] of [getActiveSessions]; [device], [location] and
    [createdAt] are left out. *)
Definition sessionRow (reqToken : option string) (session : Session.t) : Http.Object :=
  let isCurrent :=
    match reqToken with
    | Some t => String.eqb (Session.token session) t
    | None => false
    end in
  let o : Http.Object :=
    list_to_map
      [ ("id", Http.SNum (Session._id session));
        ("lastActivity", Http.SNum (Session.lastActivity session));
        ("isCurrent", Http.SBool isCurrent) ] in
  match Session.ipAddress session with
  | Some ip => <["ipAddress" := Http.SStr ip]> o
  | None => o
  end.

(** *** [getActiveSessions] *)
Definition getActiveSessions (st : Store) (now : Date) (req : Http.Request)
  : Http.Outcome * Store :=
  match Http.user req with
  | None => (Http.NextThrown (TypeError msgUndefinedId), st)
  | Some reqUser =>
      let sessions := Session.findActiveSessions (User._id reqUser) now (sessions st) in
      let sessionData := map (sessionRow (Http.token req)) sessions in
      (Http.Respond 200
         {| Http.success := true; Http.b_token := None; Http.b_refreshToken := None;
            Http.b_message := None;
            Http.b_count := Some (Z.of_nat (List.length sessionData));
            Http.data := None; Http.rows := Some sessionData |} [],
       st)
  end.

(** *** middlwares/authMiddlwares.js: [alowedTo], [isBlocked], [optionalAuth] *)

(** [alowedTo(...roles)] *)
Definition alowedTo (roles : list string) (req : Http.Request) : Http.Outcome :=
  match Http.user req with
  | None =>
      Http.NextThrown (TypeError "Cannot read properties of undefined (reading 'role')")
  | Some u =>
      if negb (existsb (String.eqb (User.role u)) roles)
      then Http.NextError "You are not allowed to access this route" 403
      else Http.Next req
  end.

Definition isBlocked (req : Http.Request) : Http.Outcome :=
  match Http.user req with
  | None =>
      Http.NextThrown
        (TypeError "Cannot read properties of undefined (reading 'isBlocked')")
  | Some u =>
      if User.isBlocked u
      then Http.NextError
             "Account blocked. It looks like your account has been blocked" 403
      else Http.Next req
  end.

(** [optionalAuth]: every way out is [next()]; what the [try] block throws
    is logged.  Where the middleware does not assign [req.session], the
    request keeps the one it has. *)
Definition optionalAuth (st : Store) (now : Date) (req : Http.Request)
  : Http.Outcome * Store :=
  let token := extractToken req in
  if negb (Js.truthy token) then (Http.Next req, st)
  else
  let token := Js.str token in
  if TokenBlacklist.isBlacklisted token now (blacklist st) then (Http.Next req, st)
  else
  match verifyToken token (Some Jwt.access) now with
  | Throw _ => (Http.Next req, st)
  | Ok decoded =>
  let (found, us) := User.findById (Jwt.id decoded) (posts st) now (users st) in
  let st := withUsers us st in
  match found with
  | None => (Http.Next req, st)
  | Some user =>
  if negb (User.isBlocked user) && negb (User.isLocked user now) then
    if match Jwt.tokenVersion decoded with
       | Some v => User.isTokenVersionValid user v
       | None => true
       end
    then
      match Session.findActive token (User._id user) (sessions st) with
      | Some session =>
          if negb (Session.isInactive session SESSION_TIMEOUT_MINUTES now) then
            let (session, ss) := Session.updateActivity session now (sessions st) in
            (Http.Next (Http.attach req user token (Some session)), withSessions ss st)
          else (Http.Next (Http.attach req user token (Http.session req)), st)
      | None => (Http.Next (Http.attach req user token (Http.session req)), st)
      end
    else (Http.Next req, st)
  else (Http.Next req, st)
  end
  end.

(** *** routes/Auth.js: a route behind [requireSignIn].  The handler runs
    on the request and the store that the middleware leaves when it calls
    [next()], at its own clock reading; otherwise the middleware has
    answered. *)
Definition protected (handler : Store -> Date -> Http.Request -> Http.Outcome * Store)
    (st : Store) (nowAuth now : Date) (req : Http.Request) : Http.Outcome * Store :=
  match requireSignIn st nowAuth req with
  | (Http.Next req, st) => handler st now req
  | refused => refused
  end.

(** One call of the API: the route, the clock readings of the functions on
    its chain, the random draws and the request.  The first ten are the
    routes of [routes/Auth.js], in its order; [Authenticate] is
    [requireSignIn] in front of a handler that only reads, [Optional] is
    [optionalAuth] in front of one.  The validators that the router puts in
    front of [signup] and of the two logins are not among the sources: they
    answer a request or pass it on, and the call is of the request passed
    on. *)
Variant Call :=
| PostSignup (now : Date) (rnd : Entropy) (req : Http.Request)
| PostLogin (now : Date) (rnd : Entropy) (req : Http.Request)
| PostLoginAdmin (now : Date) (rnd : Entropy) (req : Http.Request)
| PostRefreshToken (now : Date) (rnd : Entropy) (req : Http.Request)
| GetMe (nowAuth now : Date) (req : Http.Request)
| PutProfile (nowAuth now : Date) (req : Http.Request)
| PutPassword (nowAuth now : Date) (rnd : Entropy) (req : Http.Request)
| PostLogout (nowAuth now : Date) (req : Http.Request)
| PostLogoutAll (nowAuth now : Date) (req : Http.Request)
| GetSessions (nowAuth now : Date) (req : Http.Request)
| Authenticate (now : Date) (req : Http.Request)
| Optional (now : Date) (req : Http.Request).

Definition handle (st : Store) (c : Call) : Http.Outcome * Store :=
  match c with
  | PostSignup now rnd req => signup st now rnd req
  | PostLogin now rnd req => login st now rnd req
  | PostLoginAdmin now rnd req => adminLogin st now rnd req
  | PostRefreshToken now rnd req => refreshToken st now rnd req
  | GetMe nowAuth now req => protected getCurrentUser st nowAuth now req
  | PutProfile nowAuth now req => protected updateProfile st nowAuth now req
  | PutPassword nowAuth now rnd req =>
      protected (fun st now req => changePassword st now rnd req) st nowAuth now req
  | PostLogout nowAuth now req => protected logout st nowAuth now req
  | PostLogoutAll nowAuth now req => protected logoutAll st nowAuth now req
  | GetSessions nowAuth now req => protected getActiveSessions st nowAuth now req
  | Authenticate now req => requireSignIn st now req
  | Optional now req => optionalAuth st now req
  end.

End Auth.

(** *** The admin controller: [updateUserStatus] *)




(** ** Records and their tokens

    A session or a blacklist entry whose token decodes does not expire
    before that token.  The entries that [logout] and the check of the
    token version write are such: they expire with the token.  A session,
    and the entry that its invalidation writes, expire at the clock
    reading of [createToken] plus the life time of the token. *)
Definition SessionOk (jwt_decode : string -> option Jwt.Payload) (s : Session.t) : Prop :=
  forall p, jwt_decode (Session.token s) = Some p ->
            Jwt.exp p * 1000 <= Session.expiresAt s.

Definition EntryOk (jwt_decode : string -> option Jwt.Payload) (b : TokenBlacklist.t)
  : Prop :=
  forall p, jwt_decode (TokenBlacklist.token b) = Some p ->
            Jwt.exp p * 1000 <= TokenBlacklist.expiresAt b.

Definition Coherent (jwt_decode : string -> option Jwt.Payload) (st : Store) : Prop :=
  Forall (EntryOk jwt_decode) (blacklist st)
  /\ Forall (SessionOk jwt_decode) (sessions st).

(** Express serves the requests of a list one after the other: the outcomes
    in order, and the store after the last. *)
Fixpoint serve {A : Type} (handler : Store -> A -> Http.Outcome * Store) (st : Store)
    (calls : list A) : list Http.Outcome * Store :=
  match calls with
  | [] => ([], st)
  | c :: rest =>
      let (o, st) := handler st c in
      let (os, st) := serve handler st rest in
      (o :: os, st)
  end.

(** A call in which the access token is signed no later than in the
    second of the clock reading from which its expiry time counts.
    [signup], [login] and [adminLogin] issue a session with such a token;
    the other calls are not constrained. *)
Definition SignsInSecond (c : Call) : Prop :=
  match c with
  | PostSignup now rnd _ | PostLogin now rnd _ | PostLoginAdmin now rnd _ =>
      (now + lagAccess rnd) / 1000 <= now / 1000
  | _ => True
  end.

(** The request is not let through: the middleware answers 401, or what it
    throws goes to the error handler. *)
Definition Refused (o : Http.Outcome) : Prop :=
  (exists m, o = Http.NextError m 401) \/ (exists e, o = Http.NextThrown e).

(** ** How calls may change the store *)

(** What a stored user keeps: the [_id] and the [role]; the token version
    does not go down. *)
Definition UserKept (d d' : User.t) : Prop :=
  User._id d' = User._id d /\ User.role d' = User.role d
  /\ User.tokenVersion d <= User.tokenVersion d'.

(** The users [us'] extend the users [us]: every document is still there,
    in place, and keeps what [UserKept] says; the documents added have the
    role [user]; the unique index on [_id] holds if it held, and the one on
    [email] holds if both held. *)
Definition UsersExtend (us us' : list User.t) : Prop :=
  exists kept new : list User.t,
    us' = kept ++ new
    /\ Forall2 UserKept us kept
    /\ Forall (fun d => User.role d = "user") new
    /\ (List.NoDup (map User._id us) -> List.NoDup (map User._id us'))
    /\ (List.NoDup (map User._id us) -> List.NoDup (map User.email us) ->
        List.NoDup (map User.email us')).

(** The blacklist [bl'] extends [bl]: entries are added at the end, none is
    removed or rewritten; the unique index on [token] holds if it held. *)
Definition EntriesExtend (bl bl' : list TokenBlacklist.t) : Prop :=
  exists new : list TokenBlacklist.t,
    bl' = bl ++ new
    /\ (List.NoDup (map TokenBlacklist.token bl) ->
        List.NoDup (map TokenBlacklist.token bl')).

(** The sessions [ss'] extend [ss]: every session is still there, in place,
    with its [_id], [token] and [expiresAt]; the unique indexes on [_id]
    and [token] hold if they held. *)
Definition SessionsExtend (ss ss' : list Session.t) : Prop :=
  exists new : list Session.t,
    map Session._id ss' = map Session._id ss ++ map Session._id new
    /\ map Session.token ss' = map Session.token ss ++ map Session.token new
    /\ map Session.expiresAt ss' = map Session.expiresAt ss ++ map Session.expiresAt new
    /\ (List.NoDup (map Session._id ss) -> List.NoDup (map Session._id ss'))
    /\ (List.NoDup (map Session.token ss) -> List.NoDup (map Session.token ss')).

Definition Extends (st st' : Store) : Prop :=
  UsersExtend (users st) (users st')
  /\ EntriesExtend (blacklist st) (blacklist st')
  /\ SessionsExtend (sessions st) (sessions st')
  /\ posts st' = posts st.

(** ** A concrete environment for examples

    A toy token codec over a fixed table of tokens, and a toy hash that
    prefixes a four-character salt; the examples run the handlers in it. *)
Module Demo.

Definition accessA : Jwt.Payload :=
  {| Jwt.id := 1; Jwt.type := Jwt.access; Jwt.tokenVersion := Some 0;
     Jwt.jti := "a1"; Jwt.iat := 3000000; Jwt.exp := 3007200;
     Jwt.ipAddress := Some "10.0.0.1"; Jwt.userAgent := Some "curl" |}.

Definition refreshA : Jwt.Payload :=
  {| Jwt.id := 1; Jwt.type := Jwt.refresh; Jwt.tokenVersion := Some 0;
     Jwt.jti := "r1"; Jwt.iat := 3000000; Jwt.exp := 3604800;
     Jwt.ipAddress := Some "10.0.0.1"; Jwt.userAgent := Some "curl" |}.

Definition jwt_sign (p : Jwt.Payload) : string :=
  "jwt." +:+ Jwt.typeName (Jwt.type p) +:+ "." +:+ Jwt.jti p.

Definition jwt_decode (tok : string) : option Jwt.Payload :=
  if String.eqb tok "jwt.access.a1" then Some accessA
  else if String.eqb tok "jwt.refresh.r1" then Some refreshA
  else None.

Definition bcrypt_hash (password salt : string) : string :=
  "$2b$12$" +:+ salt +:+ password.

Definition bcrypt_compare (candidate hash : string) : bool :=
  String.eqb (String.substring 11 (String.length hash - 11) hash) candidate.

Definition alice : User.t :=
  {| User._id := 1; User.firstname := "Alice"; User.lastname := "Liddell";
     User.image := None; User.email := "alice@example.com"; User.phone := None;
     User.password := bcrypt_hash "OldPassw0rd!" "salt";
     User.passwordChangedAt := None; User.tokenVersion := 0;
     User.loginAttempts := 0; User.lockUntil := None; User.lastLogin := None;
     User.lastPasswordChange := None; User.isBlocked := false;
     User.role := "user"; User.plan := "Free"; User.userAward := "Bronze" |}.

Definition sessionA : Session.t :=
  {| Session._id := 1; Session.userId := 1; Session.token := "jwt.access.a1";
     Session.refreshToken := Some "jwt.refresh.r1";
     Session.ipAddress := Some "10.0.0.1";
     Session.userAgent := Some "curl"; Session.lastActivity := 3000000000;
     Session.expiresAt := 3007200000; Session.isActive := true |}.

(** Alice, logged in on one device. *)
Definition store0 : Store :=
  {| users := [alice]; posts := []; blacklist := []; sessions := [sessionA] |}.

(** Alice, blocked by an administrator. *)
Definition storeBlocked : Store :=
  {| users := [User.setIsBlocked true alice]; posts := []; blacklist := [];
     sessions := [] |}.

(** Alice, with no session record. *)
Definition storeNoSession : Store :=
  {| users := [alice]; posts := []; blacklist := []; sessions := [] |}.



Definition revokedEntry : TokenBlacklist.t :=
  {| TokenBlacklist.token := "jwt.refresh.r1"; TokenBlacklist.userId := 1;
     TokenBlacklist.reason := "forced_logout";
     TokenBlacklist.expiresAt := 3604800000;
     TokenBlacklist.blacklistedAt := 3000100000;
     TokenBlacklist.ipAddress := None; TokenBlacklist.userAgent := None |}.

(** Alice, with her refresh token in the blacklist. *)
Definition storeRevoked : Store :=
  {| users := [alice]; posts := []; blacklist := [revokedEntry];
     sessions := [sessionA] |}.

Definition request (cookies headers body : list (string * string)) : Http.Request :=
  {| Http.cookies := list_to_map cookies; Http.headers := list_to_map headers;
     Http.ip := Some "10.0.0.1"; Http.remoteAddress := None;
     Http.body := list_to_map body;
     Http.user := None; Http.token := None; Http.session := None |}.

Definition rnd : Entropy :=
  {| jtiAccess := "a2"; jtiRefresh := "r2"; salt := "pepa";
     lagAccess := 0; lagRefresh := 0 |}.

(** Ten minutes after the tokens of the table were issued. *)
Definition now : Date := 3000600000.

Definition refreshRequest : Http.Request :=
  request [("refreshToken", "jwt.refresh.r1")] [] [].

Definition accessRequest : Http.Request :=
  request [("accessToken", "jwt.access.a1")] [] [].

Definition signupRequest (role : list (string * string)) : Http.Request :=
  request [] []
    ([("firstname", "Bob"); ("lastname", "Builder"); ("email", "bob@example.com");
      ("password", "C0rrect!Horse")] ++ role).

Definition loginRequest (password : string) : Http.Request :=
  request [] [] [("email", "alice@example.com"); ("password", password)].

(** The request of a password change, as the middleware hands it on. *)
Definition changeRequest (newPassword : string) : Http.Request :=
  Http.attach
    (request [("accessToken", "jwt.access.a1")] []
       [("currentPassword", "OldPassw0rd!"); ("newPassword", newPassword);
        ("confirmPassword", newPassword)])
    alice "jwt.access.a1" None.

(** Five logins with a wrong password, a second apart. *)
Definition fourWrong : list (Z * Entropy * Http.Request) :=
  [(now + 1000, rnd, loginRequest "guess-1"); (now + 2000, rnd, loginRequest "guess-2");
   (now + 3000, rnd, loginRequest "guess-3"); (now + 4000, rnd, loginRequest "guess-4")].
Definition fifthWrong : Z * Entropy * Http.Request :=
  (now + 5000, rnd, loginRequest "guess-5").

(** Bob, as a signup creates him. *)
Definition bob : User.t :=
  {| User._id := 2; User.firstname := "Bob"; User.lastname := "Builder";
     User.image := None; User.email := "bob@example.com"; User.phone := None;
     User.password := bcrypt_hash "C0rrect!Horse" "pepa";
     User.passwordChangedAt := None; User.tokenVersion := 0;
     User.loginAttempts := 0; User.lockUntil := None; User.lastLogin := None;
     User.lastPasswordChange := None; User.isBlocked := false;
     User.role := "user"; User.plan := "Free"; User.userAward := "Bronze" |}.

(** The store the signup of Bob leaves. *)
Definition afterSignup : Store :=
  Eval vm_compute in
    snd (signup jwt_sign bcrypt_hash None None store0 now rnd (signupRequest [])).

(** Alice's request with her access token, as the middleware hands it on,
    and the store the middleware leaves. *)
Definition authenticatedRequest : Http.Request :=
  Http.attach accessRequest alice "jwt.access.a1"
    (Some (Session.setLastActivity now sessionA)).
Definition storeTouched : Store :=
  withSessions [Session.setLastActivity now sessionA] store0.

(** A signup whose password contains the first and the last name. *)
Definition namesRequest : Http.Request :=
  request [] []
    [("firstname", "John"); ("lastname", "Smith"); ("email", "zed@example.com");
     ("password", "JohnSmith1!x")].
Definition namesInfo : PasswordValidator.UserInfo :=
  {| PasswordValidator.email := Some "zed@example.com";
     PasswordValidator.firstname := Some "John";
     PasswordValidator.lastname := Some "Smith" |}.

(** A signup with a short, common password. *)
Definition weakRequest : Http.Request :=
  request [] []
    [("firstname", "John"); ("lastname", "Smith"); ("email", "zed@example.com");
     ("password", "abc123")].

(** The store a password change to a fresh password leaves. *)
Definition afterChange : Store :=
  Eval vm_compute in
    snd (changePassword bcrypt_hash bcrypt_compare store0 now rnd
           (changeRequest "Br4nd!NewPass")).

(** A session timeout of five minutes: session A, last active ten minutes
    before [now], is idle under it. *)
Definition shortTimeout : Z := 5.

(** Alice's access token in a Bearer header; her refresh token in the
    cookie of the access token; her access token in the cookie of the
    refresh token. *)
Definition bearerRequest : Http.Request :=
  request [] [("authorization", "Bearer jwt.access.a1")] [].
Definition refreshAsAccess : Http.Request :=
  request [("accessToken", "jwt.refresh.r1")] [] [].
Definition accessAsRefresh : Http.Request :=
  request [("refreshToken", "jwt.access.a1")] [] [].

(** Alice, with her access token in the blacklist. *)
Definition revokedAccess : TokenBlacklist.t :=
  {| TokenBlacklist.token := "jwt.access.a1"; TokenBlacklist.userId := 1;
     TokenBlacklist.reason := "logout";
     TokenBlacklist.expiresAt := 3007200000;
     TokenBlacklist.blacklistedAt := 3000100000;
     TokenBlacklist.ipAddress := None; TokenBlacklist.userAgent := None |}.
Definition storeRevokedAccess : Store :=
  {| users := [alice]; posts := []; blacklist := [revokedAccess];
     sessions := [sessionA] |}.



(** A signup that asks for the role of an administrator. *)
Definition adminSignup : Http.Request := signupRequest [("role", "admin")].

(** A second toy codec, in which decoding undoes signing: the tokens of a
    table, each with the payload it carries.  A payload outside the table
    is signed to the empty string, which decodes to nothing. *)
Definition sameOption {A : Type} (eqb : A -> A -> bool) (a b : option A) : bool :=
  match a, b with
  | Some x, Some y => eqb x y
  | None, None => true
  | _, _ => false
  end.

Definition samePayload (p q : Jwt.Payload) : bool :=
  (Jwt.id p =? Jwt.id q)
  && Jwt.typeEqb (Jwt.type p) (Jwt.type q)
  && sameOption Z.eqb (Jwt.tokenVersion p) (Jwt.tokenVersion q)
  && String.eqb (Jwt.jti p) (Jwt.jti q)
  && (Jwt.iat p =? Jwt.iat q) && (Jwt.exp p =? Jwt.exp q)
  && sameOption String.eqb (Jwt.ipAddress p) (Jwt.ipAddress q)
  && sameOption String.eqb (Jwt.userAgent p) (Jwt.userAgent q).

(** The payloads that a login of Alice at [now] signs. *)
Definition accessB : Jwt.Payload :=
  Eval vm_compute in
    tokenPayload Jwt.access 7200000 1 0 (getClientMetadata (loginRequest "OldPassw0rd!"))
      now "a2".
Definition refreshB : Jwt.Payload :=
  Eval vm_compute in
    tokenPayload Jwt.refresh 604800000 1 0 (getClientMetadata (loginRequest "OldPassw0rd!"))
      now "r2".

Definition tokenTable : list (string * Jwt.Payload) :=
  [("jwt.access.a1", accessA); ("jwt.refresh.r1", refreshA);
   ("jwt.access.a2", accessB); ("jwt.refresh.r2", refreshB)].

Definition sign (p : Jwt.Payload) : string :=
  match List.find (fun e => samePayload (snd e) p) tokenTable with
  | Some e => fst e
  | None => EmptyString
  end.

Definition decode (tok : string) : option Jwt.Payload :=
  option_map snd (List.find (fun e => String.eqb (fst e) tok) tokenTable).

(** A login of Alice, then the signup of Bob asking to be an
    administrator. *)
Definition someCalls : list Call :=
  [PostLogin now rnd (loginRequest "OldPassw0rd!");
   PostSignup (now + 1000) rnd adminSignup].

(** Alice rewrites her profile, and asks to be an administrator. *)
Definition profileRequest : Http.Request :=
  request [("accessToken", "jwt.access.a1")] []
    [("name", "Alice Pleasance Liddell"); ("email", " alice@wonderland.example ");
     ("role", "admin")].

(** The same calls, and then the profile update of Alice. *)
Definition moreCalls : list Call :=
  someCalls ++ [PutProfile (now + 2000) (now + 2001) profileRequest].

End Demo.


(** * Properties *)

(** ** The password policy *)

Lemma pushIf_app (c : bool) (m : string) (errs : list string) :
  PasswordValidator.pushIf c m errs = errs ++ (if c then [m] else []).
Proof. destruct c; simpl; [reflexivity | now rewrite app_nil_r]. Qed.

Lemma strength_errors (password : string) (confirm : option string)
    (info : PasswordValidator.UserInfo) :
  PasswordValidator.errors (PasswordValidator.validatePasswordStrength password)
  = map PasswordPolicy.ruleMessage
      (List.filter (PasswordPolicy.reported password confirm info)
         PasswordPolicy.strengthRules).
Proof.
  unfold PasswordValidator.validatePasswordStrength, PasswordPolicy.strengthRules.
  cbn [PasswordValidator.errors List.filter PasswordPolicy.reported
       PasswordPolicy.violated].
  rewrite !pushIf_app. cbn [app].
  repeat match goal with
         | |- context [if ?c then _ else _] => destruct c
         end; reflexivity.
Qed.

Lemma strength_valid_nil (password : string) :
  PasswordValidator.isValid (PasswordValidator.validatePasswordStrength password) = true ->
  PasswordValidator.errors (PasswordValidator.validatePasswordStrength password) = [].
Proof.
  unfold PasswordValidator.validatePasswordStrength.
  cbn [PasswordValidator.errors PasswordValidator.isValid].
  intros H. apply Nat.eqb_eq in H. now apply length_zero_iff_nil.
Qed.

Lemma validatePassword_errors (password : string) (confirm : option string)
    (info : PasswordValidator.UserInfo) :
  PasswordValidator.errors
    (PasswordValidator.validatePassword password confirm (Some info))
  = map PasswordPolicy.ruleMessage (PasswordPolicy.reportedRules password confirm info).
Proof.
  unfold PasswordPolicy.reportedRules, PasswordPolicy.allRules.
  rewrite !List.filter_app, !map_app, <- (strength_errors password confirm info).
  unfold PasswordValidator.validatePassword.
  cbn [PasswordValidator.errors].
  assert (Hs : (if PasswordValidator.isValid
                     (PasswordValidator.validatePasswordStrength password)
                then []
                else [] ++ PasswordValidator.errors
                             (PasswordValidator.validatePasswordStrength password))
               = PasswordValidator.errors
                   (PasswordValidator.validatePasswordStrength password)).
  { destruct (PasswordValidator.isValid _) eqn:Hv; [| reflexivity].
    symmetry. now apply strength_valid_nil. }
  rewrite Hs. clear Hs.
  generalize (PasswordValidator.errors
                (PasswordValidator.validatePasswordStrength password)) as errs.
  intros errs.
  unfold PasswordValidator.validatePasswordNoUserInfo,
    PasswordPolicy.containmentRules.
  cbn [List.filter PasswordPolicy.reported PasswordPolicy.violated].
  destruct confirm as [c |];
    unfold PasswordValidator.validatePasswordMatch;
    try destruct (String.eqb password c);
    destruct (PasswordValidator.emailContained _ _);
    destruct (PasswordValidator.nameContained _ (PasswordValidator.firstname info));
    destruct (PasswordValidator.nameContained _ (PasswordValidator.lastname info));
    cbn; rewrite <- ?app_assoc, ?app_nil_r; reflexivity.
Qed.

Lemma validatePassword_valid (password : string) (confirm : option string)
    (info : PasswordValidator.UserInfo) :
  PasswordValidator.isValid
    (PasswordValidator.validatePassword password confirm (Some info)) = false
  <-> PasswordPolicy.violatedRules password confirm info <> [].
Proof.
  assert (Hlen : PasswordValidator.isValid
             (PasswordValidator.validatePassword password confirm (Some info))
           = Nat.eqb (List.length (PasswordValidator.errors
               (PasswordValidator.validatePassword password confirm (Some info)))) 0)
    by reflexivity.
  rewrite Hlen, validatePassword_errors, length_map. clear Hlen.
  unfold PasswordPolicy.reportedRules, PasswordPolicy.violatedRules,
    PasswordPolicy.allRules.
  rewrite !List.filter_app.
  change (List.filter (PasswordPolicy.reported password confirm info)
            PasswordPolicy.strengthRules)
    with (List.filter (PasswordPolicy.violated password confirm info)
            PasswordPolicy.strengthRules).
  change (List.filter (PasswordPolicy.reported password confirm info)
            [PasswordPolicy.Mismatch])
    with (List.filter (PasswordPolicy.violated password confirm info)
            [PasswordPolicy.Mismatch]).
  destruct (List.filter _ PasswordPolicy.strengthRules);
    [| cbn; split; congruence].
  destruct (List.filter _ [PasswordPolicy.Mismatch]);
    [| cbn; split; congruence].
  unfold PasswordPolicy.containmentRules.
  cbn [app List.filter PasswordPolicy.reported].
  repeat match goal with
         | |- context [PasswordPolicy.violated password confirm info ?r] =>
             destruct (PasswordPolicy.violated password confirm info r)
         end; cbn; split; congruence.
Qed.

(** ** Collections *)

(** Case analysis on every condition of the goal. *)
Ltac case_ifs :=
  repeat match goal with
         | |- context [if ?c then _ else _] => destruct c
         end.

Lemma find_some_of_In {A : Type} (p : A -> bool) (x : A) (l : list A) :
  In x l -> p x = true -> exists y, List.find p l = Some y.
Proof.
  intros Hin Hp. destruct (List.find p l) eqn:Hf; [eauto |].
  now rewrite (List.find_none _ _ Hf _ Hin) in Hp.
Qed.

Lemma isBlacklisted_of_entry (tok : string) (now : Date) (e : TokenBlacklist.t)
    (entries : list TokenBlacklist.t) :
  In e entries -> TokenBlacklist.token e = tok -> now < TokenBlacklist.expiresAt e ->
  TokenBlacklist.isBlacklisted tok now entries = true.
Proof.
  intros Hin Ht Hexp. unfold TokenBlacklist.isBlacklisted.
  destruct (find_some_of_In
              (fun e => String.eqb (TokenBlacklist.token e) tok
                        && (now <? TokenBlacklist.expiresAt e)) e entries Hin)
    as [y Hy].
  - rewrite Ht, String.eqb_refl. now apply Z.ltb_lt in Hexp as ->.
  - now rewrite Hy.
Qed.

Lemma hasToken_iff (tok : string) (entries : list TokenBlacklist.t) :
  TokenBlacklist.hasToken tok entries = true
  <-> exists e, In e entries /\ TokenBlacklist.token e = tok.
Proof.
  unfold TokenBlacklist.hasToken. rewrite existsb_exists.
  split; intros [e [Hin He]]; exists e; split; auto.
  - now apply String.eqb_eq.
  - now apply String.eqb_eq.
Qed.

(** A blacklist entry that was created is in the collection afterwards. *)
Lemma create_hasToken (doc : TokenBlacklist.t) (entries entries' : list TokenBlacklist.t) :
  TokenBlacklist.create doc entries = Ok entries' ->
  entries' = entries ++ [doc] /\ TokenBlacklist.hasToken (TokenBlacklist.token doc) entries = false.
Proof.
  unfold TokenBlacklist.create.
  destruct (_ ++ _); [| discriminate].
  destruct (TokenBlacklist.hasToken _ entries) eqn:Hh; [discriminate |].
  intros [= <-]. auto.
Qed.

Lemma truthy_Some (s : string) : Js.truthy (Some s) = true <-> s <> EmptyString.
Proof.
  cbn. destruct (String.eqb_spec s EmptyString); cbn; split; congruence.
Qed.

(** The validators of [TokenBlacklist.create] accept a non-empty token with
    a reason of the enum. *)
Lemma create_valid (doc : TokenBlacklist.t) (entries : list TokenBlacklist.t) :
  TokenBlacklist.token doc <> EmptyString ->
  existsb (String.eqb (TokenBlacklist.reason doc)) TokenBlacklist.reasons = true ->
  TokenBlacklist.create doc entries
  = if TokenBlacklist.hasToken (TokenBlacklist.token doc) entries
    then Throw (DuplicateKey "tokenblacklists" "token_1" (TokenBlacklist.token doc))
    else Ok (entries ++ [doc]).
Proof.
  intros Htok Hreason. unfold TokenBlacklist.create, requiredStr, enumStr.
  apply truthy_Some in Htok. now rewrite Htok, Hreason.
Qed.

(** The reason [token_rotation] is not of the enum: the validators refuse
    the entry, whatever the collection holds. *)
Lemma blacklist_token_rotation (tok : string) (uid : ObjectId) (expires : Date)
    (ip ua : option string) (now : Date) (entries : list TokenBlacklist.t) :
  tok <> EmptyString ->
  TokenBlacklist.blacklistToken tok uid expires "token_rotation" ip ua now entries
  = Throw (ValidationError "TokenBlacklist"
             [("reason", "`token_rotation` is not a valid enum value for path `reason`.")]).
Proof.
  intros Htok. unfold TokenBlacklist.blacklistToken, TokenBlacklist.create, requiredStr.
  cbn [TokenBlacklist.token TokenBlacklist.reason].
  apply truthy_Some in Htok. now rewrite Htok.
Qed.

Lemma updateFirst_compose {A : Type} (p : A -> bool) (f g : A -> A) (l : list A) :
  (forall d, p d = true -> p (g d) = true) ->
  updateFirst p f (updateFirst p g l) = updateFirst p (fun d => f (g d)) l.
Proof.
  intros Hp. induction l as [| d rest IH]; [reflexivity |].
  cbn. destruct (p d) eqn:Hd; cbn.
  - now rewrite (Hp d Hd).
  - now rewrite Hd, IH.
Qed.

Lemma find_updateFirst {A : Type} (p : A -> bool) (f : A -> A) (l : list A) :
  (forall d, p d = true -> p (f d) = true) ->
  List.find p (updateFirst p f l) = option_map f (List.find p l).
Proof.
  intros Hp. induction l as [| d rest IH]; [reflexivity |].
  cbn. destruct (p d) eqn:Hd; cbn.
  - now rewrite (Hp d Hd).
  - now rewrite Hd, IH.
Qed.

Lemma preFindOne_posts (id : ObjectId) (ps : list Post.t) (now : Date)
    (us : list User.t) (lastPost : Post.t) :
  last (Post.find id ps) = Some lastPost ->
  User.preFindOne id ps now us
  = User.findByIdAndUpdate id (User.hookUpdate (Post.find id ps) lastPost now) us.
Proof.
  intros Hl. unfold User.preFindOne, User.findByIdAndUpdate, User.hookUpdate.
  rewrite Hl.
  destruct (30 * User.DAY <? now - Post.createdAt lastPost);
    now rewrite updateFirst_compose.
Qed.

Lemma preFindOne_no_posts (id : ObjectId) (ps : list Post.t) (now : Date)
    (us : list User.t) :
  Post.find id ps = [] -> User.preFindOne id ps now us = us.
Proof. intros H. unfold User.preFindOne. now rewrite H. Qed.




Lemma serve_app {A : Type} (h : Store -> A -> Http.Outcome * Store) (st : Store)
    (l1 l2 : list A) :
  serve h st (l1 ++ l2)
  = (fst (serve h st l1) ++ fst (serve h (snd (serve h st l1)) l2),
     snd (serve h (snd (serve h st l1)) l2)).
Proof.
  revert st. induction l1 as [| c l1 IH]; intros st; cbn.
  - now destruct (serve h st l2).
  - destruct (h st c) as [o st1]. rewrite IH.
    destruct (serve h st1 l1) as [os st2]. cbn.
    now destruct (serve h st2 l2).
Qed.

(** With unique [_id]s, an update of the document that a lookup by email
    found is seen by the next lookup by that email. *)
Lemma findOneByEmail_updateOne (e : string) (u : User.t) (f : User.t -> User.t)
    (us : list User.t) :
  List.NoDup (map User._id us) ->
  User.findOneByEmail (Some e) us = Some u ->
  (forall d, User.email (f d) = User.email d) ->
  (forall d, User._id (f d) = User._id d) ->
  User.findOneByEmail (Some e) (User.updateOne u f us) = Some (f u)
  /\ map User._id (User.updateOne u f us) = map User._id us.
Proof.
  intros Hnd Hfind Hemail Hid. unfold User.findOneByEmail, User.updateOne in *.
  induction us as [| d rest IH]; [discriminate |].
  cbn in Hfind |- *. apply NoDup_cons_iff in Hnd as [Hd Hnd].
  destruct (String.eqb (User.email d) (Js.trim e)) eqn:He.
  - injection Hfind as <-. unfold User.hasId at 1 3. rewrite Z.eqb_refl. cbn.
    now rewrite Hemail, He, Hid.
  - assert (Hne : User.hasId (User._id u) d = false).
    { unfold User.hasId. apply Z.eqb_neq. intros Heq. apply Hd. rewrite Heq.
      apply in_map. now apply List.find_some in Hfind as [Hin _]. }
    rewrite Hne. cbn. rewrite He.
    destruct (IH Hnd Hfind) as [IH1 IH2]. now rewrite IH1, IH2.
Qed.

(** The lookup by [_id] finds the stored user, with the password and the
    token version it has in the store: the hook writes neither. *)
Lemma findById_found (id : ObjectId) (ps : list Post.t) (now : Date)
    (us : list User.t) (u : User.t) :
  List.find (User.hasId id) us = Some u ->
  exists u' us',
    User.findById id ps now us = (Some u', us')
    /\ List.find (User.hasId id) us' = Some u'
    /\ User._id u' = User._id u
    /\ User.password u' = User.password u
    /\ User.tokenVersion u' = User.tokenVersion u
    /\ User.email u' = User.email u
    /\ User.firstname u' = User.firstname u
    /\ User.lastname u' = User.lastname u.
Proof.
  intros Hf. unfold User.findById.
  destruct (last (Post.find id ps)) as [lastPost |] eqn:Hl.
  - rewrite (preFindOne_posts _ _ _ _ _ Hl). unfold User.findByIdAndUpdate.
    rewrite find_updateFirst by (intros d Hd; exact Hd). rewrite Hf.
    cbn [option_map]. do 2 eexists. split; [reflexivity |].
    split; [| repeat split].
    rewrite find_updateFirst by (intros d Hd; exact Hd). now rewrite Hf.
  - unfold User.preFindOne. rewrite Hl. rewrite Hf.
    do 2 eexists. repeat split. exact Hf.
Qed.

(** Every entry the loop of [invalidateAllUserSessions] adds carries the
    token and the expiry of one of the sessions it was given. *)
Lemma invalidateEach_entries (found : list Session.t) (uid : ObjectId) (why : string)
    (now : Date) :
  forall (ss : list Session.t) (bl : list TokenBlacklist.t)
         (ss' : list Session.t) (bl' : list TokenBlacklist.t) (r : option Exn),
    Session.invalidateEach found uid why now ss bl = (ss', bl', r) ->
    forall b, In b bl' ->
      In b bl
      \/ exists s, In s found /\ TokenBlacklist.token b = Session.token s
                   /\ TokenBlacklist.expiresAt b = Session.expiresAt s.
Proof.
  induction found as [| s found IH]; intros ss bl ss' bl' r; cbn.
  - intros [= <- <- <-] b Hb. now left.
  - destruct (TokenBlacklist.blacklistToken _ _ _ _ _ _ _ bl) as [bl1 | e] eqn:Hbl.
    + intros Hrun b Hb. destruct (IH _ _ _ _ _ Hrun b Hb) as [Hin | (s' & Hs' & Ht & He)].
      * apply create_hasToken in Hbl as [-> _].
        apply in_app_or in Hin as [Hin | [<- | []]]; [now left |].
        right. exists s. split; [now left | split; reflexivity].
      * right. exists s'. split; [now right | split; assumption].
    + intros [= <- <- <-] b Hb. now left.
Qed.

(** *** Records that do not expire before their token *)

Lemma Forall_updateFirst {A : Type} (P : A -> Prop) (p : A -> bool) (f : A -> A)
    (l : list A) :
  (forall x, P x -> P (f x)) -> Forall P l -> Forall P (updateFirst p f l).
Proof.
  intros Hf. induction 1 as [| x l Hx Hl IH]; cbn; [constructor |].
  destruct (p x); constructor; auto.
Qed.

Lemma create_EntryOk (jwt_decode : string -> option Jwt.Payload)
    (doc : TokenBlacklist.t) (entries entries' : list TokenBlacklist.t) :
  TokenBlacklist.create doc entries = Ok entries' ->
  EntryOk jwt_decode doc -> Forall (EntryOk jwt_decode) entries ->
  Forall (EntryOk jwt_decode) entries'.
Proof.
  intros Hc Hdoc Hall. apply create_hasToken in Hc as [-> _].
  apply Forall_app. split; [assumption | now constructor].
Qed.

Lemma invalidateEach_coherent (jwt_decode : string -> option Jwt.Payload)
    (found : list Session.t) (uid : Z) (why : string) (now : Z) :
  Forall (SessionOk jwt_decode) found ->
  forall (ss : list Session.t) (bl : list TokenBlacklist.t),
    Forall (SessionOk jwt_decode) ss -> Forall (EntryOk jwt_decode) bl ->
    Forall (SessionOk jwt_decode) (Session.invalidateEach found uid why now ss bl).1.1
    /\ Forall (EntryOk jwt_decode) (Session.invalidateEach found uid why now ss bl).1.2.
Proof.
  induction 1 as [| s found Hs _ IH]; intros ss bl Hss Hbl; cbn; [now split |].
  assert (Hss' : Forall (SessionOk jwt_decode)
                   (Session.save s (Session.setIsActive false) ss)).
  { apply Forall_updateFirst; [| assumption]. intros x Hx. exact Hx. }
  destruct (TokenBlacklist.blacklistToken _ _ _ _ _ _ _ bl) as [bl1 | e] eqn:Hc.
  - apply IH; [assumption |].
    apply (create_EntryOk _ _ _ _ Hc); [| assumption]. exact Hs.
  - now split.
Qed.

Section AuthProperties.

Variable jwt_sign : Jwt.Payload -> string.
Variable jwt_decode : string -> option Jwt.Payload.
Variable bcrypt_hash : string -> string -> string.
Variable bcrypt_compare : string -> string -> bool.
Variable JWT_EXPIRES_IN : option string.
Variable JWT_REFRESH_EXPIRES_IN : option string.
Variable SESSION_TIMEOUT_MINUTES : Z.

Local Abbreviation verifyToken' := (verifyToken jwt_decode).
Local Abbreviation requireSignIn' := (requireSignIn jwt_decode SESSION_TIMEOUT_MINUTES).
Local Abbreviation refreshToken' :=
  (refreshToken jwt_sign jwt_decode JWT_EXPIRES_IN JWT_REFRESH_EXPIRES_IN).
Local Abbreviation logout' := (logout jwt_decode).
Local Abbreviation signup' := (signup jwt_sign bcrypt_hash JWT_EXPIRES_IN JWT_REFRESH_EXPIRES_IN).
Local Abbreviation login' := (login jwt_sign bcrypt_compare JWT_EXPIRES_IN JWT_REFRESH_EXPIRES_IN).
Local Abbreviation changePassword' := (changePassword bcrypt_hash bcrypt_compare).

(** ** Refresh *)

Lemma refreshToken_blacklisted (st : Store) (now : Date) (rnd : Entropy)
    (req : Http.Request) (tok : string) :
  presentedRefreshToken req = Some tok -> tok <> EmptyString ->
  TokenBlacklist.isBlacklisted tok now (blacklist st) = true ->
  refreshToken' st now rnd req = (Http.NextError msgRefreshRevoked 401, st).
Proof.
  intros Hp Htok Hb. unfold refreshToken. rewrite Hp.
  apply truthy_Some in Htok. rewrite Htok. cbn [negb Js.str]. now rewrite Hb.
Qed.

(** C2. A refresh token that has an unexpired entry in the blacklist is
    refused on every later presentation: each refresh call that presents
    it while the entry is unexpired answers 401 with the message that the
    token has been invalidated, before anything is issued, and the store
    (blacklist, sessions, users) is left exactly as it was. *)
Theorem refreshToken_replay_rejected (st : Store) (tok : string)
    (entry : TokenBlacklist.t) (calls : list (Date * Entropy * Http.Request)) :
  tok <> EmptyString ->
  In entry (blacklist st) ->
  TokenBlacklist.token entry = tok ->
  Forall (fun c => presentedRefreshToken c.2 = Some tok
                   /\ c.1.1 < TokenBlacklist.expiresAt entry) calls ->
  serve (fun st c => refreshToken' st c.1.1 c.1.2 c.2) st calls
  = (map (fun _ => Http.NextError msgRefreshRevoked 401) calls, st).
Proof.
  intros Htok Hin He Hall. induction Hall as [| c calls [Hp Hexp] _ IH].
  - reflexivity.
  - cbn [serve map]. cbv beta.
    rewrite (refreshToken_blacklisted st c.1.1 c.1.2 c.2 tok Hp Htok
               (isBlacklisted_of_entry tok c.1.1 entry (blacklist st) Hin He Hexp)).
    now rewrite IH.
Qed.

Lemma verifyToken_ok (tok : string) (expected : option Jwt.TokenType) (now : Date)
    (decoded : Jwt.Payload) :
  verifyToken' tok expected now = Ok decoded ->
  jwt_decode tok = Some decoded
  /\ now / 1000 < Jwt.exp decoded
  /\ (forall t, expected = Some t -> Jwt.type decoded = t).
Proof.
  unfold verifyToken. destruct (jwt_decode tok) as [d |]; [| discriminate].
  destruct (Z.leb_spec (Jwt.exp d) (now / 1000)); [discriminate |].
  destruct expected as [t |].
  - destruct (Jwt.typeEqb (Jwt.type d) t) eqn:Ht; [| discriminate].
    intros [= <-]. repeat split; auto. intros t' [= <-].
    now destruct (Jwt.type d), t.
  - intros [= <-]. repeat split; auto. discriminate.
Qed.

Lemma validationError_not_expired :
  Js.includes
    (message (ValidationError "TokenBlacklist"
       [("reason", "`token_rotation` is not a valid enum value for path `reason`.")]))
    "expired" = false.
Proof. vm_compute. reflexivity. Qed.

(** C1. What the source does on a refresh request that passes every check
    of the rotation (token presented, not blacklisted, signed, unexpired, of
    type refresh, user found, token version current, account neither
    blocked nor locked): the blacklist entry with reason [token_rotation]
    is refused by the schema, the exception reaches the [catch], and the
    call answers 401 [Invalid refresh token]; the blacklist and the sessions
    are as before, and no token is issued. *)
Theorem refreshToken_rotation_refused (st : Store) (now : Date) (rnd : Entropy)
    (req : Http.Request) (tok : string) (decoded : Jwt.Payload) (user : User.t)
    (us : list User.t) :
  presentedRefreshToken req = Some tok -> tok <> EmptyString ->
  TokenBlacklist.isBlacklisted tok now (blacklist st) = false ->
  verifyToken' tok (Some Jwt.refresh) now = Ok decoded ->
  User.findById (Jwt.id decoded) (posts st) now (users st) = (Some user, us) ->
  (forall v, Jwt.tokenVersion decoded = Some v -> User.tokenVersion user = v) ->
  User.isBlocked user = false -> User.isLocked user now = false ->
  refreshToken' st now rnd req = (Http.NextError msgInvalidRefresh 401, withUsers us st)
  /\ blacklist (withUsers us st) = blacklist st
  /\ sessions (withUsers us st) = sessions st.
Proof.
  intros Hp Htok Hb Hv Hf Hver Hblocked Hlocked.
  split; [| split; reflexivity].
  unfold refreshToken. rewrite Hp.
  pose proof Htok as Htruthy. apply truthy_Some in Htruthy.
  rewrite Htruthy. cbn [negb Js.str]. rewrite Hb, Hv.
  destruct (verifyToken_ok _ _ _ _ Hv) as (_ & _ & Hty).
  rewrite (Hty _ eq_refl). cbn [Jwt.typeEqb negb]. rewrite Hf.
  assert (Hversion : match Jwt.tokenVersion decoded with
                     | Some v => negb (User.isTokenVersionValid user v)
                     | None => false
                     end = false).
  { destruct (Jwt.tokenVersion decoded) as [v |]; [| reflexivity].
    unfold User.isTokenVersionValid. rewrite (Hver v eq_refl), Z.eqb_refl.
    reflexivity. }
  rewrite Hversion, Hblocked, Hlocked. cbn [orb].
  rewrite blacklist_token_rotation by assumption.
  now rewrite validationError_not_expired.
Qed.

(** ** Request authentication *)

(** C10. A presented access token that passes the extraction, blacklist,
    signature, expiry, type, user, token-version, blocked and locked checks
    authenticates the request also when no active session matches it: the
    middleware calls [next()] with the user and the token attached and no
    session, and neither the sessions nor the blacklist are written. *)
Theorem requireSignIn_session_optional (st : Store) (now : Date)
    (req : Http.Request) (tok : string) (decoded : Jwt.Payload) (user : User.t)
    (us : list User.t) :
  extractToken req = Some tok -> tok <> EmptyString ->
  TokenBlacklist.isBlacklisted tok now (blacklist st) = false ->
  verifyToken' tok (Some Jwt.access) now = Ok decoded ->
  User.findById (Jwt.id decoded) (posts st) now (users st) = (Some user, us) ->
  (forall v, Jwt.tokenVersion decoded = Some v -> User.tokenVersion user = v) ->
  User.isBlocked user = false -> User.isLocked user now = false ->
  Session.findActive tok (User._id user) (sessions st) = None ->
  requireSignIn' st now req = (Http.Next (Http.attach req user tok None), withUsers us st)
  /\ Http.session (Http.attach req user tok None) = None
  /\ sessions (withUsers us st) = sessions st
  /\ blacklist (withUsers us st) = blacklist st.
Proof.
  intros He Htok Hb Hv Hf Hver Hblocked Hlocked Hs.
  split; [| repeat split].
  unfold requireSignIn. rewrite He.
  pose proof Htok as Htruthy. apply truthy_Some in Htruthy.
  rewrite Htruthy. cbn [negb Js.str]. rewrite Hb, Hv, Hf.
  assert (Hversion : match Jwt.tokenVersion decoded with
                     | Some v => negb (User.isTokenVersionValid user v)
                     | None => false
                     end = false).
  { destruct (Jwt.tokenVersion decoded) as [v |]; [| reflexivity].
    unfold User.isTokenVersionValid. rewrite (Hver v eq_refl), Z.eqb_refl.
    reflexivity. }
  rewrite Hversion, Hblocked, Hlocked.
  cbn [sessions withUsers]. now rewrite Hs.
Qed.

(** What the middleware attaches when it lets a request through. *)
Lemma requireSignIn_next (st st' : Store) (now : Date) (req req' : Http.Request) :
  requireSignIn' st now req = (Http.Next req', st') ->
  exists tok user,
    extractToken req = Some tok /\ tok <> EmptyString
    /\ Http.token req' = Some tok /\ Http.user req' = Some user
    /\ (forall s, Http.session req' = Some s -> Session.token s = tok).
Proof.
  unfold requireSignIn.
  destruct (extractToken req) as [tok |] eqn:He; [| discriminate].
  destruct (Js.truthy (Some tok)) eqn:Htruthy; [| discriminate].
  cbn [negb Js.str].
  destruct (TokenBlacklist.isBlacklisted _ _ _); [discriminate |].
  destruct (verifyToken' _ _ _) as [decoded | e].
  2:{ case_ifs; discriminate. }
  destruct (User.findById _ _ _ _) as [[user |] us]; [| discriminate].
  destruct (match Jwt.tokenVersion decoded with Some _ => _ | None => _ end).
  { destruct (TokenBlacklist.blacklistToken _ _ _ _ _ _ _ _); discriminate. }
  destruct (User.isBlocked user); [discriminate |].
  destruct (User.isLocked user now); [discriminate |].
  destruct (Session.findActive _ _ _) as [s |] eqn:Hs.
  - destruct (Session.isInactive _ _ _).
    + destruct (Session.invalidate _ _ _ _ _) as [ss [bl | e]]; discriminate.
    + cbn. intros [= <- <-]. exists tok, user.
      repeat split; auto; [now apply truthy_Some |].
      cbn. intros s' [= <-]. cbn.
      unfold Session.findActive in Hs. apply List.find_some in Hs as [_ Hs].
      apply andb_prop in Hs as [Hs _]. apply andb_prop in Hs as [Hs _].
      now apply String.eqb_eq.
  - intros [= <- <-]. exists tok, user.
    repeat split; auto; [now apply truthy_Some |]. cbn. discriminate.
Qed.

(** ** Logout *)

(** A logout that carries a session of the token always fails: either an
    earlier step throws, or the entry that the handler itself has just
    written makes the session's own blacklisting a duplicate. *)
Lemma logout_with_session (st : Store) (now : Date) (req : Http.Request)
    (tok : string) (s : Session.t) :
  Http.token req = Some tok -> tok <> EmptyString ->
  Http.session req = Some s -> Session.token s = tok ->
  fst (logout' st now req) = Http.NextError msgLogoutFailed 500.
Proof.
  intros Ht Htok Hs Hst. unfold logout. rewrite Ht.
  pose proof Htok as Htruthy. apply truthy_Some in Htruthy.
  rewrite Htruthy. cbn [negb Js.str].
  destruct (verifyToken' tok None now) as [decoded | e]; [| reflexivity].
  destruct (Http.user req) as [u |]; [| reflexivity].
  destruct (TokenBlacklist.blacklistToken tok _ _ "logout" _ _ _ _) as [bl | e] eqn:Hbl;
    [| reflexivity].
  rewrite Hs. unfold Session.invalidate, TokenBlacklist.blacklistToken.
  cbn [blacklist withBlacklist].
  rewrite create_valid by (cbn; congruence).
  cbn [TokenBlacklist.token]. rewrite Hst.
  apply create_hasToken in Hbl as [-> _].
  assert (Hdup : TokenBlacklist.hasToken tok
            (blacklist st
             ++ [{| TokenBlacklist.token := tok; TokenBlacklist.userId := User._id u;
                    TokenBlacklist.reason := "logout";
                    TokenBlacklist.expiresAt := Jwt.exp decoded * 1000;
                    TokenBlacklist.blacklistedAt := now;
                    TokenBlacklist.ipAddress := Jwt.m_ipAddress (getClientMetadata req);
                    TokenBlacklist.userAgent :=
                      Some (Jwt.m_userAgent (getClientMetadata req)) |}]) = true).
  { apply hasToken_iff. eexists. split; [apply in_or_app; right; left; reflexivity |].
    reflexivity. }
  now rewrite Hdup.
Qed.

(** C5. What the source does on the logout of a request that the middleware
    authenticated with a session: the call answers 500 [Logout failed], not
    the success payload.  When the token is unexpired and has no entry yet,
    the store it leaves holds the entry with reason [logout] for the token
    and the session saved inactive: the failure comes after both writes,
    from blacklisting the same token a second time. *)
Theorem logout_after_authentication (st0 st : Store) (now0 now : Date)
    (req0 req : Http.Request) (s : Session.t) :
  requireSignIn' st0 now0 req0 = (Http.Next req, st) ->
  Http.session req = Some s ->
  fst (logout' st now req) = Http.NextError msgLogoutFailed 500
  /\ (forall tok u decoded,
        Http.token req = Some tok -> Http.user req = Some u ->
        verifyToken' tok None now = Ok decoded ->
        TokenBlacklist.hasToken tok (blacklist st) = false ->
        snd (logout' st now req)
        = withSessions (Session.save s (Session.setIsActive false) (sessions st))
            (withBlacklist (blacklist st ++ [logoutEntry tok u decoded req now]) st)).
Proof.
  intros Hauth Hs.
  destruct (requireSignIn_next _ _ _ _ _ Hauth) as (tok & user & _ & Htok & Ht & Hu & Hst).
  split.
  - apply (logout_with_session st now req tok s); auto.
  - intros tok' u decoded Ht' Hu' Hv Hfree.
    rewrite Ht in Ht'. injection Ht' as <-.
    unfold logout. rewrite Ht.
    pose proof Htok as Htruthy. apply truthy_Some in Htruthy.
    rewrite Htruthy. cbn [negb Js.str]. rewrite Hv, Hu'.
    unfold TokenBlacklist.blacklistToken.
    rewrite create_valid by (cbn; congruence).
    cbn [TokenBlacklist.token]. rewrite Hfree, Hs.
    unfold Session.invalidate, TokenBlacklist.blacklistToken.
    cbn [blacklist withBlacklist sessions].
    rewrite create_valid by (cbn; rewrite ?(Hst s Hs); congruence).
    cbn [TokenBlacklist.token]. rewrite (Hst s Hs).
    fold (logoutEntry tok u decoded req now).
    assert (Hdup : TokenBlacklist.hasToken tok
              (blacklist st ++ [logoutEntry tok u decoded req now]) = true).
    { apply hasToken_iff. eexists. split; [apply in_or_app; right; left; reflexivity |].
      reflexivity. }
    now rewrite Hdup.
Qed.

(** ** The [findOne] hook *)



(** ** Signup *)

Lemma User_create_ok (firstname lastname email password phone : option string)
    (role salt : string) (us us' : list User.t) (doc : User.t) :
  User_create bcrypt_hash firstname lastname email password phone role salt us
  = Ok (doc, us') ->
  us' = us ++ [doc] /\ User.role doc = role.
Proof.
  unfold User_create. destruct (_ ++ _); [| discriminate].
  destruct (existsb _ us); [discriminate |].
  intros [= <- <-]. split; reflexivity.
Qed.

(** C6. Signup never reads a [role] of the request body: two signup
    requests that differ only in the role they supply (or in supplying one)
    have the same outcome and leave the same store; and every user that a
    signup adds to the store has the role [user]. *)
Theorem signup_role_forced (st : Store) (now : Date) (rnd : Entropy)
    (req : Http.Request) :
  (forall r : string,
     signup' st now rnd (Http.withBody (<["role" := r]> (Http.body req)) req)
     = signup' st now rnd (Http.withBody (delete "role" (Http.body req)) req))
  /\ (forall u, In u (users (snd (signup' st now rnd req))) ->
                In u (users st) \/ User.role u = "user").
Proof.
  split.
  - intros r. unfold signup. cbn [Http.body Http.withBody].
    rewrite !lookup_insert_ne, !lookup_delete_ne by discriminate.
    reflexivity.
  - intros u. unfold signup.
    destruct (Http.body req !! "password") as [pw |]; [| now left].
    destruct (negb _); [now left |].
    destruct (User_create _ _ _ _ _ _ _ _ _) as [[doc us] | e] eqn:Hc; [| now left].
    apply User_create_ok in Hc as [-> Hrole].
    assert (Hin : In u (users st ++ [doc]) -> In u (users st) \/ User.role u = "user").
    { intros H. apply in_app_or in H as [H | [<- | []]]; auto. }
    destruct (issueSession _ _ _ _ _ _ _ _) as [[[a r] ss] | e]; exact Hin.
Qed.

(** C8. A signup that answers with a response answers 201 with the created
    user as [data], and that object has no [password] field. *)
Theorem signup_response_without_password (st st' : Store) (now : Date)
    (rnd : Entropy) (req : Http.Request) (status : Z) (payload : Http.Body)
    (setCookies : list (string * string)) :
  signup' st now rnd req = (Http.Respond status payload setCookies, st') ->
  status = 201
  /\ exists (u : User.t) (o : Http.Object),
       In u (users st') /\ Http.data payload = Some o
       /\ o = delete "password" (toObject u)
       /\ o !! "password" = None.
Proof.
  unfold signup.
  destruct (Http.body req !! "password") as [pw |]; [| discriminate].
  destruct (negb _); [discriminate |].
  destruct (User_create _ _ _ _ _ _ _ _ _) as [[doc us] | e] eqn:Hc; [| discriminate].
  apply User_create_ok in Hc as [-> _].
  destruct (issueSession _ _ _ _ _ _ _ _) as [[[a r] ss] | e]; [| discriminate].
  intros [= <- <- <- <-]. split; [reflexivity |].
  exists doc, (delete "password" (toObject doc)). repeat split.
  - cbn. apply in_or_app. right. now left.
  - apply lookup_delete_eq.
Qed.

(** ** Login and lockout *)

Lemma login_wrong_password (st : Store) (e : string) (u : User.t)
    (c : Date * Entropy * Http.Request) :
  User.findOneByEmail (Some e) (users st) = Some u ->
  User.lockUntil u = None -> User.isBlocked u = false ->
  wrongPassword bcrypt_compare e (User.password u) c ->
  login' st c.1.1 c.1.2 c.2
  = (Http.NextError msgInvalidCredentials 401,
     withUsers
       (User.updateOne u
          (fun d => User.setLockout (User.loginAttempts d + 1)
                      (if User.maxAttempts <=? User.loginAttempts u + 1
                       then Some (c.1.1 + User.lockTime) else User.lockUntil d)
                      (User.lastLogin d) d)
          (users st)) st).
Proof.
  intros Hfind Hlock Hblocked [He (pw & Hpw & Hcmp)].
  unfold login. rewrite He, Hfind, Hpw.
  unfold User.incLoginAttempts. unfold User.isLocked.
  rewrite Hlock, Hblocked, Hcmp. cbn [negb andb]. rewrite andb_true_r.
  now destruct (User.maxAttempts <=? User.loginAttempts u + 1).
Qed.

(** Failed logins below the threshold count up and leave the lock unset. *)
Lemma failed_logins_count (e hash : string)
    (calls : list (Date * Entropy * Http.Request)) :
  forall (st : Store) (u : User.t),
    List.NoDup (map User._id (users st)) ->
    User.findOneByEmail (Some e) (users st) = Some u ->
    User.password u = hash -> User.lockUntil u = None -> User.isBlocked u = false ->
    User.loginAttempts u + Z.of_nat (List.length calls) < User.maxAttempts ->
    Forall (wrongPassword bcrypt_compare e hash) calls ->
    exists st',
      serve (fun st c => login' st c.1.1 c.1.2 c.2) st calls
      = (map (fun _ => Http.NextError msgInvalidCredentials 401) calls, st')
      /\ List.NoDup (map User._id (users st'))
      /\ User.findOneByEmail (Some e) (users st')
         = Some (User.setLockout (User.loginAttempts u + Z.of_nat (List.length calls))
                   None (User.lastLogin u) u)
      /\ sessions st' = sessions st /\ blacklist st' = blacklist st.
Proof.
  induction calls as [| c calls IH]; intros st u Hnd Hfind Hpw Hlock Hblocked Hlt Hall.
  - exists st. cbn [serve map List.length Z.of_nat]. rewrite Z.add_0_r.
    repeat split; auto.
    rewrite Hfind. f_equal. destruct u. cbn in *. now subst.
  - apply Forall_cons_iff in Hall as [Hc Hall].
    cbn [List.length] in Hlt. rewrite Nat2Z.inj_succ in Hlt.
    cbn [serve]. cbv beta.
    rewrite (login_wrong_password st e u c Hfind Hlock Hblocked)
      by (now rewrite Hpw).
    destruct (Z.leb_spec User.maxAttempts (User.loginAttempts u + 1)); [lia |].
    set (f := fun d : User.t =>
                User.setLockout (User.loginAttempts d + 1) (User.lockUntil d)
                  (User.lastLogin d) d).
    destruct (findOneByEmail_updateOne e u f (users st) Hnd Hfind) as [Hf Hids];
      [reflexivity | reflexivity |].
    destruct (IH (withUsers (User.updateOne u f (users st)) st) (f u))
      as (st' & Hrun & Hnd' & Hfind' & Hss & Hbl).
    + cbn [users withUsers]. now rewrite Hids.
    + exact Hf.
    + exact Hpw.
    + cbn. exact Hlock.
    + exact Hblocked.
    + cbn [f User.loginAttempts User.setLockout]. lia.
    + exact Hall.
    + exists st'. rewrite Hrun. repeat split; auto.
      rewrite Hfind'. f_equal. subst f. cbn. rewrite Hlock.
      cbn [List.length]. rewrite Nat2Z.inj_succ.
      now replace (User.loginAttempts u + 1 + Z.of_nat (List.length calls))
        with (User.loginAttempts u + Z.succ (Z.of_nat (List.length calls))) by lia.
Qed.

Lemma map_const_replicate {A B : Type} (x : B) (l : list A) :
  map (fun _ => x) l = replicate (List.length l) x.
Proof. induction l as [| a l IH]; cbn; [reflexivity | now rewrite IH]. Qed.

Lemma issueSession_ok (u : User.t) (req : Http.Request) (now : Date) (rnd : Entropy)
    (ss : list Session.t) :
  Issuable jwt_sign JWT_EXPIRES_IN JWT_REFRESH_EXPIRES_IN u req now rnd ss ->
  exists accessToken refreshToken ss',
    issueSession jwt_sign JWT_EXPIRES_IN JWT_REFRESH_EXPIRES_IN u req now rnd ss
    = Ok (accessToken, refreshToken, ss').
Proof.
  intros (msA & msR & HA & HR & Hip & Htok & Hfresh).
  unfold issueSession, createToken, createRefreshToken, signToken.
  rewrite HA, HR. unfold Session.create. cbn [Session.f_token].
  rewrite Hfresh. eauto.
Qed.

(** C4, as amended.  From an unlocked user with no failed attempt who is
    not blocked, five logins in a row with a wrong password are each
    refused 401, and the fifth sets [lockUntil] to its clock plus two hours,
    with [loginAttempts] at 5.  From then on, a login before [lockUntil] is
    refused 403 as locked whatever password it presents, and the store is
    left as it is.  A login with the matching password at or after
    [lockUntil], for which a session can be issued, answers 200 and leaves
    the user with [loginAttempts] 0 and no lock. *)
Theorem lockout_after_five_failures (st : Store) (e : string) (u : User.t)
    (init : list (Date * Entropy * Http.Request))
    (fifth : Date * Entropy * Http.Request) :
  List.NoDup (map User._id (users st)) ->
  User.findOneByEmail (Some e) (users st) = Some u ->
  User.loginAttempts u = 0 -> User.lockUntil u = None -> User.isBlocked u = false ->
  List.length init = 4%nat ->
  Forall (wrongPassword bcrypt_compare e (User.password u)) (init ++ [fifth]) ->
  let lockedUntil := fifth.1.1 + User.lockTime in
  let locked := User.setLockout 5 (Some lockedUntil) (User.lastLogin u) u in
  exists st5,
    serve (fun st c => login' st c.1.1 c.1.2 c.2) st (init ++ [fifth])
    = (replicate 5 (Http.NextError msgInvalidCredentials 401), st5)
    /\ User.findOneByEmail (Some e) (users st5) = Some locked
    /\ sessions st5 = sessions st
    /\ (forall now rnd req,
          Http.body req !! "email" = Some e -> now < lockedUntil ->
          login' st5 now rnd req = (Http.NextError (msgLocked "Account" locked now) 403, st5))
    /\ (forall now rnd req pw,
          Http.body req !! "email" = Some e -> Http.body req !! "password" = Some pw ->
          bcrypt_compare pw (User.password u) = true ->
          lockedUntil <= now ->
          Issuable jwt_sign JWT_EXPIRES_IN JWT_REFRESH_EXPIRES_IN locked req now rnd
            (sessions st5) ->
          exists payload setCookies st7,
            login' st5 now rnd req = (Http.Respond 200 payload setCookies, st7)
            /\ User.findOneByEmail (Some e) (users st7)
               = Some (User.setLockout 0 None (Some now) u)).
Proof.
  intros Hnd Hfind Hzero Hlock Hblocked Hlen Hall lockedUntil locked.
  apply Forall_app in Hall as [Hinit Hfifth].
  apply Forall_cons_iff in Hfifth as [Hfifth _].
  destruct (failed_logins_count e (User.password u) init st u Hnd Hfind eq_refl
              Hlock Hblocked) as (st4 & Hrun & Hnd4 & Hfind4 & Hss & Hbl);
    [rewrite Hzero, Hlen; unfold User.maxAttempts; lia | exact Hinit |].
  rewrite Hzero, Hlen in Hfind4. cbn [Z.of_nat Pos.of_succ_nat Pos.succ Z.add] in Hfind4.
  set (u4 := User.setLockout 4 None (User.lastLogin u) u) in *.
  pose proof (login_wrong_password st4 e u4 fifth Hfind4 eq_refl Hblocked Hfifth)
    as Hstep.
  cbn [User.loginAttempts User.setLockout u4] in Hstep.
  change (User.maxAttempts <=? 4 + 1) with true in Hstep. cbv iota in Hstep.
  set (f := fun d : User.t =>
              User.setLockout (User.loginAttempts d + 1) (Some lockedUntil)
                (User.lastLogin d) d) in *.
  destruct (findOneByEmail_updateOne e u4 f (users st4) Hnd4 Hfind4) as [Hf Hids];
    [reflexivity | reflexivity |].
  change (f u4) with locked in Hf.
  set (st5 := withUsers (User.updateOne u4 f (users st4)) st4) in *.
  exists st5. split; [| split; [exact Hf | split; [exact Hss | split]]].
  - rewrite serve_app, Hrun. cbn [fst snd serve]. cbv beta. rewrite Hstep.
    rewrite map_const_replicate, Hlen. reflexivity.
  - intros now rnd req He Hnow. unfold login. rewrite He.
    change (users st5) with (User.updateOne u4 f (users st4)). rewrite Hf.
    unfold User.isLocked. cbn [User.lockUntil locked User.setLockout].
    now apply Z.ltb_lt in Hnow as ->.
  - intros now rnd req pw He Hpw Hcmp Hnow Hissue.
    destruct (issueSession_ok locked req now rnd (sessions st5) Hissue)
      as (a & r & ss & Hok).
    assert (Hnd5 : List.NoDup (map User._id (users st5))).
    { change (users st5) with (User.updateOne u4 f (users st4)). now rewrite Hids. }
    destruct (findOneByEmail_updateOne e locked
                (fun d => User.setLockout 0 None (Some now) d) (users st5) Hnd5 Hf)
      as [Hf7 _]; [reflexivity | reflexivity |].
    do 3 eexists. unfold login. rewrite He, Hpw.
    change (User.findOneByEmail (Some e) (users st5)) with
      (User.findOneByEmail (Some e) (User.updateOne u4 f (users st4))).
    rewrite Hf. unfold User.isLocked.
    cbn [User.lockUntil User.isBlocked User.password locked User.setLockout].
    apply Z.ltb_ge in Hnow. rewrite Hnow, Hblocked, Hcmp. cbn [negb].
    cbn [sessions withUsers]. change (sessions st4) with (sessions st5).
    rewrite Hok. split; [reflexivity |].
    cbn [users withSessions withUsers]. unfold User.resetLoginAttempts.
    exact Hf7.
Qed.

(** ** Password change *)

(** What a successful password change that modifies the password leaves. *)
Lemma changePassword_success (st st' : Store) (now : Date) (rnd : Entropy)
    (req : Http.Request) (reqUser user : User.t) (newPassword : string)
    (status : Z) (payload : Http.Body) (setCookies : list (string * string)) :
  changePassword' st now rnd req = (Http.Respond status payload setCookies, st') ->
  Http.user req = Some reqUser ->
  List.find (User.hasId (User._id reqUser)) (users st) = Some user ->
  Http.body req !! "newPassword" = Some newPassword ->
  newPassword <> User.password user ->
  (exists user',
     List.find (User.hasId (User._id reqUser)) (users st') = Some user'
     /\ User.tokenVersion user' = User.tokenVersion user + 1)
  /\ (forall b, In b (blacklist st') ->
        In b (blacklist st)
        \/ exists s, In s (sessions st) /\ TokenBlacklist.token b = Session.token s
                     /\ TokenBlacklist.expiresAt b = Session.expiresAt s).
Proof.
  intros Hrun Hreq Hfind Hbody Hne. unfold changePassword in Hrun.
  rewrite Hbody, Hreq in Hrun.
  destruct (negb _ || negb _); [discriminate |].
  destruct (findById_found (User._id reqUser) (posts st) now (users st) user Hfind)
    as (u' & us' & Hf & Hu' & Hid & Hpw & Hv & _).
  rewrite Hf in Hrun. cbn [Js.str] in Hrun.
  destruct (negb (bcrypt_compare _ _)); [discriminate |].
  destruct (negb (PasswordValidator.isValid _)); [discriminate |].
  unfold User_savePassword in Hrun. rewrite Hpw in Hrun.
  destruct (String.eqb_spec newPassword (User.password user)); [contradiction |].
  destruct (_ ++ _) in Hrun; [| discriminate].
  cbn [users withUsers sessions blacklist] in Hrun.
  unfold Session.invalidateAllUserSessions in Hrun.
  destruct (Session.invalidateEach _ _ _ _ _ _) as [[ss bl] [e |]] eqn:Hloop;
    [discriminate |].
  injection Hrun as _ _ _ <-. cbn [users blacklist withBlacklist withSessions withUsers].
  split.
  - eexists. split.
    + assert (Hreqid : User._id user = User._id reqUser).
      { apply List.find_some in Hfind as [_ Hh]. now apply Z.eqb_eq in Hh. }
      unfold User.updateOne. rewrite Hid, Hreqid.
      rewrite find_updateFirst by (intros d Hd; exact Hd).
      rewrite Hu'. reflexivity.
    + cbn. lia.
  - intros b Hb.
    destruct (invalidateEach_entries _ _ _ _ _ _ _ _ _ Hloop b Hb)
      as [Hin | (s & Hs & Ht & He)]; [now left |].
    right. exists s. apply List.filter_In in Hs as [Hs _]. auto.
Qed.

(** C3.  What the source does on a password change whose new password is
    the very string that is stored as the password of the user (the hash):
    the assignment leaves the path unmodified, the pre-save hook returns at
    its guard, and the change is answered with success while the stored
    password and the stored token version are what they were.  The user
    is the one the request carries, the current password is the right one,
    the stored string passes the password policy, and the sessions of the
    user can be invalidated. *)
Theorem changePassword_stored_hash_keeps_version (st : Store) (now : Date)
    (rnd : Entropy) (req : Http.Request) (reqUser stored : User.t) (current : string)
    (ss : list Session.t) (bl : list TokenBlacklist.t) (n : nat) :
  Http.user req = Some reqUser ->
  List.find (User.hasId (User._id reqUser)) (users st) = Some stored ->
  Http.body req !! "currentPassword" = Some current -> current <> EmptyString ->
  bcrypt_compare current (User.password stored) = true ->
  Http.body req !! "newPassword" = Some (User.password stored) ->
  User.password stored <> EmptyString ->
  PasswordValidator.isValid
    (PasswordValidator.validatePassword (User.password stored)
       (Http.body req !! "confirmPassword")
       (Some {| PasswordValidator.email := Some (User.email stored);
                PasswordValidator.firstname := Some (User.firstname stored);
                PasswordValidator.lastname := Some (User.lastname stored) |})) = true ->
  Session.invalidateAllUserSessions (User._id reqUser) "password_change" now
    (sessions st) (blacklist st) = (ss, bl, Ok n) ->
  exists st',
    changePassword' st now rnd req
    = (Http.Respond 200
         (messageBody
            "Password changed successfully. Please login again with your new password.")
         clearTokenCookies,
       st')
    /\ exists user',
         List.find (User.hasId (User._id reqUser)) (users st') = Some user'
         /\ User.tokenVersion user' = User.tokenVersion stored
         /\ User.password user' = User.password stored.
Proof.
  intros Hreq Hfind Hcur Hcur' Hcmp Hnew Hnew' Hvalid Hinv.
  destruct (findById_found (User._id reqUser) (posts st) now (users st) stored Hfind)
    as (u' & us' & Hf & Hu' & Hid & Hpw & Hv & Hemail & Hfirst & Hlast).
  assert (Hreqid : User._id u' = User._id reqUser).
  { apply List.find_some in Hu' as [_ Hh]. now apply Z.eqb_eq in Hh. }
  unfold changePassword. rewrite Hcur, Hnew, Hreq.
  apply truthy_Some in Hcur', Hnew'. rewrite Hcur', Hnew'. cbn [negb orb Js.str].
  rewrite Hf, Hpw, Hcmp, Hemail, Hfirst, Hlast, Hvalid. cbn [negb].
  unfold User_savePassword. rewrite Hpw, String.eqb_refl.
  cbn [users sessions blacklist withUsers]. rewrite Hreqid, Hinv.
  eexists. split; [reflexivity |].
  exists u'. cbn [users withBlacklist withSessions withUsers]. auto.
Qed.

(** ** The handlers keep the records coherent

    No handler writes a session or a blacklist entry that expires before
    its token, provided the codec decodes a token it signed to the payload
    that was signed, and provided a handler that issues a session signs
    the access token within the second of its first clock reading: the
    session expires at the first reading plus the life time, the token at
    the second of the later reading plus the life time. *)

Lemma coherent_withUsers (us : list User.t) (st : Store) :
  Coherent jwt_decode st -> Coherent jwt_decode (withUsers us st).
Proof. intros H. exact H. Qed.

Lemma issueSession_coherent (u : User.t) (req : Http.Request) (now : Z)
    (rnd : Entropy) (ss ss' : list Session.t) (a r : string) :
  (forall q p, jwt_decode (jwt_sign q) = Some p -> p = q) ->
  (now + lagAccess rnd) / 1000 <= now / 1000 ->
  Forall (SessionOk jwt_decode) ss ->
  issueSession jwt_sign JWT_EXPIRES_IN JWT_REFRESH_EXPIRES_IN u req now rnd ss
  = Ok (a, r, ss') ->
  Forall (SessionOk jwt_decode) ss'.
Proof.
  intros Hround Hlag Hss.
  unfold issueSession, createToken, createRefreshToken, signToken.
  destruct (Jwt.parseExpiration (accessExpiresIn _)) as [msA | e]; [| discriminate].
  destruct (Jwt.parseExpiration (refreshExpiresIn _)) as [msR | e]; [| discriminate].
  unfold Session.create.
  destruct (Session.hasToken _ ss); [discriminate |].
  intros [= _ _ <-]. apply Forall_app. split; [assumption |].
  constructor; [| constructor]. intros p. cbn [Session.token Session.f_token].
  intros Hd. apply Hround in Hd as ->. cbn.
  pose proof (Z.mul_div_le now 1000). pose proof (Z.mul_div_le msA 1000). lia.
Qed.

Lemma requireSignIn_coherent (st : Store) (now : Z) (req : Http.Request) :
  Coherent jwt_decode st -> Coherent jwt_decode (snd (requireSignIn' st now req)).
Proof.
  intros Hc. unfold requireSignIn.
  destruct (negb _); [exact Hc |].
  destruct (TokenBlacklist.isBlacklisted _ _ _); [exact Hc |].
  destruct (verifyToken' _ _ _) as [decoded | e] eqn:Hv.
  2:{ case_ifs; exact Hc. }
  apply verifyToken_ok in Hv as (Hdec & _ & _).
  destruct (User.findById _ _ _ _) as [[user |] us]; [| exact Hc].
  destruct Hc as [Hbl Hss].
  destruct (match Jwt.tokenVersion decoded with Some _ => _ | None => _ end).
  { destruct (TokenBlacklist.blacklistToken _ _ _ _ _ _ _ _) as [bl | e] eqn:Hcr;
      [| now split].
    split; [| exact Hss]. apply (create_EntryOk _ _ _ _ Hcr); [| exact Hbl].
    intros p. cbn. rewrite Hdec. intros [= <-]. lia. }
  destruct (User.isBlocked user); [now split |].
  destruct (User.isLocked user now); [now split |].
  destruct (Session.findActive _ _ _) as [s |] eqn:Hs; [| now split].
  assert (Hsok : SessionOk jwt_decode s).
  { unfold Session.findActive in Hs. apply List.find_some in Hs as [Hin _].
    rewrite List.Forall_forall in Hss. now apply Hss. }
  destruct (Session.isInactive _ _ _).
  - unfold Session.invalidate.
    assert (Forall (SessionOk jwt_decode)
              (Session.save s (Session.setIsActive false) (sessions (withUsers us st)))).
    { apply Forall_updateFirst; [| exact Hss]. intros x Hx. exact Hx. }
    destruct (TokenBlacklist.blacklistToken _ _ _ _ _ _ _ _) as [bl | e] eqn:Hcr;
      [| now split].
    split; [| assumption]. apply (create_EntryOk _ _ _ _ Hcr); [| exact Hbl].
    exact Hsok.
  - split; [exact Hbl |]. cbn [snd sessions withSessions Session.updateActivity].
    apply Forall_updateFirst; [| exact Hss]. intros x Hx. exact Hx.
Qed.

Lemma signup_coherent (st : Store) (now : Z) (rnd : Entropy) (req : Http.Request) :
  (forall q p, jwt_decode (jwt_sign q) = Some p -> p = q) ->
  (now + lagAccess rnd) / 1000 <= now / 1000 ->
  Coherent jwt_decode st -> Coherent jwt_decode (snd (signup' st now rnd req)).
Proof.
  intros Hround Hlag Hc. unfold signup.
  destruct (Http.body req !! "password"); [| exact Hc].
  destruct (negb _); [exact Hc |].
  destruct (User_create _ _ _ _ _ _ _ _ _) as [[doc us] | e]; [| exact Hc].
  destruct (issueSession _ _ _ _ _ _ _ _) as [[[a r] ss] | e] eqn:Hi; [| exact Hc].
  destruct Hc as [Hbl Hss]. split; [exact Hbl |].
  exact (issueSession_coherent _ _ _ _ _ _ _ _ Hround Hlag Hss Hi).
Qed.

Lemma login_coherent (st : Store) (now : Z) (rnd : Entropy) (req : Http.Request) :
  (forall q p, jwt_decode (jwt_sign q) = Some p -> p = q) ->
  (now + lagAccess rnd) / 1000 <= now / 1000 ->
  Coherent jwt_decode st -> Coherent jwt_decode (snd (login' st now rnd req)).
Proof.
  intros Hround Hlag Hc. unfold login.
  destruct (User.findOneByEmail _ _) as [user |]; [| exact Hc].
  destruct (User.isLocked user now); [exact Hc |].
  destruct (User.isBlocked user); [exact Hc |].
  destruct (Http.body req !! "password"); [| exact Hc].
  destruct (negb _); [exact Hc |].
  destruct (issueSession _ _ _ _ _ _ _ _) as [[[a r] ss] | e] eqn:Hi; [| exact Hc].
  destruct Hc as [Hbl Hss]. split; [exact Hbl |].
  exact (issueSession_coherent _ _ _ _ _ _ _ _ Hround Hlag Hss Hi).
Qed.

Lemma changePassword_coherent (st : Store) (now : Z) (rnd : Entropy)
    (req : Http.Request) :
  Coherent jwt_decode st -> Coherent jwt_decode (snd (changePassword' st now rnd req)).
Proof.
  intros Hc. unfold changePassword.
  destruct (negb _ || negb _); [exact Hc |].
  destruct (Http.user req); [| exact Hc].
  destruct (User.findById _ _ _ _) as [[user |] us]; [| exact Hc].
  destruct (negb (bcrypt_compare _ _)); [exact Hc |].
  destruct (negb (PasswordValidator.isValid _)); [exact Hc |].
  destruct (User_savePassword _ _ _ _ _ _) as [us' | e]; [| exact Hc].
  destruct Hc as [Hbl Hss]. cbn [sessions blacklist withUsers].
  unfold Session.invalidateAllUserSessions.
  assert (Hfound : Forall (SessionOk jwt_decode)
            (List.filter (fun s => (Session.userId s =? User._id user) && Session.isActive s)
               (sessions st))).
  { rewrite List.Forall_forall in *. intros x Hx.
    apply List.filter_In in Hx as [Hx _]. auto. }
  destruct (invalidateEach_coherent jwt_decode _ (User._id user) "password_change" now
              Hfound (sessions st) (blacklist st) Hss Hbl) as [H1 H2].
  destruct (Session.invalidateEach _ _ _ _ _ _) as [[ss bl] [e |]]; now split.
Qed.

Lemma refreshToken_coherent (st : Store) (now : Z) (rnd : Entropy)
    (req : Http.Request) :
  Coherent jwt_decode st -> Coherent jwt_decode (snd (refreshToken' st now rnd req)).
Proof.
  intros Hc. unfold refreshToken.
  destruct (negb _); [exact Hc |].
  destruct (TokenBlacklist.isBlacklisted _ _ _); [exact Hc |].
  destruct (verifyToken' _ _ _) as [decoded | e].
  2:{ destruct (Js.includes _ _); exact Hc. }
  destruct (negb _); [exact Hc |].
  destruct (User.findById _ _ _ _) as [[user |] us]; [| exact Hc].
  destruct (match Jwt.tokenVersion decoded with Some _ => _ | None => _ end);
    [exact Hc |].
  destruct (_ || _); [exact Hc |].
  destruct (Js.str (presentedRefreshToken req)) eqn:Hp.
  - unfold TokenBlacklist.blacklistToken, TokenBlacklist.create. cbn.
    destruct (Js.includes _ _); exact Hc.
  - rewrite blacklist_token_rotation by discriminate.
    rewrite validationError_not_expired. exact Hc.
Qed.

Lemma logout_coherent (st : Store) (now : Z) (req : Http.Request) :
  Coherent jwt_decode st ->
  (forall s, Http.session req = Some s -> SessionOk jwt_decode s) ->
  Coherent jwt_decode (snd (logout' st now req)).
Proof.
  intros Hc Hreq. unfold logout.
  destruct (negb _); [exact Hc |].
  destruct (verifyToken' _ _ _) as [decoded | e] eqn:Hv; [| exact Hc].
  apply verifyToken_ok in Hv as (Hdec & _ & _).
  destruct (Http.user req) as [u |]; [| exact Hc].
  destruct (TokenBlacklist.blacklistToken _ _ _ "logout" _ _ _ _) as [bl | e] eqn:Hcr;
    [| exact Hc].
  destruct Hc as [Hbl Hss].
  assert (Hbl' : Forall (EntryOk jwt_decode) bl).
  { apply (create_EntryOk _ _ _ _ Hcr); [| exact Hbl].
    intros p. cbn. rewrite Hdec. intros [= <-]. lia. }
  destruct (Http.session req) as [s |]; [| now split].
  unfold Session.invalidate. cbn [sessions blacklist withBlacklist].
  assert (Forall (SessionOk jwt_decode)
            (Session.save s (Session.setIsActive false) (sessions st))).
  { apply Forall_updateFirst; [| exact Hss]. intros x Hx. exact Hx. }
  destruct (TokenBlacklist.blacklistToken _ _ _ "logout" _ _ _ bl) as [bl2 | e] eqn:Hcr2;
    [| now split].
  split; [| assumption]. apply (create_EntryOk _ _ _ _ Hcr2); [| exact Hbl'].
  exact (Hreq s eq_refl).
Qed.

(** ** The message of a refused password *)

(** C7, as amended.  The errors of a password validation are the messages of
    every violated strength rule, of the mismatch with a confirmation that
    is given (none is given by [signup], nor by a password change whose
    body has no [confirmPassword]), and of the first violated containment
    rule only (in the order email, first name, last name), a later violated
    containment rule being left out.  When a rule is violated, [signup] and
    [changePassword] answer 400 with these messages joined by commas, and
    write nothing for it. *)
Theorem weak_password_message :
  (forall password confirm info,
     PasswordValidator.errors
       (PasswordValidator.validatePassword password confirm (Some info))
     = map PasswordPolicy.ruleMessage
         (PasswordPolicy.reportedRules password confirm info))
  /\ (forall st now rnd req password,
        Http.body req !! "password" = Some password ->
        let info :=
          {| PasswordValidator.email := Http.body req !! "email";
             PasswordValidator.firstname := Http.body req !! "firstname";
             PasswordValidator.lastname := Http.body req !! "lastname" |} in
        PasswordPolicy.violatedRules password None info <> [] ->
        signup' st now rnd req
        = (Http.NextError
             (String.concat ", "
                (map PasswordPolicy.ruleMessage
                   (PasswordPolicy.reportedRules password None info))) 400,
           st))
  /\ (forall st now rnd req reqUser user us current password,
        Http.body req !! "currentPassword" = Some current -> current <> EmptyString ->
        Http.body req !! "newPassword" = Some password -> password <> EmptyString ->
        Http.user req = Some reqUser ->
        User.findById (User._id reqUser) (posts st) now (users st) = (Some user, us) ->
        bcrypt_compare current (User.password user) = true ->
        let confirm := Http.body req !! "confirmPassword" in
        let info :=
          {| PasswordValidator.email := Some (User.email user);
             PasswordValidator.firstname := Some (User.firstname user);
             PasswordValidator.lastname := Some (User.lastname user) |} in
        PasswordPolicy.violatedRules password confirm info <> [] ->
        changePassword' st now rnd req
        = (Http.NextError
             (String.concat ", "
                (map PasswordPolicy.ruleMessage
                   (PasswordPolicy.reportedRules password confirm info))) 400,
           withUsers us st)).
Proof.
  split; [exact validatePassword_errors | split].
  - intros st now rnd req password Hpw info Hviolated.
    unfold signup. rewrite Hpw. fold info.
    apply validatePassword_valid in Hviolated. rewrite Hviolated. cbn [negb].
    now rewrite validatePassword_errors.
  - intros st now rnd req reqUser user us current password Hcur Hcur' Hnew Hnew'
      Hreq Hfind Hcmp confirm info Hviolated.
    unfold changePassword. rewrite Hcur, Hnew, Hreq.
    apply truthy_Some in Hcur', Hnew'. rewrite Hcur', Hnew'. cbn [negb orb Js.str].
    rewrite Hfind, Hcmp. cbn [negb]. fold info. fold confirm.
    apply validatePassword_valid in Hviolated. rewrite Hviolated. cbn [negb].
    now rewrite validatePassword_errors.
Qed.

End AuthProperties.

(** * The properties at concrete inputs *)

(** C1 at a concrete input: Alice, logged in, presents her valid refresh
    token ten minutes after it was issued and gets 401. *)
Lemma refreshToken_rotation_refused_witness :
  refreshToken Demo.jwt_sign Demo.jwt_decode None None Demo.store0 Demo.now Demo.rnd
    Demo.refreshRequest
  = (Http.NextError msgInvalidRefresh 401, withUsers [Demo.alice] Demo.store0)
  /\ blacklist (withUsers [Demo.alice] Demo.store0) = blacklist Demo.store0
  /\ sessions (withUsers [Demo.alice] Demo.store0) = sessions Demo.store0.
Proof.
  apply (refreshToken_rotation_refused Demo.jwt_sign Demo.jwt_decode None None
           Demo.store0 Demo.now Demo.rnd Demo.refreshRequest "jwt.refresh.r1"
           Demo.refreshA Demo.alice [Demo.alice]).
  - vm_compute. reflexivity.
  - discriminate.
  - reflexivity.
  - reflexivity.
  - reflexivity.
  - intros v [= <-]. reflexivity.
  - reflexivity.
  - reflexivity.
Defined.

(** C2 at a concrete input: a blacklisted refresh token presented twice. *)
Lemma refreshToken_replay_rejected_witness :
  serve (fun st c =>
           refreshToken Demo.jwt_sign Demo.jwt_decode None None st c.1.1 c.1.2 c.2)
    Demo.storeRevoked
    [(Demo.now, Demo.rnd, Demo.refreshRequest);
     (Demo.now + 5000, Demo.rnd, Demo.refreshRequest)]
  = ([Http.NextError msgRefreshRevoked 401; Http.NextError msgRefreshRevoked 401],
     Demo.storeRevoked).
Proof.
  apply (refreshToken_replay_rejected Demo.jwt_sign Demo.jwt_decode None None
           Demo.storeRevoked "jwt.refresh.r1" Demo.revokedEntry
           [(Demo.now, Demo.rnd, Demo.refreshRequest);
            (Demo.now + 5000, Demo.rnd, Demo.refreshRequest)]).
  - discriminate.
  - left. reflexivity.
  - reflexivity.
  - repeat constructor.
Defined.

(** C3 at a concrete input: Alice changes her password to the very string
    that is stored as her password.  The call answers success, her token
    version is still 0, and her old access token authenticates
    afterwards.  (The hash of the example is a toy one; a hash of bcrypt is
    a string of sixty letters, digits, dots, slashes and dollar signs, of
    the kind that passes the password policy.) *)
Lemma changePassword_stored_hash_keeps_version_witness :
  (exists st',
     changePassword Demo.bcrypt_hash Demo.bcrypt_compare Demo.storeNoSession Demo.now
       Demo.rnd (Demo.changeRequest (User.password Demo.alice))
     = (Http.Respond 200
          (messageBody
             "Password changed successfully. Please login again with your new password.")
          clearTokenCookies,
        st')
     /\ exists user',
          List.find (User.hasId (User._id Demo.alice)) (users st') = Some user'
          /\ User.tokenVersion user' = User.tokenVersion Demo.alice
          /\ User.password user' = User.password Demo.alice)
  /\ Jwt.tokenVersion Demo.accessA = Some (User.tokenVersion Demo.alice)
  /\ fst (requireSignIn Demo.jwt_decode 120
            (snd (changePassword Demo.bcrypt_hash Demo.bcrypt_compare
                    Demo.storeNoSession Demo.now Demo.rnd
                    (Demo.changeRequest (User.password Demo.alice))))
            (Demo.now + 1000) Demo.accessRequest)
     = Http.Next (Http.attach Demo.accessRequest Demo.alice "jwt.access.a1" None).
Proof.
  split; [| split; [reflexivity | vm_compute; reflexivity]].
  apply (changePassword_stored_hash_keeps_version Demo.bcrypt_hash Demo.bcrypt_compare
           Demo.storeNoSession Demo.now Demo.rnd
           (Demo.changeRequest (User.password Demo.alice)) Demo.alice Demo.alice
           "OldPassw0rd!" [] [] 0%nat).
  - reflexivity.
  - reflexivity.
  - reflexivity.
  - discriminate.
  - reflexivity.
  - reflexivity.
  - discriminate.
  - vm_compute. reflexivity.
  - reflexivity.
Defined.

(** C4 as stated fails: Alice is unlocked with no failed attempt, and
    blocked.  Five logins with a wrong password are each refused 403 as
    disabled, before the password is compared; no attempt is counted and
    [lockUntil] stays unset. *)
Lemma blocked_account_never_locks :
  serve (fun st c => login Demo.jwt_sign Demo.bcrypt_compare None None st c.1.1 c.1.2 c.2)
    Demo.storeBlocked (Demo.fourWrong ++ [Demo.fifthWrong])
  = (replicate 5 (Http.NextError "Your Account has been disabled" 403),
     Demo.storeBlocked)
  /\ User.findOneByEmail (Some "alice@example.com") (users Demo.storeBlocked)
     = Some (User.setIsBlocked true Demo.alice)
  /\ User.loginAttempts (User.setIsBlocked true Demo.alice) = 0
  /\ User.lockUntil (User.setIsBlocked true Demo.alice) = None
  /\ Forall (wrongPassword Demo.bcrypt_compare "alice@example.com"
               (User.password Demo.alice))
       (Demo.fourWrong ++ [Demo.fifthWrong]).
Proof.
  repeat split; try reflexivity.
  repeat constructor; eexists; split; reflexivity.
Qed.

(** C4, amended, at a concrete input: five wrong guesses against Alice; then her own
    password a second later, refused; then her own password two hours
    after the fifth guess, accepted. *)
Lemma lockout_after_five_failures_witness :
  exists st5,
    serve (fun st c => login Demo.jwt_sign Demo.bcrypt_compare None None st c.1.1 c.1.2 c.2)
      Demo.store0 (Demo.fourWrong ++ [Demo.fifthWrong])
    = (replicate 5 (Http.NextError msgInvalidCredentials 401), st5)
    /\ User.findOneByEmail (Some "alice@example.com") (users st5)
       = Some (User.setLockout 5 (Some (Demo.now + 5000 + User.lockTime)) None Demo.alice)
    /\ fst (login Demo.jwt_sign Demo.bcrypt_compare None None st5 (Demo.now + 6000)
              Demo.rnd (Demo.loginRequest "OldPassw0rd!"))
       = Http.NextError
           "Account temporarily locked due to multiple failed login attempts. Try again in 120 minutes"
           403
    /\ exists payload setCookies st7,
         login Demo.jwt_sign Demo.bcrypt_compare None None st5
           (Demo.now + 5000 + User.lockTime) Demo.rnd (Demo.loginRequest "OldPassw0rd!")
         = (Http.Respond 200 payload setCookies, st7)
         /\ User.findOneByEmail (Some "alice@example.com") (users st7)
            = Some (User.setLockout 0 None (Some (Demo.now + 5000 + User.lockTime))
                      Demo.alice).
Proof.
  destruct (lockout_after_five_failures Demo.jwt_sign Demo.bcrypt_compare None None
              Demo.store0 "alice@example.com" Demo.alice Demo.fourWrong Demo.fifthWrong)
    as (st5 & Hrun & Hfind & Hss & Hlocked & Hafter).
  - repeat constructor. intros [].
  - reflexivity.
  - reflexivity.
  - reflexivity.
  - reflexivity.
  - reflexivity.
  - repeat constructor; eexists; split; reflexivity.
  - exists st5. split; [exact Hrun |]. split; [exact Hfind |]. split.
    + rewrite (Hlocked (Demo.now + 6000) Demo.rnd (Demo.loginRequest "OldPassw0rd!"));
        [reflexivity | reflexivity | reflexivity].
    + apply (Hafter _ Demo.rnd (Demo.loginRequest "OldPassw0rd!") "OldPassw0rd!");
        [reflexivity | reflexivity | reflexivity | apply Z.le_refl |].
      rewrite Hss. exists 7200000, 604800000.
      repeat split; vm_compute; congruence.
Defined.

(** C5 at a concrete input: Alice, authenticated with her session, logs
    out; the call answers 500 and leaves the entry and the inactive
    session. *)
Lemma logout_after_authentication_witness :
  fst (logout Demo.jwt_decode Demo.storeTouched Demo.now Demo.authenticatedRequest)
  = Http.NextError msgLogoutFailed 500
  /\ snd (logout Demo.jwt_decode Demo.storeTouched Demo.now Demo.authenticatedRequest)
     = withSessions
         [Session.setIsActive false (Session.setLastActivity Demo.now Demo.sessionA)]
         (withBlacklist
            [logoutEntry "jwt.access.a1" Demo.alice Demo.accessA
               Demo.authenticatedRequest Demo.now]
            Demo.storeTouched).
Proof.
  destruct (logout_after_authentication Demo.jwt_decode 120 Demo.store0
              Demo.storeTouched Demo.now Demo.now Demo.accessRequest
              Demo.authenticatedRequest (Session.setLastActivity Demo.now Demo.sessionA))
    as [H1 H2].
  - vm_compute. reflexivity.
  - reflexivity.
  - split; [exact H1 |].
    apply (H2 "jwt.access.a1" Demo.alice Demo.accessA); reflexivity.
Defined.

(** C6 at a concrete input: Bob signs up once asking for the role admin
    and once asking for none; the outcomes agree, and Bob is a user. *)
Lemma signup_role_forced_witness :
  signup Demo.jwt_sign Demo.bcrypt_hash None None Demo.store0 Demo.now Demo.rnd
    (Http.withBody (<["role" := "admin"]> (Http.body (Demo.signupRequest [])))
       (Demo.signupRequest []))
  = signup Demo.jwt_sign Demo.bcrypt_hash None None Demo.store0 Demo.now Demo.rnd
      (Http.withBody (delete "role" (Http.body (Demo.signupRequest [])))
         (Demo.signupRequest []))
  /\ (In Demo.bob (users Demo.store0) \/ User.role Demo.bob = "user")
  /\ In Demo.bob (users Demo.afterSignup).
Proof.
  destruct (signup_role_forced Demo.jwt_sign Demo.bcrypt_hash None None Demo.store0
              Demo.now Demo.rnd (Demo.signupRequest [])) as [H1 H2].
  split; [apply H1 |]. split.
  - apply H2. vm_compute. right. left. reflexivity.
  - right. left. reflexivity.
Defined.

(** C7 as stated fails: a signup whose password contains the first name
    and the last name is refused with the message of the first name
    alone; the last-name rule is violated and its message is missing. *)
Lemma weak_password_message_partial :
  In PasswordPolicy.ContainsLastName
    (PasswordPolicy.violatedRules "JohnSmith1!x" None Demo.namesInfo)
  /\ ~ In PasswordValidator.msgLastName
         (PasswordValidator.errors
            (PasswordValidator.validatePassword "JohnSmith1!x" None
               (Some Demo.namesInfo)))
  /\ signup Demo.jwt_sign Demo.bcrypt_hash None None Demo.store0 Demo.now Demo.rnd
       Demo.namesRequest
     = (Http.NextError PasswordValidator.msgFirstName 400, Demo.store0).
Proof.
  split; [| split].
  - vm_compute. right. left. reflexivity.
  - vm_compute. intros [H | []]. discriminate H.
  - vm_compute. reflexivity.
Qed.

(** C7, amended, at a concrete input: a signup with the password abc123 is
    refused with the messages of the four rules it violates. *)
Lemma weak_password_message_witness :
  signup Demo.jwt_sign Demo.bcrypt_hash None None Demo.store0 Demo.now Demo.rnd
    Demo.weakRequest
  = (Http.NextError
       (String.concat ", "
          [PasswordValidator.msgTooShort; PasswordValidator.msgNoUpper;
           PasswordValidator.msgNoSpecial; PasswordValidator.msgCommon]) 400,
     Demo.store0).
Proof.
  apply (proj1 (proj2 (weak_password_message Demo.jwt_sign Demo.bcrypt_hash
                         Demo.bcrypt_compare None None))
           Demo.store0 Demo.now Demo.rnd Demo.weakRequest "abc123").
  - reflexivity.
  - vm_compute. discriminate.
Defined.

(** C8 at a concrete input: the response to Bob's signup. *)
Lemma signup_response_without_password_witness :
  201 = 201
  /\ exists (u : User.t) (o : Http.Object),
       In u (users Demo.afterSignup)
       /\ Http.data
            (tokenBody "jwt.access.a2" "jwt.refresh.r2"
               (Some (delete "password" (toObject Demo.bob)))) = Some o
       /\ o = delete "password" (toObject u)
       /\ o !! "password" = None.
Proof.
  apply (signup_response_without_password Demo.jwt_sign Demo.bcrypt_hash None None
           Demo.store0 Demo.afterSignup Demo.now Demo.rnd (Demo.signupRequest []) 201
           (tokenBody "jwt.access.a2" "jwt.refresh.r2"
              (Some (delete "password" (toObject Demo.bob))))
           (setTokenCookies "jwt.access.a2" "jwt.refresh.r2")).
  vm_compute. reflexivity.
Defined.



(** C10 at a concrete input: Alice's access token with no session record. *)
Lemma requireSignIn_session_optional_witness :
  requireSignIn Demo.jwt_decode 120 Demo.storeNoSession Demo.now Demo.accessRequest
  = (Http.Next (Http.attach Demo.accessRequest Demo.alice "jwt.access.a1" None),
     withUsers [Demo.alice] Demo.storeNoSession)
  /\ Http.session (Http.attach Demo.accessRequest Demo.alice "jwt.access.a1" None) = None
  /\ sessions (withUsers [Demo.alice] Demo.storeNoSession) = sessions Demo.storeNoSession
  /\ blacklist (withUsers [Demo.alice] Demo.storeNoSession)
     = blacklist Demo.storeNoSession.
Proof.
  apply (requireSignIn_session_optional Demo.jwt_decode 120 Demo.storeNoSession
           Demo.now Demo.accessRequest "jwt.access.a1" Demo.accessA Demo.alice
           [Demo.alice]).
  - reflexivity.
  - discriminate.
  - reflexivity.
  - reflexivity.
  - reflexivity.
  - intros v [= <-]. reflexivity.
  - reflexivity.
  - reflexivity.
  - reflexivity.
Defined.

(** * Further properties of the code *)

(** ** The strength score *)

Lemma test_impl (p q : ascii -> bool) (s : string) :
  (forall c, p c = true -> q c = true) -> Js.test p s = true -> Js.test q s = true.
Proof.
  intros Hpq. induction s as [| c s IH]; cbn; [discriminate |].
  intros H. apply orb_prop in H as [H | H]; apply orb_true_iff; auto.
Qed.

(** Every special character of the validator is neither a letter nor a
    digit. *)
Lemma isSpecial_isOther (c : ascii) : Js.isSpecial c = true -> Js.isOther c = true.
Proof. destruct c as [[] [] [] [] [] [] [] []]; vm_compute; congruence. Qed.

Lemma ahead_test (cls : ascii -> bool) (s : string) :
  Js.ahead cls s = true -> Js.test cls s = true.
Proof.
  induction s as [| c s IH]; cbn; [discriminate |].
  intros H. apply orb_prop in H as [H | H]; apply orb_true_iff; [now left |].
  apply andb_prop in H as [_ H]. auto.
Qed.

(** On a string without line terminators a lookahead is the plain test. *)
Lemma ahead_single_line (cls : ascii -> bool) (s : string) :
  Js.test (fun c => negb (Js.isDot c)) s = false -> Js.ahead cls s = Js.test cls s.
Proof.
  induction s as [| c s IH]; cbn; [reflexivity |].
  intros H. apply orb_false_elim in H as [Hc H].
  apply negb_false_iff in Hc. now rewrite Hc, IH.
Qed.

Lemma testAt_suffix (re : string -> bool) (s : string) :
  Js.testAt re s = true -> exists pre t, s = pre +:+ t /\ re t = true.
Proof.
  induction s as [| c s IH]; cbn.
  - rewrite orb_false_r. intros H. now exists EmptyString, EmptyString.
  - intros H. apply orb_prop in H as [H | H].
    + now exists EmptyString, (String c s).
    + destruct (IH H) as (pre & t & -> & Ht). now exists (String c pre), t.
Qed.

Lemma test_app_r (cls : ascii -> bool) (pre t : string) :
  Js.test cls t = true -> Js.test cls (pre +:+ t) = true.
Proof.
  intros H. induction pre as [| c pre IH]; simpl; [exact H |].
  rewrite IH. apply orb_true_r.
Qed.

(** Where the four lookaheads hold at some position, the four classes
    occur in the string. *)
Lemma allClassesAhead_tests (s : string) :
  Js.testAt PasswordValidator.allClassesAhead s = true ->
  Js.test Js.isLower s = true /\ Js.test Js.isUpper s = true
  /\ Js.test Js.isDigit s = true /\ Js.test Js.isOther s = true.
Proof.
  intros H. apply testAt_suffix in H as (pre & t & -> & H).
  unfold PasswordValidator.allClassesAhead in H.
  repeat (apply andb_prop in H as [H ?]).
  repeat split; apply test_app_r, ahead_test; assumption.
Qed.

Lemma testAt_here (re : string -> bool) (s : string) :
  re s = true -> Js.testAt re s = true.
Proof. intros H. destruct s; cbn; now rewrite H. Qed.

(** What a password that passes [validatePasswordStrength] has. *)
Lemma strength_valid (password : string) :
  PasswordValidator.isValid (PasswordValidator.validatePasswordStrength password) = true ->
  8 <= Z.of_nat (String.length password) <= 128
  /\ Js.test Js.isUpper password = true /\ Js.test Js.isLower password = true
  /\ Js.test Js.isDigit password = true /\ Js.test Js.isSpecial password = true
  /\ Js.hasTripleRun password = false.
Proof.
  unfold PasswordValidator.validatePasswordStrength.
  cbn [PasswordValidator.isValid]. rewrite !pushIf_app. cbn [app].
  destruct (Z.ltb_spec (Z.of_nat (String.length password)) 8);
    destruct (Z.ltb_spec 128 (Z.of_nat (String.length password)));
    destruct (Js.test Js.isUpper password);
    destruct (Js.test Js.isLower password);
    destruct (Js.test Js.isDigit password);
    destruct (Js.test Js.isSpecial password);
    destruct (existsb _ PasswordValidator.commonPasswords);
    destruct (Js.hasTripleRun password); cbn; try discriminate.
  intros _. repeat split; auto; lia.
Qed.

(** Case analysis on the thresholds of the label. *)
Ltac label_cases :=
  unfold PasswordValidator.strengthLabel;
  repeat match goal with
         | |- context [?a <? ?b] => destruct (Z.ltb_spec a b)
         end.

(** X1. A password that passes the strength validation of the validator is
    never rated below [Moderate] by [calculatePasswordStrength]: its score
    is at least 56 (16 for the eight characters, 40 for the four classes). *)
Theorem valid_password_rated_moderate (password : string) :
  PasswordValidator.isValid (PasswordValidator.validatePasswordStrength password) = true ->
  let r := PasswordValidator.calculatePasswordStrength (Some password) in
  56 <= PasswordValidator.score r
  /\ In (PasswordValidator.strength r) ["Moderate"; "Strong"; "Very Strong"].
Proof.
  intros Hv. apply strength_valid in Hv as (Hlen & Hu & Hl & Hd & Hs & _).
  apply (test_impl _ _ _ isSpecial_isOther) in Hs.
  assert (Hne : Js.truthy (Some password) = true).
  { apply truthy_Some. intros ->. cbn in Hlen. lia. }
  cbv zeta. unfold PasswordValidator.calculatePasswordStrength.
  rewrite Hne. cbn [negb Js.str PasswordValidator.score PasswordValidator.strength].
  unfold PasswordValidator.rawScore.
  rewrite Hu, Hl, Hd, Hs. unfold PasswordValidator.bonus.
  destruct (Z.leb_spec 12 (Z.of_nat (String.length password)));
    destruct (Z.leb_spec 16 (Z.of_nat (String.length password)));
    destruct (Js.testAt _ password);
    (split; [lia |]); label_cases; cbn; auto; lia.
Qed.

(** X2. The rating [Very Strong] is given exactly to the passwords in which
    the four character classes occur and that have sixteen characters or
    more, or fifteen with the four lookaheads holding at one position (a
    line terminator between the classes can make them fail). *)
Theorem very_strong_iff (password : string) :
  PasswordValidator.strength (PasswordValidator.calculatePasswordStrength (Some password))
  = "Very Strong"
  <-> (Js.test Js.isLower password = true /\ Js.test Js.isUpper password = true
       /\ Js.test Js.isDigit password = true /\ Js.test Js.isOther password = true)
      /\ (16 <= Z.of_nat (String.length password)
          \/ (15 <= Z.of_nat (String.length password)
              /\ Js.testAt PasswordValidator.allClassesAhead password = true)).
Proof.
  unfold PasswordValidator.calculatePasswordStrength.
  destruct password as [| c password].
  { cbn. split; [discriminate |]. intros [(H & _) _]. discriminate. }
  change (Js.truthy (Some (String c password))) with true.
  cbn [negb Js.str PasswordValidator.strength].
  unfold PasswordValidator.rawScore.
  set (pw := String c password). set (len := Z.of_nat (String.length pw)).
  pose proof (allClassesAhead_tests pw) as Hall.
  unfold PasswordValidator.bonus.
  destruct (Js.testAt PasswordValidator.allClassesAhead pw).
  - destruct (Hall eq_refl) as (-> & -> & -> & ->).
    destruct (Z.leb_spec 12 len); destruct (Z.leb_spec 16 len);
      label_cases; split; try discriminate; try (intros _; repeat split; auto; lia);
      try (intros [_ [? | [? _]]]; lia); try lia.
  - clear Hall.
    destruct (Js.test Js.isLower pw); destruct (Js.test Js.isUpper pw);
      destruct (Js.test Js.isDigit pw); destruct (Js.test Js.isOther pw);
      destruct (Z.leb_spec 12 len); destruct (Z.leb_spec 16 len);
      label_cases; split; try discriminate; try lia;
      try (intros _; repeat split; auto; lia);
      try (intros [(? & ? & ? & ?) [? | [? ?]]]; try discriminate; lia).
Qed.

Lemma some_class (c : ascii) (s : string) :
  Js.test Js.isLower (String c s) = true \/ Js.test Js.isUpper (String c s) = true
  \/ Js.test Js.isDigit (String c s) = true \/ Js.test Js.isOther (String c s) = true.
Proof.
  cbn. unfold Js.isOther.
  destruct (Js.isLower c); [now left |].
  destruct (Js.isUpper c); [right; now left |].
  destruct (Js.isDigit c); [right; right; now left |].
  right; right; now right.
Qed.

(** X3. The final [Math.min(score, 100)] of [calculatePasswordStrength]
    never cuts the score: the variable [score], when the label is
    determined, is at most 100, and the score returned is that variable.
    So the score returned lies between 0 and 100, as the documentation
    says, it is 0 exactly for a missing or empty password, and the label
    returned is the label of the score returned. *)
Theorem strength_score_range (password : option string) :
  let r := PasswordValidator.calculatePasswordStrength password in
  let raw :=
    if Js.truthy password then PasswordValidator.rawScore (Js.str password) else 0 in
  raw <= 100
  /\ PasswordValidator.score r = raw
  /\ 0 <= PasswordValidator.score r <= 100
  /\ (PasswordValidator.score r = 0 <-> Js.truthy password = false)
  /\ PasswordValidator.strength r
     = PasswordValidator.strengthLabel (PasswordValidator.score r).
Proof.
  cbv zeta. unfold PasswordValidator.calculatePasswordStrength.
  destruct (Js.truthy password) eqn:Ht; cbn [negb].
  2:{ cbn. repeat split; auto; lia. }
  destruct password as [[| c s] |]; try discriminate.
  cbn [Js.str PasswordValidator.score PasswordValidator.strength].
  unfold PasswordValidator.rawScore.
  set (pw := String c s). set (len := Z.of_nat (String.length pw)).
  assert (Hlen : 1 <= len) by (subst len pw; cbn [String.length]; lia).
  pose proof (some_class c s) as Hsome. fold pw in Hsome.
  unfold PasswordValidator.bonus.
  destruct (Js.test Js.isLower pw); destruct (Js.test Js.isUpper pw);
    destruct (Js.test Js.isDigit pw); destruct (Js.test Js.isOther pw);
    try (exfalso; clear - Hsome; intuition discriminate);
    destruct (Z.leb_spec 12 len); destruct (Z.leb_spec 16 len);
    destruct (Js.testAt _ pw);
    (split; [lia |]); (split; [lia |]); (split; [lia |]);
    (split; [split; [lia | discriminate] |]);
    f_equal; lia.
Qed.

(** X4. On a password without a line terminator, the expression of the four
    lookaheads, by which [calculatePasswordStrength] grants its last ten
    points, holds exactly when the four one-class expressions hold. *)
Theorem lookaheads_single_line (password : string) :
  Js.test (fun c => negb (Js.isDot c)) password = false ->
  Js.testAt PasswordValidator.allClassesAhead password
  = Js.test Js.isLower password && Js.test Js.isUpper password
    && Js.test Js.isDigit password && Js.test Js.isOther password.
Proof.
  intros Hline.
  destruct (Js.testAt PasswordValidator.allClassesAhead password) eqn:Hall.
  - apply allClassesAhead_tests in Hall as (-> & -> & -> & ->). reflexivity.
  - destruct (Js.test Js.isLower password && Js.test Js.isUpper password
              && Js.test Js.isDigit password && Js.test Js.isOther password) eqn:Ht;
      [| reflexivity].
    rewrite <- Hall. apply testAt_here. unfold PasswordValidator.allClassesAhead.
    now rewrite !ahead_single_line.
Qed.

(** ** Life times of tokens *)

Lemma pretty_N_char_digit (m : N) :
  (m < 10)%N ->
  Js.isDigit (pretty_N_char m) = true
  /\ Z.of_N (Js.code (pretty_N_char m) - 48) = Z.of_N m.
Proof.
  intros H.
  assert (m = 0 \/ m = 1 \/ m = 2 \/ m = 3 \/ m = 4 \/ m = 5 \/ m = 6 \/ m = 7
          \/ m = 8 \/ m = 9)%N as Hm by lia.
  repeat (destruct Hm as [-> | Hm]; [now vm_compute |]). subst. now vm_compute.
Qed.

(** Reading the digits that the printer of numbers puts in front of [s]. *)
Lemma digitsValue_pretty_N_go (x : N) :
  exists k : Z, 0 <= k /\
    forall (acc : Z) (s : string),
      Jwt.digitsValue acc (pretty_N_go x s)
      = Jwt.digitsValue (acc * 10 ^ k + Z.of_N x) s.
Proof.
  induction (N.lt_wf_0 x) as [x _ IH].
  destruct (N.eq_dec x 0%N) as [-> | Hx].
  - exists 0. split; [lia |]. intros acc s. rewrite pretty_N_go_0. f_equal. lia.
  - assert (Hpos : (0 < x)%N) by lia.
    destruct (IH (x `div` 10)%N) as (k & Hk & IHk); [now apply N.div_lt |].
    exists (k + 1). split; [lia |]. intros acc s.
    rewrite pretty_N_go_step by assumption. rewrite IHk.
    destruct (pretty_N_char_digit (x `mod` 10)%N) as [Hd Hv];
      [now apply N.mod_lt |].
    cbn [Jwt.digitsValue]. rewrite Hd, Hv. f_equal.
    rewrite Z.pow_add_r by lia.
    rewrite (N.div_mod x 10) at 3 by discriminate.
    rewrite N2Z.inj_add, N2Z.inj_mul. change (Z.of_N 10) with 10. lia.
Qed.

Lemma digitsValue_ofZ (n : Z) :
  0 <= n -> Jwt.digitsValue 0 (Js.ofZ n) = Some n.
Proof.
  intros Hn. unfold Js.ofZ, pretty, pretty_Z.
  destruct n as [| p | p]; [reflexivity | | lia].
  unfold pretty, pretty_positive, pretty, pretty_N.
  destruct (decide (N.pos p = 0%N)); [discriminate |].
  destruct (digitsValue_pretty_N_go (N.pos p)) as (k & _ & H).
  rewrite H. cbn. reflexivity.
Qed.

Lemma unsnoc_snoc (s : string) (c : ascii) :
  Jwt.unsnoc (s +:+ String c EmptyString) = Some (s, c).
Proof.
  induction s as [| a s IH]; simpl; [reflexivity |]. now rewrite IH.
Qed.

Lemma digitsValue_nonneg (s : string) :
  forall acc v, 0 <= acc -> Jwt.digitsValue acc s = Some v -> 0 <= v.
Proof.
  induction s as [| c s IH]; cbn; intros acc v Hacc.
  - now intros [= <-].
  - destruct (Js.isDigit c); [| discriminate]. apply IH. lia.
Qed.

(** X5. [parseExpiration] reads back a life time that is written as a
    number and a unit: for a natural number [n] and a unit letter of
    [smhd], the text of [n] followed by the letter parses to [n] times the
    milliseconds of the unit (within the integers that a JavaScript number
    holds exactly). *)
Theorem parseExpiration_round_trip (n ms : Z) (u : ascii) :
  0 <= n -> Jwt.unitMs u = Some ms -> n * ms <= 9007199254740991 ->
  Jwt.parseExpiration (Js.ofZ n +:+ String u EmptyString) = Ok (n * ms).
Proof.
  intros Hn Hu _. unfold Jwt.parseExpiration. rewrite unsnoc_snoc.
  pose proof (digitsValue_ofZ n Hn) as Hd.
  destruct (Js.ofZ n) as [| c ds] eqn:Hs.
  - cbn in Hd. injection Hd as <-. vm_compute in Hs. discriminate Hs.
  - now rewrite Hd, Hu.
Qed.

Lemma unitMs_thousands (u : ascii) (ms : Z) :
  Jwt.unitMs u = Some ms -> 0 < ms /\ ms mod 1000 = 0.
Proof.
  unfold Jwt.unitMs. repeat (destruct (Ascii.eqb u _)); intros [= <-]; now vm_compute.
Qed.

(** A life time that parses is a whole, non-negative number of seconds. *)
Lemma parseExpiration_seconds (s : string) (ms : Z) :
  Jwt.parseExpiration s = Ok ms -> 0 <= ms /\ ms mod 1000 = 0.
Proof.
  unfold Jwt.parseExpiration.
  destruct (Jwt.unsnoc s) as [[[| c ds] u] |]; try discriminate.
  destruct (Jwt.digitsValue 0 (String c ds)) as [v |] eqn:Hv; [| discriminate].
  destruct (Jwt.unitMs u) as [unit |] eqn:Hu; [| discriminate].
  intros [= <-]. apply digitsValue_nonneg in Hv; [| lia].
  apply unitMs_thousands in Hu as [Hpos Hmod]. split; [nia |].
  rewrite Z.mul_mod, Hmod, Z.mul_0_r by lia. reflexivity.
Qed.

(** ** Collections, continued *)

Lemma substring_all (s : string) : String.substring 0 (String.length s) s = s.
Proof. induction s as [| c s IH]; cbn; [reflexivity | now rewrite IH]. Qed.

Lemma map_updateFirst {A B : Type} (g : A -> B) (p : A -> bool) (f : A -> A) (l : list A) :
  (forall x, g (f x) = g x) -> map g (updateFirst p f l) = map g l.
Proof.
  intros Hg. induction l as [| x l IH]; cbn; [reflexivity |].
  destruct (p x); cbn; [now rewrite Hg | now rewrite IH].
Qed.

(** A reason outside the enum: the validators refuse the entry. *)
Lemma blacklistToken_bad_reason (tok : string) (uid : Z) (expires : Z) (why : string)
    (ip ua : option string) (now : Z) (entries : list TokenBlacklist.t) :
  tok <> EmptyString ->
  existsb (String.eqb why) TokenBlacklist.reasons = false ->
  TokenBlacklist.blacklistToken tok uid expires why ip ua now entries
  = Throw (ValidationError "TokenBlacklist"
             [("reason", "`" +:+ why +:+ "` is not a valid enum value for path `reason`.")]).
Proof.
  intros Htok Hwhy. unfold TokenBlacklist.blacklistToken, TokenBlacklist.create,
    requiredStr, enumStr.
  cbn [TokenBlacklist.token TokenBlacklist.reason].
  apply truthy_Some in Htok. now rewrite Htok, Hwhy.
Qed.

(** An entry that is not in force stays so as time goes on. *)
Lemma isBlacklisted_later (tok : string) (now now' : Z) (entries : list TokenBlacklist.t) :
  now <= now' ->
  TokenBlacklist.isBlacklisted tok now entries = false ->
  TokenBlacklist.isBlacklisted tok now' entries = false.
Proof.
  intros Hle Hb. unfold TokenBlacklist.isBlacklisted.
  destruct (List.find _ entries) as [e |] eqn:Hf; [| reflexivity].
  apply List.find_some in Hf as [Hin He]. apply andb_prop in He as [Ht Hexp].
  apply String.eqb_eq in Ht. apply Z.ltb_lt in Hexp.
  rewrite (isBlacklisted_of_entry tok now e entries) in Hb; [discriminate | auto | auto | lia].
Qed.

(** Under the unique indexes on [_id] and [token], a session that was found
    active for a token and is saved inactive leaves no active session for
    that token. *)
Lemma findActive_after_save (tok : string) (uid : Z) (s : Session.t)
    (l : list Session.t) :
  List.NoDup (map Session._id l) -> List.NoDup (map Session.token l) ->
  Session.findActive tok uid l = Some s ->
  Session.findActive tok uid (Session.save s (Session.setIsActive false) l) = None.
Proof.
  unfold Session.findActive, Session.save.
  set (q := fun s : Session.t =>
              String.eqb (Session.token s) tok && (Session.userId s =? uid)
              && Session.isActive s).
  induction l as [| x l IH]; [discriminate |].
  cbn [map]. intros Hid Htok. apply NoDup_cons_iff in Hid as [Hx Hid].
  apply NoDup_cons_iff in Htok as [Hxt Htok]. cbn [List.find].
  destruct (q x) eqn:Hq.
  - intros [= <-]. cbn [updateFirst]. unfold Session.hasId at 1. rewrite Z.eqb_refl.
    cbn [List.find]. unfold q at 1. cbn [Session.isActive Session.setIsActive].
    rewrite andb_false_r.
    destruct (List.find q l) as [y |] eqn:Hf; [| reflexivity].
    apply List.find_some in Hf as [Hin Hy]. exfalso. apply Hxt.
    unfold q in Hq, Hy.
    apply andb_prop in Hq as [Hq _]. apply andb_prop in Hq as [Hq _].
    apply andb_prop in Hy as [Hy _]. apply andb_prop in Hy as [Hy _].
    apply String.eqb_eq in Hq, Hy. rewrite Hq, <- Hy. now apply in_map.
  - intros Hf. cbn [updateFirst].
    destruct (Session.hasId (Session._id s) x) eqn:Hh.
    + exfalso. apply Hx. unfold Session.hasId in Hh. apply Z.eqb_eq in Hh.
      rewrite Hh. apply in_map. now apply List.find_some in Hf as [Hin _].
    + cbn [List.find]. rewrite Hq. now apply IH.
Qed.

Lemma find_filter {A : Type} (q p : A -> bool) (l : list A) :
  (forall x, q x = true -> p x = true) ->
  List.find q (List.filter p l) = List.find q l.
Proof.
  intros Hqp. induction l as [| x l IH]; cbn; [reflexivity |].
  destruct (q x) eqn:Hq.
  - rewrite (Hqp x Hq). cbn. now rewrite Hq.
  - destruct (p x); cbn; [now rewrite Hq |]; exact IH.
Qed.

Lemma filter_length_split {A : Type} (p : A -> bool) (l : list A) :
  (List.length (List.filter p l) + List.length (List.filter (fun x => negb (p x)) l))%nat
  = List.length l.
Proof.
  induction l as [| x l IH]; cbn; [reflexivity |].
  destruct (p x); cbn; lia.
Qed.

Lemma find_app_last {A : Type} (p : A -> bool) (l : list A) (x : A) :
  existsb p l = false -> p x = true -> List.find p (l ++ [x]) = Some x.
Proof.
  induction l as [| a l IH]; cbn; intros Hl Hx; [now rewrite Hx |].
  apply orb_false_elim in Hl as [Ha Hl]. rewrite Ha. now apply IH.
Qed.

(** ** The maintenance statics of the models *)

(** X21. [cleanupExpired] deletes nothing that counts: at the time of the
    cleanup and at any later time, [isBlacklisted] answers for every token
    as it would have without the cleanup.  The number it returns is the
    number of entries that are gone, and a second cleanup at the same time
    deletes nothing. *)
Theorem cleanupExpired_keeps_revocations (now : Date) (entries : list TokenBlacklist.t) :
  (forall tok now', now <= now' ->
     TokenBlacklist.isBlacklisted tok now' (snd (TokenBlacklist.cleanupExpired now entries))
     = TokenBlacklist.isBlacklisted tok now' entries)
  /\ (fst (TokenBlacklist.cleanupExpired now entries)
      + List.length (snd (TokenBlacklist.cleanupExpired now entries)))%nat
     = List.length entries
  /\ TokenBlacklist.cleanupExpired now (snd (TokenBlacklist.cleanupExpired now entries))
     = (0%nat, snd (TokenBlacklist.cleanupExpired now entries)).
Proof.
  unfold TokenBlacklist.cleanupExpired. cbn [fst snd]. split; [| split].
  - intros tok now' Hle. unfold TokenBlacklist.isBlacklisted.
    rewrite find_filter; [reflexivity |].
    intros e He. apply andb_prop in He as [_ He]. apply Z.ltb_lt in He.
    apply negb_true_iff, Z.ltb_ge. lia.
  - apply filter_length_split.
  - f_equal.
    + rewrite (proj2 (List.length_zero_iff_nil _)); [reflexivity |].
      induction entries as [| e l IH]; cbn; [reflexivity |].
      destruct (TokenBlacklist.expiresAt e <? now) eqn:He; cbn; [exact IH |].
      now rewrite He.
    + induction entries as [| e l IH]; cbn; [reflexivity |].
      destruct (TokenBlacklist.expiresAt e <? now) eqn:He; cbn; [exact IH |].
      rewrite He. cbn. now rewrite IH.
Qed.

(** X22. [cleanupInactiveSessions] keeps exactly the sessions that are not
    expired and, if active, were active since the cutoff; the number it
    returns is the number of sessions that are gone.  In particular a
    session that request authentication finds for a token and does not
    count as idle, under a timeout of at most the cleanup's hours, is still
    found after the cleanup when it has not expired. *)
Theorem cleanupInactiveSessions_keeps_live (inactivityHours now : Z)
    (ss : list Session.t) :
  let cutoffTime := now - inactivityHours * 60 * 60 * 1000 in
  let kept := snd (Session.cleanupInactiveSessions inactivityHours now ss) in
  (fst (Session.cleanupInactiveSessions inactivityHours now ss) + List.length kept)%nat
  = List.length ss
  /\ (forall s, In s kept <->
                In s ss /\ now <= Session.expiresAt s
                /\ (Session.isActive s = true -> cutoffTime <= Session.lastActivity s))
  /\ (forall tok uid s timeout,
        Session.findActive tok uid ss = Some s ->
        Session.isInactive s timeout now = false ->
        timeout <= inactivityHours * 60 -> now <= Session.expiresAt s ->
        Session.findActive tok uid kept = Some s).
Proof.
  cbv zeta. unfold Session.cleanupInactiveSessions. cbn [fst snd].
  split; [apply filter_length_split | split].
  - intros s. rewrite List.filter_In. unfold Session.stale.
    destruct (Z.ltb_spec (Session.expiresAt s) now);
      destruct (Z.ltb_spec (Session.lastActivity s)
                  (now - inactivityHours * 60 * 60 * 1000));
      destruct (Session.isActive s); cbn; intuition (try discriminate; try lia).
  - intros tok uid s timeout Hf Hidle Ht Hexp.
    assert (Hkeep : negb (Session.stale (now - inactivityHours * 60 * 60 * 1000) now s)
                    = true).
    { unfold Session.stale, Session.isInactive in *. apply Z.ltb_ge in Hidle.
      apply negb_true_iff, orb_false_iff. split; [apply Z.ltb_ge; lia |].
      apply andb_false_iff. left. apply Z.ltb_ge. lia. }
    unfold Session.findActive in *. revert Hf.
    set (q := fun s : Session.t =>
                String.eqb (Session.token s) tok && (Session.userId s =? uid)
                && Session.isActive s).
    induction ss as [| x l IH]; cbn [List.find List.filter]; [discriminate |].
    destruct (q x) eqn:Hq.
    + intros [= ->]. rewrite Hkeep. cbn [List.find]. now rewrite Hq.
    + intros Hf.
      destruct (negb (Session.stale _ now x)); cbn [List.find]; [rewrite Hq |]; auto.
Qed.

(** ** How calls extend the store *)

Lemma UserKept_refl (d : User.t) : UserKept d d.
Proof. repeat split; lia. Qed.

Lemma UserKept_trans (a b c : User.t) : UserKept a b -> UserKept b c -> UserKept a c.
Proof. intros (? & ? & ?) (? & ? & ?). repeat split; try congruence; lia. Qed.

Lemma UsersKept_refl (us : list User.t) : Forall2 UserKept us us.
Proof. induction us; constructor; auto using UserKept_refl. Qed.

Lemma UsersKept_trans (a : list User.t) :
  forall b c, Forall2 UserKept a b -> Forall2 UserKept b c -> Forall2 UserKept a c.
Proof.
  induction a as [| x a IH]; intros b c H1 H2; inversion H1; subst; inversion H2; subst;
    constructor; eauto using UserKept_trans.
Qed.

Lemma UsersKept_role (a : list User.t) :
  forall b, Forall2 UserKept a b -> Forall (fun d => User.role d = "user") a ->
            Forall (fun d => User.role d = "user") b.
Proof.
  induction a as [| x a IH]; intros b H1 H2; inversion H1; subst; constructor.
  - inversion H2; subst. destruct H3 as (_ & Hr & _). congruence.
  - inversion H2; subst. auto.
Qed.

Lemma UsersExtend_refl (us : list User.t) : UsersExtend us us.
Proof.
  exists us, []. rewrite app_nil_r. repeat split; auto using UsersKept_refl.
Qed.

Lemma UsersExtend_trans (a b c : list User.t) :
  UsersExtend a b -> UsersExtend b c -> UsersExtend a c.
Proof.
  intros (k1 & n1 & -> & Hk1 & Hr1 & Hn1 & Hm1) (k2 & n2 & -> & Hk2 & Hr2 & Hn2 & Hm2).
  apply List.Forall2_app_inv_l in Hk2 as (ka & kb & Hka & Hkb & ->).
  exists ka, (kb ++ n2). rewrite app_assoc. repeat split; auto.
  - eapply UsersKept_trans; eassumption.
  - apply Forall_app. split; [eapply UsersKept_role; eassumption | assumption].
Qed.

Lemma EntriesExtend_refl (bl : list TokenBlacklist.t) : EntriesExtend bl bl.
Proof. exists []. rewrite app_nil_r. split; auto. Qed.

Lemma EntriesExtend_trans (a b c : list TokenBlacklist.t) :
  EntriesExtend a b -> EntriesExtend b c -> EntriesExtend a c.
Proof.
  intros (n1 & -> & H1) (n2 & -> & H2). exists (n1 ++ n2).
  split; [now rewrite app_assoc | auto].
Qed.

Lemma SessionsExtend_refl (ss : list Session.t) : SessionsExtend ss ss.
Proof. exists []. cbn. rewrite !app_nil_r. repeat split; auto. Qed.

Lemma SessionsExtend_trans (a b c : list Session.t) :
  SessionsExtend a b -> SessionsExtend b c -> SessionsExtend a c.
Proof.
  intros (n1 & Hi1 & Ht1 & He1 & Hn1 & Hm1) (n2 & Hi2 & Ht2 & He2 & Hn2 & Hm2).
  exists (n1 ++ n2). rewrite !map_app, !app_assoc, <- Hi1, <- Ht1, <- He1.
  repeat split; auto.
Qed.

Lemma Extends_refl (st : Store) : Extends st st.
Proof.
  repeat split; auto using UsersExtend_refl, EntriesExtend_refl, SessionsExtend_refl.
Qed.

Lemma Extends_trans (a b c : Store) : Extends a b -> Extends b c -> Extends a c.
Proof.
  intros (Hu1 & Hb1 & Hs1 & Hp1) (Hu2 & Hb2 & Hs2 & Hp2).
  repeat split; eauto using UsersExtend_trans, EntriesExtend_trans, SessionsExtend_trans.
  congruence.
Qed.

Lemma UsersKept_update (p : User.t -> bool) (f : User.t -> User.t) (us : list User.t) :
  (forall d, UserKept d (f d)) -> Forall2 UserKept us (updateFirst p f us).
Proof.
  intros Hk. induction us as [| d us IH]; cbn; [constructor |].
  destruct (p d); constructor; auto using UserKept_refl, UsersKept_refl.
Qed.

Lemma UsersKept_ids (a b : list User.t) :
  Forall2 UserKept a b -> map User._id b = map User._id a.
Proof.
  induction 1 as [| x y a b (Hi & _) _ IH]; cbn; [reflexivity | now rewrite Hi, IH].
Qed.

(** An update in place of the first document found, which keeps the keys of
    that document. *)
Lemma UsersExtend_update_found (p : User.t -> bool) (f : User.t -> User.t)
    (us : list User.t) :
  (forall d, List.find p us = Some d ->
             UserKept d (f d) /\ User.email (f d) = User.email d) ->
  UsersExtend us (updateFirst p f us).
Proof.
  intros Hk. exists (updateFirst p f us), []. rewrite app_nil_r.
  assert (Hkept : Forall2 UserKept us (updateFirst p f us)).
  { induction us as [| d us IH]; cbn; [constructor |]. cbn in Hk.
    destruct (p d); constructor; auto using UserKept_refl, UsersKept_refl.
    now apply Hk. }
  assert (Hmail : map User.email (updateFirst p f us) = map User.email us).
  { clear Hkept. induction us as [| d us IH]; cbn; [reflexivity |]. cbn in Hk.
    destruct (p d); cbn; [| now rewrite IH].
    f_equal. now apply Hk. }
  rewrite (UsersKept_ids _ _ Hkept), Hmail. repeat split; auto.
Qed.

(** An update in place that keeps the keys. *)
Lemma UsersExtend_update_kept (p : User.t -> bool) (f : User.t -> User.t)
    (us : list User.t) :
  (forall d, UserKept d (f d)) ->
  (forall d, User.email (f d) = User.email d) ->
  UsersExtend us (updateFirst p f us).
Proof.
  intros Hk He. exists (updateFirst p f us), []. rewrite app_nil_r.
  assert (Hi : forall d, User._id (f d) = User._id d) by (intros d; apply Hk).
  rewrite !map_updateFirst by assumption.
  repeat split; auto using UsersKept_update.
Qed.

Lemma UsersExtend_update (p : User.t -> bool) (f : User.t -> User.t) (us : list User.t) :
  (forall d, User._id (f d) = User._id d) ->
  (forall d, User.email (f d) = User.email d) ->
  (forall d, User.role (f d) = User.role d) ->
  (forall d, User.tokenVersion (f d) = User.tokenVersion d) ->
  UsersExtend us (updateFirst p f us).
Proof.
  intros Hi He Hr Hv. apply UsersExtend_update_kept; [| assumption].
  intros d. repeat split; auto. rewrite Hv. lia.
Qed.

Lemma In_map_updateFirst {A B : Type} (g : A -> B) (p : A -> bool) (f : A -> A)
    (e : B) (l : list A) (x : B) :
  (forall d, g (f d) = e) ->
  In x (map g (updateFirst p f l)) -> In x (map g l) \/ x = e.
Proof.
  intros Hg. induction l as [| d l IH]; cbn; [tauto |].
  destruct (p d); cbn.
  - rewrite Hg. intros [<- | H]; auto.
  - intros [<- | H]; auto. destruct (IH H); auto.
Qed.

(** An update in place of the document of an [_id] that sets the [email]
    to one that no other document has. *)
Lemma UsersExtend_update_email (id : Z) (f : User.t -> User.t) (e : string)
    (us : list User.t) :
  (forall d, UserKept d (f d)) ->
  (forall d, User.email (f d) = e) ->
  existsb (fun u => String.eqb (User.email u) e && negb (User.hasId id u)) us = false ->
  UsersExtend us (updateFirst (User.hasId id) f us).
Proof.
  intros Hk He Hfree. exists (updateFirst (User.hasId id) f us), [].
  rewrite app_nil_r.
  assert (Hi : forall d, User._id (f d) = User._id d) by (intros d; apply Hk).
  repeat split; auto using UsersKept_update.
  - now rewrite map_updateFirst.
  - intros Hids Hmails. induction us as [| d us IH]; cbn; [constructor |].
    cbn in Hfree. apply orb_false_iff in Hfree as [Hd Hfree].
    cbn in Hids, Hmails. apply NoDup_cons_iff in Hids as [Hid Hids].
    apply NoDup_cons_iff in Hmails as [Hmail Hmails].
    destruct (User.hasId id d) eqn:Hh; cbn [map].
    + apply List.NoDup_cons; [| assumption]. rewrite He. intros Hin.
      apply in_map_iff in Hin as (u & Hu & Hin).
      assert (Hu' : User.hasId id u = true).
      { destruct (User.hasId id u) eqn:Hu'; [reflexivity | exfalso].
        assert (Hex : existsb (fun u => String.eqb (User.email u) e
                                        && negb (User.hasId id u)) us = true).
        { apply existsb_exists. exists u. split; [assumption |].
          now rewrite Hu, String.eqb_refl, Hu'. }
        congruence. }
      apply Hid. apply in_map_iff. exists u. split; [| assumption].
      unfold User.hasId in *. apply Z.eqb_eq in Hh, Hu'. congruence.
    + apply List.NoDup_cons; [| now apply IH].
      intros Hin. apply (In_map_updateFirst _ _ _ e) in Hin as [Hin | Hin]; auto.
      rewrite Hin, String.eqb_refl in Hd. discriminate.
Qed.

Lemma SessionsExtend_update (p : Session.t -> bool) (f : Session.t -> Session.t)
    (ss : list Session.t) :
  (forall d, Session._id (f d) = Session._id d) ->
  (forall d, Session.token (f d) = Session.token d) ->
  (forall d, Session.expiresAt (f d) = Session.expiresAt d) ->
  SessionsExtend ss (updateFirst p f ss).
Proof.
  intros Hi Ht He. exists []. cbn. rewrite !app_nil_r, !map_updateFirst by assumption.
  repeat split; auto.
Qed.

Lemma freshId_above (ids : list Z) : forall i, In i ids -> i < freshId ids.
Proof.
  unfold freshId. induction ids as [| a ids IH]; cbn; [contradiction |].
  intros i [<- | Hi]; [lia |]. specialize (IH i Hi). lia.
Qed.

Lemma freshId_fresh (ids : list Z) : ~ In (freshId ids) ids.
Proof. intros H. apply freshId_above in H. lia. Qed.

Lemma NoDup_app_one {A : Type} (l : list A) (x : A) :
  ~ In x l -> List.NoDup l -> List.NoDup (l ++ [x]).
Proof.
  induction l as [| a l IH]; cbn; intros Hx Hl.
  - constructor; [intros [] | constructor].
  - apply NoDup_cons_iff in Hl as [Ha Hl]. apply List.NoDup_cons.
    + intros Hin. apply in_app_or in Hin as [Hin | [<- | []]]; tauto.
    + apply IH; tauto.
Qed.

Lemma existsb_eqb_In {A : Type} (g : A -> string) (e : string) (l : list A) :
  existsb (fun u => String.eqb (g u) e) l = false -> ~ In e (map g l).
Proof.
  intros H Hin. apply in_map_iff in Hin as (u & <- & Hu).
  assert (existsb (fun u0 => String.eqb (g u0) (g u)) l = true).
  { apply existsb_exists. exists u. split; [assumption | apply String.eqb_refl]. }
  congruence.
Qed.

Lemma UsersExtend_findById (id : Z) (ps : list Post.t) (now : Z) (us us' : list User.t)
    (r : option User.t) :
  User.findById id ps now us = (r, us') -> UsersExtend us us'.
Proof.
  unfold User.findById, User.preFindOne, User.findByIdAndUpdate. intros [= _ <-].
  destruct (last (Post.find id ps)); [| apply UsersExtend_refl].
  eapply UsersExtend_trans; [| apply UsersExtend_update; reflexivity].
  destruct (_ <? _); apply UsersExtend_update; reflexivity.
Qed.

Lemma UsersExtend_incLoginAttempts (u : User.t) (now : Z) (us : list User.t) :
  UsersExtend us (User.incLoginAttempts u now us).
Proof.
  unfold User.incLoginAttempts, User.updateOne.
  case_ifs; apply UsersExtend_update; reflexivity.
Qed.

Lemma UsersExtend_resetLoginAttempts (u : User.t) (now : Z) (us : list User.t) :
  UsersExtend us (User.resetLoginAttempts u now us).
Proof.
  unfold User.resetLoginAttempts, User.updateOne. apply UsersExtend_update; reflexivity.
Qed.

Lemma EntriesExtend_create (doc : TokenBlacklist.t) (bl bl' : list TokenBlacklist.t) :
  TokenBlacklist.create doc bl = Ok bl' -> EntriesExtend bl bl'.
Proof.
  intros H. apply create_hasToken in H as [-> Hfree]. exists [doc]. split; [reflexivity |].
  intros Hnd. rewrite map_app. apply NoDup_app_one; [| assumption].
  unfold TokenBlacklist.hasToken in Hfree. now apply existsb_eqb_In.
Qed.

Lemma SessionsExtend_create (f : Session.Fields) (now : Z) (ss ss' : list Session.t)
    (doc : Session.t) :
  Session.create f now ss = Ok (doc, ss') -> SessionsExtend ss ss'.
Proof.
  unfold Session.create.
  destruct (Session.hasToken _ ss) eqn:Hdup; [discriminate |].
  intros [= <- <-]. eexists [_]. rewrite !map_app. cbn [map].
  repeat split; auto.
  - intros Hnd. apply NoDup_app_one; [apply freshId_fresh | assumption].
  - intros Hnd. apply NoDup_app_one; [| assumption].
    unfold Session.hasToken in Hdup. now apply existsb_eqb_In.
Qed.

Lemma SessionsExtend_save (s : Session.t) (b : bool) (ss : list Session.t) :
  SessionsExtend ss (Session.save s (Session.setIsActive b) ss).
Proof. apply SessionsExtend_update; reflexivity. Qed.

Lemma Extends_invalidateEach (found : list Session.t) (uid : Z) (why : string) (now : Z) :
  forall (ss : list Session.t) (bl : list TokenBlacklist.t),
    SessionsExtend ss (Session.invalidateEach found uid why now ss bl).1.1
    /\ EntriesExtend bl (Session.invalidateEach found uid why now ss bl).1.2.
Proof.
  induction found as [| s found IH]; intros ss bl; cbn.
  - split; [apply SessionsExtend_refl | apply EntriesExtend_refl].
  - destruct (TokenBlacklist.blacklistToken _ _ _ _ _ _ _ bl) as [bl1 | e] eqn:Hc.
    + destruct (IH (Session.save s (Session.setIsActive false) ss) bl1) as [H1 H2].
      split.
      * eapply SessionsExtend_trans; [apply SessionsExtend_save | exact H1].
      * eapply EntriesExtend_trans; [exact (EntriesExtend_create _ _ _ Hc) | exact H2].
    + cbn. split; [apply SessionsExtend_save | apply EntriesExtend_refl].
Qed.

Lemma Extends_invalidateAll (uid : Z) (why : string) (now : Z) (ss : list Session.t)
    (bl : list TokenBlacklist.t) :
  SessionsExtend ss (Session.invalidateAllUserSessions uid why now ss bl).1.1
  /\ EntriesExtend bl (Session.invalidateAllUserSessions uid why now ss bl).1.2.
Proof.
  unfold Session.invalidateAllUserSessions.
  pose proof (Extends_invalidateEach
                (List.filter (fun s => (Session.userId s =? uid) && Session.isActive s) ss)
                uid why now ss bl) as H.
  destruct (Session.invalidateEach _ _ _ _ _ _) as [[ss' bl'] [e |]]; exact H.
Qed.

(** Building [Extends] from its parts. *)
Lemma Extends_parts (st : Store) (us : list User.t) (bl : list TokenBlacklist.t)
    (ss : list Session.t) :
  UsersExtend (users st) us -> EntriesExtend (blacklist st) bl ->
  SessionsExtend (sessions st) ss ->
  Extends st {| users := us; posts := posts st; blacklist := bl; sessions := ss |}.
Proof. intros. repeat split; assumption. Qed.

(** Splits a goal [Extends st st'] into the three collections of [st']. *)
Ltac extends :=
  match goal with
  | |- Extends ?st ?st' =>
      apply (Extends_trans st
               {| users := users st'; posts := posts st; blacklist := blacklist st';
                  sessions := sessions st' |});
      [apply Extends_parts;
       cbn [users blacklist sessions posts withUsers withBlacklist withSessions]
      | cbn [users blacklist sessions posts withUsers withBlacklist withSessions];
        try (destruct st; apply Extends_refl)]
  end.

(** In users that extend others, the lookup by [_id] finds the document
    that it found before, with the role it had and a token version that is
    not below the one it had. *)
Lemma find_extended (i : Z) (u : User.t) (us us' : list User.t) :
  UsersExtend us us' ->
  List.find (User.hasId i) us = Some u ->
  exists u', List.find (User.hasId i) us' = Some u' /\ User.role u' = User.role u
             /\ User.tokenVersion u <= User.tokenVersion u'.
Proof.
  intros (kept & new & -> & Hk & _). induction Hk as [| d d' us kept Hd Hk IH];
    [discriminate |].
  cbn [List.find app]. destruct Hd as (Hid & Hrole & Hv).
  unfold User.hasId at 1 3. rewrite Hid.
  destruct (User._id d =? i).
  - intros [= <-]. eauto.
  - exact IH.
Qed.

(** The lookup by [_id], hook included, returns the stored document with
    its role. *)
Lemma findById_role (id : Z) (ps : list Post.t) (now : Z) (us us' : list User.t)
    (u' : User.t) :
  User.findById id ps now us = (Some u', us') ->
  exists u, List.find (User.hasId id) us = Some u /\ User.role u' = User.role u.
Proof.
  intros Hf. destruct (List.find (User.hasId id) us) as [u |] eqn:Hu.
  - exists u. split; [reflexivity |].
    pose proof (UsersExtend_findById _ _ _ _ _ _ Hf) as Hext.
    destruct (find_extended id u us us' Hext Hu) as (u1 & Hu1 & Hr & _).
    unfold User.findById in Hf. injection Hf as Hf1 Hf2. rewrite Hf2 in Hf1.
    congruence.
  - exfalso. unfold User.findById, User.preFindOne, User.findByIdAndUpdate in Hf.
    injection Hf as Hf _. revert Hf.
    destruct (last (Post.find id ps)).
    + rewrite !find_updateFirst by (intros d Hd; exact Hd).
      destruct (_ <? _); rewrite !find_updateFirst by (intros d Hd; exact Hd);
        now rewrite Hu.
    + now rewrite Hu.
Qed.

(** ** The admin controller *)


Section MoreProperties.

Variable jwt_sign : Jwt.Payload -> string.
Variable jwt_decode : string -> option Jwt.Payload.
Variable bcrypt_hash : string -> string -> string.
Variable bcrypt_compare : string -> string -> bool.
Variable JWT_EXPIRES_IN : option string.
Variable JWT_REFRESH_EXPIRES_IN : option string.
Variable SESSION_TIMEOUT_MINUTES : Z.

Local Abbreviation verifyToken' := (verifyToken jwt_decode).
Local Abbreviation requireSignIn' := (requireSignIn jwt_decode SESSION_TIMEOUT_MINUTES).
Local Abbreviation optionalAuth' := (optionalAuth jwt_decode SESSION_TIMEOUT_MINUTES).
Local Abbreviation refreshToken' :=
  (refreshToken jwt_sign jwt_decode JWT_EXPIRES_IN JWT_REFRESH_EXPIRES_IN).
Local Abbreviation logout' := (logout jwt_decode).
Local Abbreviation signup' := (signup jwt_sign bcrypt_hash JWT_EXPIRES_IN JWT_REFRESH_EXPIRES_IN).
Local Abbreviation login' := (login jwt_sign bcrypt_compare JWT_EXPIRES_IN JWT_REFRESH_EXPIRES_IN).
Local Abbreviation adminLogin' :=
  (adminLogin jwt_sign bcrypt_compare JWT_EXPIRES_IN JWT_REFRESH_EXPIRES_IN).
Local Abbreviation changePassword' := (changePassword bcrypt_hash bcrypt_compare).
Local Abbreviation handle' :=
  (handle jwt_sign jwt_decode bcrypt_hash bcrypt_compare JWT_EXPIRES_IN
     JWT_REFRESH_EXPIRES_IN SESSION_TIMEOUT_MINUTES).

(** ** Tokens *)

Lemma signToken_expiry (ty : Jwt.TokenType) (expiresIn : string) (id : Z) (version : Z)
    (metadata : Jwt.Metadata) (now signedAt : Z) (jti tok : string) (expiresAt : Z) :
  signToken jwt_sign ty expiresIn id version metadata now signedAt jti
  = Ok (tok, expiresAt) ->
  exists p : Jwt.Payload,
    tok = jwt_sign p
    /\ Jwt.id p = id /\ Jwt.type p = ty /\ Jwt.tokenVersion p = Some version
    /\ Jwt.jti p = jti
    /\ Jwt.iat p = signedAt / 1000 /\ Jwt.iat p <= Jwt.exp p
    /\ now <= expiresAt
    /\ expiresAt - Jwt.exp p * 1000 = now - signedAt / 1000 * 1000.
Proof.
  unfold signToken.
  destruct (Jwt.parseExpiration expiresIn) as [ms | e] eqn:Hp; [| discriminate].
  apply parseExpiration_seconds in Hp as [Hms Hmod].
  intros [= <- <-]. eexists. split; [reflexivity |]. cbn.
  pose proof (Z.div_mod ms 1000).
  assert (0 <= ms / 1000) by (apply Z.div_pos; lia).
  repeat split; lia.
Qed.

(** X6. [createToken] and [createRefreshToken] read the clock twice: the
    expiry time that they return beside the token, and that the callers
    store in the session, counts from the first reading [now], the [iat]
    and the [exp] of the signed payload from the second reading
    [signedAt].  The token is the signature of a payload of the type,
    user, version and [jti] asked for, issued at the second of [signedAt].
    When the two readings fall in the same second, the returned time lies
    within the second that follows [exp], never before it; when a second
    starts between them, the returned time lies before [exp]. *)
Theorem token_expiry_agrees (ty : Jwt.TokenType) (id version : Z)
    (metadata : Jwt.Metadata) (now signedAt : Date) (jti tok : string)
    (expiresAt : Date) :
  (ty = Jwt.access
   /\ createToken jwt_sign JWT_EXPIRES_IN id version metadata now signedAt jti
      = Ok (tok, expiresAt))
  \/ (ty = Jwt.refresh
      /\ createRefreshToken jwt_sign JWT_REFRESH_EXPIRES_IN id version metadata now
           signedAt jti
         = Ok (tok, expiresAt)) ->
  exists p : Jwt.Payload,
    tok = jwt_sign p
    /\ Jwt.type p = ty /\ Jwt.id p = id /\ Jwt.tokenVersion p = Some version
    /\ Jwt.jti p = jti
    /\ Jwt.iat p = signedAt / 1000 /\ Jwt.iat p <= Jwt.exp p
    /\ now <= expiresAt
    /\ now - signedAt <= expiresAt - Jwt.exp p * 1000 < now - signedAt + 1000
    /\ (signedAt / 1000 = now / 1000 ->
        Jwt.exp p * 1000 <= expiresAt < Jwt.exp p * 1000 + 1000)
    /\ (now / 1000 < signedAt / 1000 -> expiresAt < Jwt.exp p * 1000).
Proof.
  unfold createToken, createRefreshToken.
  pose proof (Z.div_mod now 1000). pose proof (Z.mod_pos_bound now 1000).
  pose proof (Z.div_mod signedAt 1000). pose proof (Z.mod_pos_bound signedAt 1000).
  intros [[-> Hc] | [-> Hc]];
    apply signToken_expiry in Hc as (p & ? & ? & ? & ? & ? & ? & ? & ? & ?);
    exists p; repeat split; auto; intros; try lia.
Qed.

(** X7. Without a truthy [accessToken] cookie, [extractToken] takes the
    token from an [Authorization] header of the Bearer scheme: all the text
    after the seven characters of the prefix, whatever it is. *)
Theorem extractToken_bearer (req : Http.Request) (tok : string) :
  Js.truthy (Http.cookies req !! "accessToken") = false ->
  Http.headers req !! "authorization" = Some ("Bearer " +:+ tok) ->
  extractToken req = Some tok.
Proof.
  intros Hc Hh. unfold extractToken. rewrite Hc, Hh.
  change ("Bearer " +:+ tok)
    with (String "B" (String "e" (String "a" (String "r" (String "e"
            (String "r" (String " " tok))))))).
  cbn. rewrite Nat.sub_0_r, substring_all. now destruct tok.
Qed.

(** X8. A refresh token does not pass for an access token: presented to
    [requireSignIn], a token whose payload has the type [refresh] is
    answered 401 and the store is left as it was, whoever the user and
    whatever the state of the token. *)
Theorem requireSignIn_refuses_refresh_token (st : Store) (now : Date) (req : Http.Request)
    (tok : string) (p : Jwt.Payload) :
  extractToken req = Some tok -> jwt_decode tok = Some p -> Jwt.type p = Jwt.refresh ->
  exists m, requireSignIn' st now req = (Http.NextError m 401, st).
Proof.
  intros He Hd Hty. unfold requireSignIn. rewrite He.
  destruct (negb (Js.truthy (Some tok))); [eauto |].
  cbn [Js.str].
  destruct (TokenBlacklist.isBlacklisted tok now (blacklist st)); [eauto |].
  unfold verifyToken. rewrite Hd, Hty.
  destruct (Jwt.exp p <=? now / 1000); cbn; eauto.
Qed.

(** X9. An access token does not pass for a refresh token: presented to
    [refreshToken], a token whose payload has the type [access] is answered
    401 and the store is left as it was. *)
Theorem refreshToken_refuses_access_token (st : Store) (now : Date) (rnd : Entropy)
    (req : Http.Request) (tok : string) (p : Jwt.Payload) :
  presentedRefreshToken req = Some tok -> tok <> EmptyString ->
  jwt_decode tok = Some p -> Jwt.type p = Jwt.access ->
  exists m, refreshToken' st now rnd req = (Http.NextError m 401, st).
Proof.
  intros Hp Htok Hd Hty. unfold refreshToken. rewrite Hp.
  apply truthy_Some in Htok. rewrite Htok. cbn [negb Js.str].
  destruct (TokenBlacklist.isBlacklisted tok now (blacklist st)); [eauto |].
  unfold verifyToken. rewrite Hd, Hty.
  destruct (Jwt.exp p <=? now / 1000); cbn; eauto.
Qed.

(** X10. The check of the token type in [refreshToken] is dead code: no
    request is answered with its error [Invalid token type], because
    [verifyToken] was called with the expected type [refresh] and has
    thrown already on any other type. *)
Theorem refreshToken_type_check_unreachable (st : Store) (now : Date) (rnd : Entropy)
    (req : Http.Request) :
  fst (refreshToken' st now rnd req) <> Http.NextError "Invalid token type" 401.
Proof.
  unfold refreshToken.
  destruct (negb _); [cbn; discriminate |].
  destruct (TokenBlacklist.isBlacklisted _ _ _); [cbn; discriminate |].
  destruct (verifyToken' _ _ _) as [decoded | e] eqn:Hv.
  2:{ destruct (Js.includes _ _); cbn; discriminate. }
  apply verifyToken_ok in Hv as (_ & _ & Hty).
  rewrite (Hty _ eq_refl). cbn [Jwt.typeEqb negb].
  destruct (User.findById _ _ _ _) as [[user |] us]; [| cbn; discriminate].
  destruct (match Jwt.tokenVersion decoded with Some _ => _ | None => _ end);
    [cbn; discriminate |].
  destruct (_ || _); [cbn; discriminate |].
  destruct (TokenBlacklist.blacklistToken _ _ _ _ _ _ _ _).
  2:{ destruct (Js.includes _ _); cbn; discriminate. }
  destruct (issueSession _ _ _ _ _ _ _ _) as [[[acc ref] ss] | e].
  - cbn; discriminate.
  - destruct (Js.includes _ _); cbn; discriminate.
Qed.

(** ** Optional authentication *)

(** X11. [optionalAuth] never refuses a request and never revokes anything:
    whatever token is presented it calls [next()] without an error; the
    cookies, headers and body of the request are as before; the blacklist
    is unchanged, and no session is deactivated or gets another token. *)
Theorem optionalAuth_never_refuses (st : Store) (now : Date) (req : Http.Request) :
  exists req',
    fst (optionalAuth' st now req) = Http.Next req'
    /\ Http.cookies req' = Http.cookies req /\ Http.headers req' = Http.headers req
    /\ Http.body req' = Http.body req
    /\ blacklist (snd (optionalAuth' st now req)) = blacklist st
    /\ map Session.isActive (sessions (snd (optionalAuth' st now req)))
       = map Session.isActive (sessions st)
    /\ map Session.token (sessions (snd (optionalAuth' st now req)))
       = map Session.token (sessions st).
Proof.
  unfold optionalAuth.
  destruct (negb _); [now exists req |].
  destruct (TokenBlacklist.isBlacklisted _ _ _); [now exists req |].
  destruct (verifyToken' _ _ _) as [decoded | e]; [| now exists req].
  destruct (User.findById _ _ _ _) as [[user |] us]; [| now exists req].
  destruct (negb (User.isBlocked user) && negb (User.isLocked user now));
    [| now exists req].
  destruct (match Jwt.tokenVersion decoded with Some _ => _ | None => _ end);
    [| now exists req].
  destruct (Session.findActive _ _ _) as [s |]; [| eexists; repeat split].
  destruct (negb (Session.isInactive _ _ _)); [| eexists; repeat split].
  eexists. cbn. repeat split.
  - unfold Session.save. now apply map_updateFirst.
  - unfold Session.save. now apply map_updateFirst.
Qed.

(** X12. On a request that [requireSignIn] lets through, [optionalAuth]
    does the same: it hands on the same request, with the same user, token
    and session, and leaves the same store (the request arriving with no
    session attached, as Express delivers it). *)
Theorem optionalAuth_agrees_with_requireSignIn (st st' : Store) (now : Date)
    (req req' : Http.Request) :
  requireSignIn' st now req = (Http.Next req', st') ->
  Http.session req = None ->
  optionalAuth' st now req = (Http.Next req', st').
Proof.
  unfold requireSignIn, optionalAuth. intros H Hs.
  destruct (negb _); [discriminate |].
  destruct (TokenBlacklist.isBlacklisted _ _ _); [discriminate |].
  destruct (verifyToken' _ _ _) as [decoded | e].
  2:{ revert H. case_ifs; discriminate. }
  destruct (User.findById _ _ _ _) as [[user |] us]; [| discriminate].
  destruct (Jwt.tokenVersion decoded) as [v |].
  - destruct (User.isTokenVersionValid user v); cbn [negb] in H.
    2:{ destruct (TokenBlacklist.blacklistToken _ _ _ _ _ _ _ _); discriminate. }
    destruct (User.isBlocked user); [discriminate |].
    destruct (User.isLocked user now); [discriminate |]. cbn [negb andb].
    destruct (Session.findActive _ _ _) as [s |]; [| now rewrite Hs].
    destruct (Session.isInactive _ _ _); cbn [negb]; [| exact H].
    destruct (Session.invalidate _ _ _ _ _) as [ss [bl | e]]; discriminate.
  - destruct (User.isBlocked user); [discriminate |].
    destruct (User.isLocked user now); [discriminate |]. cbn [negb andb].
    destruct (Session.findActive _ _ _) as [s |]; [| now rewrite Hs].
    destruct (Session.isInactive _ _ _); cbn [negb]; [| exact H].
    destruct (Session.invalidate _ _ _ _ _) as [ss [bl | e]]; discriminate.
Qed.

(** X13. [optionalAuth] attaches a user only on full authentication: when a
    request that arrived without a user leaves it with one, the request
    presented a non-empty token that is not blacklisted, decodes to an
    unexpired payload of the type [access] and names that user, who is
    stored, has the version of the token, and is neither blocked nor
    locked. *)
Theorem optionalAuth_attaches_authenticated (st st' : Store) (now : Date)
    (req req' : Http.Request) (u : User.t) :
  optionalAuth' st now req = (Http.Next req', st') ->
  Http.user req = None -> Http.user req' = Some u ->
  exists tok p,
    extractToken req = Some tok /\ tok <> EmptyString /\ Http.token req' = Some tok
    /\ TokenBlacklist.isBlacklisted tok now (blacklist st) = false
    /\ jwt_decode tok = Some p /\ now / 1000 < Jwt.exp p /\ Jwt.type p = Jwt.access
    /\ User._id u = Jwt.id p /\ In u (users st')
    /\ (forall v, Jwt.tokenVersion p = Some v -> User.tokenVersion u = v)
    /\ User.isBlocked u = false /\ User.isLocked u now = false.
Proof.
  unfold optionalAuth. intros H Hnone Hu.
  assert (Hsame : forall stx, (Http.Next req, stx) = (Http.Next req', st') -> False).
  { intros stx [= <- _]. congruence. }
  destruct (extractToken req) as [tok |] eqn:He; [| now apply Hsame in H].
  destruct (Js.truthy (Some tok)) eqn:Htruthy; cbn [negb] in H; [| now apply Hsame in H].
  cbn [Js.str] in H.
  destruct (TokenBlacklist.isBlacklisted _ _ _) eqn:Hb; [now apply Hsame in H |].
  destruct (verifyToken' _ _ _) as [decoded | e] eqn:Hv; [| now apply Hsame in H].
  apply verifyToken_ok in Hv as (Hdec & Hexp & Hty).
  destruct (User.findById _ _ _ _) as [[user |] us] eqn:Hf; [| now apply Hsame in H].
  destruct (User.isBlocked user) eqn:Hblocked; [now apply Hsame in H |].
  destruct (User.isLocked user now) eqn:Hlocked; [now apply Hsame in H |].
  cbn [negb andb] in H.
  destruct (match Jwt.tokenVersion decoded with Some _ => _ | None => _ end) eqn:Hver;
    [| now apply Hsame in H].
  assert (Hfound : List.find (User.hasId (Jwt.id decoded)) us = Some user).
  { unfold User.findById in Hf. injection Hf as Hf1 <-. exact Hf1. }
  apply List.find_some in Hfound as [Hin Hid]. apply Z.eqb_eq in Hid.
  match goal with
  | |- ?G =>
      assert (Hattached : forall s ss,
                 (Http.Next (Http.attach req user tok s), withSessions ss (withUsers us st))
                 = (Http.Next req', st') \/
                 (Http.Next (Http.attach req user tok s), withUsers us st)
                 = (Http.Next req', st') -> G)
  end.
  { intros s ss Heq.
    assert (Hreq : req' = Http.attach req user tok s /\ users st' = us).
    { destruct Heq as [[= <- <-] | [= <- <-]]; now split. }
    destruct Hreq as [-> Hus]. cbn in Hu. injection Hu as <-.
    exists tok, decoded. rewrite Hus. repeat split; auto.
    - now apply truthy_Some.
    - intros v Hv. rewrite Hv in Hver. unfold User.isTokenVersionValid in Hver.
      now apply Z.eqb_eq in Hver. }
  destruct (Session.findActive _ _ _) as [s |].
  - destruct (negb (Session.isInactive _ _ _)).
    + destruct (Session.updateActivity _ _ _) as [s' ss].
      apply (Hattached (Some s') ss). left. exact H.
    + apply (Hattached (Http.session req) []). right. exact H.
  - apply (Hattached (Http.session req) []). right. exact H.
Qed.

(** X14. [optionalAuth] does not enforce the inactivity timeout: on a token
    that passes every check and whose active session has been idle for
    longer than the timeout, it attaches the user and the token all the
    same, attaches no session, and leaves the session as it is. *)
Theorem optionalAuth_ignores_idle_session (st : Store) (now : Date) (req : Http.Request)
    (tok : string) (decoded : Jwt.Payload) (user : User.t) (us : list User.t)
    (s : Session.t) :
  extractToken req = Some tok -> tok <> EmptyString ->
  TokenBlacklist.isBlacklisted tok now (blacklist st) = false ->
  verifyToken' tok (Some Jwt.access) now = Ok decoded ->
  User.findById (Jwt.id decoded) (posts st) now (users st) = (Some user, us) ->
  (forall v, Jwt.tokenVersion decoded = Some v -> User.tokenVersion user = v) ->
  User.isBlocked user = false -> User.isLocked user now = false ->
  Session.findActive tok (User._id user) (sessions st) = Some s ->
  Session.isInactive s SESSION_TIMEOUT_MINUTES now = true ->
  optionalAuth' st now req
  = (Http.Next (Http.attach req user tok (Http.session req)), withUsers us st).
Proof.
  intros He Htok Hb Hv Hf Hver Hblocked Hlocked Hs Hidle.
  unfold optionalAuth. rewrite He.
  apply truthy_Some in Htok. rewrite Htok. cbn [negb Js.str].
  rewrite Hb, Hv, Hf, Hblocked, Hlocked. cbn [negb andb].
  assert (Hversion : match Jwt.tokenVersion decoded with
                     | Some v => User.isTokenVersionValid user v
                     | None => true
                     end = true).
  { destruct (Jwt.tokenVersion decoded) as [v |]; [| reflexivity].
    unfold User.isTokenVersionValid. rewrite (Hver v eq_refl). apply Z.eqb_refl. }
  rewrite Hversion. cbn [sessions withUsers]. now rewrite Hs, Hidle.
Qed.

(** ** The middlewares behind request authentication *)

(** What the middleware attaches when it lets a request through. *)
Lemma requireSignIn_user (st st' : Store) (now : Z) (req req' : Http.Request) :
  requireSignIn' st now req = (Http.Next req', st') ->
  exists u, Http.user req' = Some u /\ In u (users st')
            /\ User.isBlocked u = false /\ User.isLocked u now = false.
Proof.
  unfold requireSignIn.
  destruct (negb _); [discriminate |].
  destruct (TokenBlacklist.isBlacklisted _ _ _); [discriminate |].
  destruct (verifyToken' _ _ _) as [decoded | e].
  2:{ case_ifs; discriminate. }
  destruct (User.findById _ _ _ _) as [[user |] us] eqn:Hf; [| discriminate].
  assert (Hin : In user us).
  { unfold User.findById in Hf. injection Hf as Hf <-.
    now apply List.find_some in Hf as [Hin _]. }
  destruct (match Jwt.tokenVersion decoded with Some _ => _ | None => _ end).
  { destruct (TokenBlacklist.blacklistToken _ _ _ _ _ _ _ _); discriminate. }
  destruct (User.isBlocked user) eqn:Hblocked; [discriminate |].
  destruct (User.isLocked user now) eqn:Hlocked; [discriminate |].
  destruct (Session.findActive _ _ _) as [s |].
  - destruct (Session.isInactive _ _ _).
    + destruct (Session.invalidate _ _ _ _ _) as [ss [bl | e]]; discriminate.
    + cbn. intros [= <- <-]. exists user. now repeat split.
  - intros [= <- <-]. exists user. now repeat split.
Qed.

(** X15. Behind [requireSignIn], as the routes mount it, [alowedTo] never
    meets a request without a user: it decides by the role of the stored
    user that the middleware attached, letting the request through when the
    role is one of the roles listed and answering 403 otherwise. *)
Theorem alowedTo_after_requireSignIn (st st' : Store) (now : Date)
    (req req' : Http.Request) (roles : list string) :
  requireSignIn' st now req = (Http.Next req', st') ->
  exists u,
    Http.user req' = Some u /\ In u (users st')
    /\ alowedTo roles req'
       = if existsb (String.eqb (User.role u)) roles then Http.Next req'
         else Http.NextError "You are not allowed to access this route" 403.
Proof.
  intros H. apply requireSignIn_user in H as (u & Hu & Hin & _).
  exists u. repeat split; auto. unfold alowedTo. rewrite Hu.
  now destruct (existsb _ roles).
Qed.

(** X16. Behind [requireSignIn], the middleware [isBlocked] never refuses:
    a request the first lets through carries a user who is not blocked, so
    the second calls [next()]. *)
Theorem isBlocked_after_requireSignIn (st st' : Store) (now : Date)
    (req req' : Http.Request) :
  requireSignIn' st now req = (Http.Next req', st') ->
  isBlocked req' = Http.Next req'.
Proof.
  intros H. apply requireSignIn_user in H as (u & Hu & _ & Hb & _).
  unfold isBlocked. now rewrite Hu, Hb.
Qed.

(** ** [adminLogin] and [logoutAll] *)

(** X17. [adminLogin] is [login] behind a check of the role: for the email
    of an administrator, and for an email that no account has, it answers
    and writes exactly as [login] does; for the email of another account it
    answers 403 before anything else is looked at, the password included,
    and writes nothing (no failed attempt is counted). *)
Theorem adminLogin_is_login_for_admins (st : Store) (now : Date) (rnd : Entropy)
    (req : Http.Request) :
  adminLogin' st now rnd req
  = match User.findOneByEmail (Http.body req !! "email") (users st) with
    | Some user =>
        if String.eqb (User.role user) "admin" then login' st now rnd req
        else (Http.NextError msgAccessDenied 403, st)
    | None => login' st now rnd req
    end.
Proof.
  unfold adminLogin, login.
  destruct (User.findOneByEmail _ _) as [user |]; [| reflexivity].
  now destruct (String.eqb (User.role user) "admin").
Qed.

(** X18. [logoutAll] logs nobody out of all devices.  It passes the reason
    [logout_all], which the enum of the blacklist schema does not have:
    when the user has an active session, the first one is saved inactive,
    the blacklist entry is refused by validation, nothing else is written,
    and the answer is 500; only a user with no active session gets the 200,
    with a count of 0. *)
Theorem logoutAll_outcome (st : Store) (now : Date) (req : Http.Request) (u : User.t) :
  Http.user req = Some u ->
  Forall (fun s => Session.token s <> EmptyString) (sessions st) ->
  let active :=
    List.filter (fun s => (Session.userId s =? User._id u) && Session.isActive s)
      (sessions st) in
  (active = [] ->
   logoutAll st now req
   = (Http.Respond 200 (messageBody (msgLoggedOutAll 0)) clearTokenCookies, st))
  /\ (forall s rest, active = s :: rest ->
        logoutAll st now req
        = (Http.NextError msgLogoutAllFailed 500,
           withSessions (Session.save s (Session.setIsActive false) (sessions st)) st)).
Proof.
  intros Hu Htok active. subst active.
  unfold logoutAll, Session.invalidateAllUserSessions. rewrite Hu. split.
  - intros ->. cbn. now destruct st.
  - intros s rest Hfound. rewrite Hfound. cbn [Session.invalidateEach].
    assert (Hs : Session.token s <> EmptyString).
    { rewrite List.Forall_forall in Htok. apply Htok.
      assert (Hin : In s (s :: rest)) by now left.
      rewrite <- Hfound in Hin. now apply List.filter_In in Hin as [Hin _]. }
    rewrite blacklistToken_bad_reason by (auto; reflexivity).
    cbn. now destruct st.
Qed.

(** ** The inactivity timeout *)

(** X19. The inactivity timeout of [requireSignIn] does not answer 401.  On
    a token that passes every check and whose active session has been idle
    for longer than the timeout, the session is saved inactive, and the
    blacklisting that follows is refused by validation, the reason
    [inactivity_timeout] not being in the enum: the handler throws a
    [ValidationError] and the token is not blacklisted. *)
Theorem inactivity_timeout_throws (st : Store) (now : Date) (req : Http.Request)
    (tok : string) (decoded : Jwt.Payload) (user : User.t) (us : list User.t)
    (s : Session.t) :
  extractToken req = Some tok -> tok <> EmptyString ->
  TokenBlacklist.isBlacklisted tok now (blacklist st) = false ->
  verifyToken' tok (Some Jwt.access) now = Ok decoded ->
  User.findById (Jwt.id decoded) (posts st) now (users st) = (Some user, us) ->
  (forall v, Jwt.tokenVersion decoded = Some v -> User.tokenVersion user = v) ->
  User.isBlocked user = false -> User.isLocked user now = false ->
  Session.findActive tok (User._id user) (sessions st) = Some s ->
  Session.isInactive s SESSION_TIMEOUT_MINUTES now = true ->
  requireSignIn' st now req
  = (Http.NextThrown
       (ValidationError "TokenBlacklist"
          [("reason",
            "`inactivity_timeout` is not a valid enum value for path `reason`.")]),
     withSessions (Session.save s (Session.setIsActive false) (sessions st))
       (withUsers us st)).
Proof.
  intros He Htok Hb Hv Hf Hver Hblocked Hlocked Hs Hidle.
  unfold requireSignIn. rewrite He.
  pose proof Htok as Htruthy. apply truthy_Some in Htruthy.
  rewrite Htruthy. cbn [negb Js.str]. rewrite Hb, Hv, Hf.
  assert (Hversion : match Jwt.tokenVersion decoded with
                     | Some v => negb (User.isTokenVersionValid user v)
                     | None => false
                     end = false).
  { destruct (Jwt.tokenVersion decoded) as [v |]; [| reflexivity].
    unfold User.isTokenVersionValid. rewrite (Hver v eq_refl), Z.eqb_refl.
    reflexivity. }
  rewrite Hversion, Hblocked, Hlocked.
  cbn [sessions withUsers]. rewrite Hs, Hidle.
  unfold Session.invalidate.
  assert (Hst : Session.token s = tok).
  { unfold Session.findActive in Hs. apply List.find_some in Hs as [_ Hs].
    apply andb_prop in Hs as [Hs _]. apply andb_prop in Hs as [Hs _].
    now apply String.eqb_eq. }
  rewrite blacklistToken_bad_reason by (rewrite ?Hst; auto).
  reflexivity.
Qed.

(** X20. The inactivity timeout refuses a token once.  After the request
    that timed the session out (store [st1], the session saved inactive and
    no blacklist entry written), the same token, still unexpired and of a
    user in good standing, finds no active session on the next request and
    is let through, with no session attached. *)
Theorem inactivity_timeout_refuses_once (st : Store) (now now' : Date)
    (req : Http.Request) (tok : string) (decoded : Jwt.Payload)
    (user user' : User.t) (us us' : list User.t) (s : Session.t) :
  List.NoDup (map Session._id (sessions st)) ->
  List.NoDup (map Session.token (sessions st)) ->
  extractToken req = Some tok -> tok <> EmptyString ->
  TokenBlacklist.isBlacklisted tok now (blacklist st) = false ->
  verifyToken' tok (Some Jwt.access) now' = Ok decoded ->
  User.findById (Jwt.id decoded) (posts st) now (users st) = (Some user, us) ->
  Session.findActive tok (User._id user) (sessions st) = Some s ->
  let st1 :=
    withSessions (Session.save s (Session.setIsActive false) (sessions st))
      (withUsers us st) in
  now <= now' ->
  User.findById (Jwt.id decoded) (posts st1) now' (users st1) = (Some user', us') ->
  (forall v, Jwt.tokenVersion decoded = Some v -> User.tokenVersion user' = v) ->
  User.isBlocked user' = false -> User.isLocked user' now' = false ->
  requireSignIn' st1 now' req
  = (Http.Next (Http.attach req user' tok None), withUsers us' st1).
Proof.
  intros Hids Htoks He Htok Hb Hv Hf Hs st1 Hle Hf' Hver Hblocked Hlocked.
  assert (Hid : forall u l l', User.findById (Jwt.id decoded) (posts st) now' l = (Some u, l')
                               \/ User.findById (Jwt.id decoded) (posts st) now l = (Some u, l')
                               -> User._id u = Jwt.id decoded).
  { intros u l l' [H | H]; unfold User.findById in H; injection H as H _;
      apply List.find_some in H as [_ H]; now apply Z.eqb_eq in H. }
  assert (Hsame : User._id user' = User._id user).
  { rewrite (Hid user' (users st1) us'), (Hid user (users st) us); auto. }
  unfold requireSignIn. rewrite He.
  pose proof Htok as Htruthy. apply truthy_Some in Htruthy.
  rewrite Htruthy. cbn [negb Js.str].
  change (blacklist st1) with (blacklist st).
  rewrite (isBlacklisted_later tok now now' _ Hle Hb), Hv, Hf'.
  assert (Hversion : match Jwt.tokenVersion decoded with
                     | Some v => negb (User.isTokenVersionValid user' v)
                     | None => false
                     end = false).
  { destruct (Jwt.tokenVersion decoded) as [v |]; [| reflexivity].
    unfold User.isTokenVersionValid. rewrite (Hver v eq_refl), Z.eqb_refl.
    reflexivity. }
  rewrite Hversion, Hblocked, Hlocked.
  cbn [sessions withUsers]. subst st1. cbn [sessions withSessions withUsers].
  rewrite Hsame. now rewrite (findActive_after_save tok (User._id user) s _ Hids Htoks Hs).
Qed.

(** ** What a sequence of calls keeps *)

(** The document that the lookup returns is the stored one. *)
Lemma findById_stored (id : Z) (ps : list Post.t) (now : Z) (us us' : list User.t)
    (u : User.t) :
  User.findById id ps now us = (Some u, us') ->
  List.find (User.hasId (User._id u)) us' = Some u.
Proof.
  unfold User.findById. intros [= Hf <-].
  assert (Hid : User._id u = id).
  { pose proof (List.find_some _ _ Hf) as [_ Hh]. now apply Z.eqb_eq in Hh. }
  now rewrite Hid.
Qed.

Lemma UsersExtend_savePassword (u : User.t) (pw salt : string) (now : Z)
    (us us' : list User.t) :
  List.find (User.hasId (User._id u)) us = Some u ->
  User_savePassword bcrypt_hash u pw salt now us = Ok us' -> UsersExtend us us'.
Proof.
  intros Hu. unfold User_savePassword, User.updateOne.
  destruct (String.eqb pw (User.password u)).
  { intros [= <-]. apply UsersExtend_refl. }
  destruct (_ ++ _); [| discriminate]. intros [= <-].
  apply UsersExtend_update_found. intros d Hd.
  assert (d = u) by congruence. subst d.
  repeat split; cbn; lia.
Qed.

Lemma UsersExtend_create (firstname lastname email password phone : option string)
    (salt : string) (us us' : list User.t) (doc : User.t) :
  User_create bcrypt_hash firstname lastname email password phone "user" salt us
  = Ok (doc, us') ->
  UsersExtend us us'.
Proof.
  unfold User_create. destruct (_ ++ _); [| discriminate].
  destruct (existsb _ us) eqn:Hdup; [discriminate |].
  intros [= <- <-]. exists us. eexists [_]. rewrite !map_app. cbn [map].
  repeat split; auto using UsersKept_refl.
  - intros Hnd. apply NoDup_app_one; [apply freshId_fresh | assumption].
  - intros _ Hnd. apply NoDup_app_one; [| assumption]. now apply existsb_eqb_In.
Qed.

Lemma SessionsExtend_issueSession (u : User.t) (req : Http.Request) (now : Z)
    (rnd : Entropy) (ss ss' : list Session.t) (a r : string) :
  issueSession jwt_sign JWT_EXPIRES_IN JWT_REFRESH_EXPIRES_IN u req now rnd ss
  = Ok (a, r, ss') ->
  SessionsExtend ss ss'.
Proof.
  unfold issueSession.
  destruct (createToken _ _ _ _ _ _ _ _) as [[at' ea] | e]; [| discriminate].
  destruct (createRefreshToken _ _ _ _ _ _ _ _) as [[rt er] | e]; [| discriminate].
  destruct (Session.create _ _ _) as [[doc ss1] | e] eqn:Hc; [| discriminate].
  intros [= _ _ <-]. exact (SessionsExtend_create _ _ _ _ _ Hc).
Qed.

Lemma requireSignIn_extends (st : Store) (now : Z) (req : Http.Request) :
  Extends st (snd (requireSignIn' st now req)).
Proof.
  unfold requireSignIn.
  destruct (negb _); [apply Extends_refl |].
  destruct (TokenBlacklist.isBlacklisted _ _ _); [apply Extends_refl |].
  destruct (verifyToken' _ _ _) as [decoded | e].
  2:{ case_ifs; apply Extends_refl. }
  destruct (User.findById _ _ _ _) as [[user |] us] eqn:Hf;
    apply UsersExtend_findById in Hf.
  2:{ cbn [snd]. extends; auto using EntriesExtend_refl, SessionsExtend_refl. }
  destruct (match Jwt.tokenVersion decoded with Some _ => _ | None => _ end).
  { destruct (TokenBlacklist.blacklistToken _ _ _ _ _ _ _ _) as [bl | e] eqn:Hc;
      cbn [snd]; extends; auto using EntriesExtend_refl, SessionsExtend_refl.
    exact (EntriesExtend_create _ _ _ Hc). }
  destruct (User.isBlocked user);
    [cbn [snd]; extends; auto using EntriesExtend_refl, SessionsExtend_refl |].
  destruct (User.isLocked user now);
    [cbn [snd]; extends; auto using EntriesExtend_refl, SessionsExtend_refl |].
  destruct (Session.findActive _ _ _) as [s |];
    [| cbn [snd]; extends; auto using EntriesExtend_refl, SessionsExtend_refl].
  destruct (Session.isInactive _ _ _).
  - unfold Session.invalidate.
    destruct (TokenBlacklist.blacklistToken _ _ _ _ _ _ _ _) as [bl | e] eqn:Hc;
      cbn [snd]; extends;
      auto using EntriesExtend_refl, SessionsExtend_refl, SessionsExtend_save.
    exact (EntriesExtend_create _ _ _ Hc).
  - cbn [snd Session.updateActivity]. extends; auto using EntriesExtend_refl.
    apply SessionsExtend_update; reflexivity.
Qed.

(** Closes a goal [Extends st st'] at the end of a branch of a handler. *)
Ltac ext_done :=
  cbn [snd]; first [apply Extends_refl | extends];
  eauto using UsersExtend_refl, EntriesExtend_refl, SessionsExtend_refl,
    UsersExtend_trans, UsersExtend_incLoginAttempts, UsersExtend_resetLoginAttempts,
    SessionsExtend_save, EntriesExtend_create, SessionsExtend_issueSession,
    UsersExtend_create.

Lemma optionalAuth_extends (st : Store) (now : Z) (req : Http.Request) :
  Extends st (snd (optionalAuth' st now req)).
Proof.
  unfold optionalAuth.
  destruct (negb _); [apply Extends_refl |].
  destruct (TokenBlacklist.isBlacklisted _ _ _); [apply Extends_refl |].
  destruct (verifyToken' _ _ _) as [decoded | e]; [| apply Extends_refl].
  destruct (User.findById _ _ _ _) as [[user |] us] eqn:Hf;
    apply UsersExtend_findById in Hf; [| ext_done].
  destruct (negb (User.isBlocked user) && negb (User.isLocked user now)); [| ext_done].
  destruct (match Jwt.tokenVersion decoded with Some _ => _ | None => _ end);
    [| ext_done].
  destruct (Session.findActive _ _ _) as [s |]; [| ext_done].
  destruct (negb (Session.isInactive _ _ _)); [| ext_done].
  cbn [snd Session.updateActivity]. extends; auto using EntriesExtend_refl.
  apply SessionsExtend_update; reflexivity.
Qed.

Lemma signup_extends (st : Store) (now : Z) (rnd : Entropy) (req : Http.Request) :
  Extends st (snd (signup' st now rnd req)).
Proof.
  unfold signup.
  destruct (Http.body req !! "password"); [| ext_done].
  destruct (negb _); [ext_done |].
  destruct (User_create _ _ _ _ _ _ _ _ _) as [[doc us] | e] eqn:Hc; [| ext_done].
  destruct (issueSession _ _ _ _ _ _ _ _) as [[[acc ref] ss] | e] eqn:Hi; ext_done.
Qed.

Lemma login_extends (st : Store) (now : Z) (rnd : Entropy) (req : Http.Request) :
  Extends st (snd (login' st now rnd req)).
Proof.
  unfold login.
  destruct (User.findOneByEmail _ _) as [user |]; [| ext_done].
  destruct (User.isLocked user now); [ext_done |].
  destruct (User.isBlocked user); [ext_done |].
  destruct (Http.body req !! "password"); [| ext_done].
  destruct (negb _); [ext_done |].
  destruct (issueSession _ _ _ _ _ _ _ _) as [[[acc ref] ss] | e] eqn:Hi; ext_done.
Qed.

Lemma adminLogin_extends (st : Store) (now : Z) (rnd : Entropy) (req : Http.Request) :
  Extends st (snd (adminLogin' st now rnd req)).
Proof.
  unfold adminLogin.
  destruct (User.findOneByEmail _ _) as [user |]; [| ext_done].
  destruct (negb (String.eqb _ _)); [ext_done |].
  destruct (User.isLocked user now); [ext_done |].
  destruct (User.isBlocked user); [ext_done |].
  destruct (Http.body req !! "password"); [| ext_done].
  destruct (negb _); [ext_done |].
  destruct (issueSession _ _ _ _ _ _ _ _) as [[[acc ref] ss] | e] eqn:Hi; ext_done.
Qed.

Lemma refreshToken_extends (st : Store) (now : Z) (rnd : Entropy) (req : Http.Request) :
  Extends st (snd (refreshToken' st now rnd req)).
Proof.
  unfold refreshToken.
  destruct (negb _); [ext_done |].
  destruct (TokenBlacklist.isBlacklisted _ _ _); [ext_done |].
  destruct (verifyToken' _ _ _) as [decoded | e].
  2:{ destruct (Js.includes _ _); ext_done. }
  destruct (negb _); [ext_done |].
  destruct (User.findById _ _ _ _) as [[user |] us] eqn:Hf;
    apply UsersExtend_findById in Hf; [| ext_done].
  destruct (match Jwt.tokenVersion decoded with Some _ => _ | None => _ end);
    [ext_done |].
  destruct (_ || _); [ext_done |].
  destruct (TokenBlacklist.blacklistToken _ _ _ _ _ _ _ _) as [bl | e] eqn:Hc.
  2:{ destruct (Js.includes _ _); ext_done. }
  cbn [sessions withBlacklist withUsers].
  assert (Hd : SessionsExtend (sessions st)
                 (Session.deactivateByRefreshToken (Js.str (presentedRefreshToken req))
                    (User._id user) (sessions st))).
  { apply SessionsExtend_update; reflexivity. }
  destruct (issueSession _ _ _ _ _ _ _ _) as [[[acc ref] ss] | e] eqn:Hi.
  - cbn [snd]. extends; eauto using EntriesExtend_create.
    eapply SessionsExtend_trans; [exact Hd |].
    exact (SessionsExtend_issueSession _ _ _ _ _ _ _ _ Hi).
  - destruct (Js.includes _ _); cbn [snd]; extends; eauto using EntriesExtend_create.
Qed.

Lemma changePassword_extends (st : Store) (now : Z) (rnd : Entropy)
    (req : Http.Request) :
  Extends st (snd (changePassword' st now rnd req)).
Proof.
  unfold changePassword.
  destruct (negb _ || negb _); [ext_done |].
  destruct (Http.user req); [| ext_done].
  destruct (User.findById _ _ _ _) as [[user |] us] eqn:Hf;
    [pose proof (findById_stored _ _ _ _ _ _ Hf) as Hstored |];
    apply UsersExtend_findById in Hf; [| ext_done].
  destruct (negb (bcrypt_compare _ _)); [ext_done |].
  destruct (negb (PasswordValidator.isValid _)); [ext_done |].
  destruct (User_savePassword _ _ _ _ _ _) as [us' | e] eqn:Hs; [| ext_done].
  apply (UsersExtend_savePassword _ _ _ _ _ _ Hstored) in Hs.
  cbn [sessions blacklist withUsers].
  destruct (Extends_invalidateAll (User._id user) "password_change" now (sessions st)
              (blacklist st)) as [H1 H2].
  destruct (Session.invalidateAllUserSessions _ _ _ _ _) as [[ss bl] [n | e]];
    cbn [fst snd] in *; ext_done.
Qed.

Lemma logout_extends (st : Store) (now : Z) (req : Http.Request) :
  Extends st (snd (logout' st now req)).
Proof.
  unfold logout.
  destruct (negb _); [ext_done |].
  destruct (verifyToken' _ _ _) as [decoded | e]; [| ext_done].
  destruct (Http.user req) as [u |]; [| ext_done].
  destruct (TokenBlacklist.blacklistToken _ _ _ "logout" _ _ _ _) as [bl | e] eqn:Hc;
    [| ext_done].
  destruct (Http.session req) as [s |]; [| ext_done].
  unfold Session.invalidate. cbn [sessions blacklist withBlacklist].
  destruct (TokenBlacklist.blacklistToken _ _ _ "logout" _ _ _ bl) as [bl2 | e] eqn:Hc2.
  - cbn [snd]. extends; auto using SessionsExtend_save, UsersExtend_refl.
    eapply EntriesExtend_trans; eapply EntriesExtend_create; eassumption.
  - ext_done.
Qed.

Lemma logoutAll_extends (st : Store) (now : Z) (req : Http.Request) :
  Extends st (snd (logoutAll st now req)).
Proof.
  unfold logoutAll.
  destruct (Http.user req) as [u |]; [| ext_done].
  destruct (Extends_invalidateAll (User._id u) "logout_all" now (sessions st)
              (blacklist st)) as [H1 H2].
  destruct (Session.invalidateAllUserSessions _ _ _ _ _) as [[ss bl] [n | e]];
    cbn [fst snd] in *; ext_done.
Qed.

Lemma getCurrentUser_extends (st : Store) (now : Z) (req : Http.Request) :
  Extends st (snd (getCurrentUser st now req)).
Proof.
  unfold getCurrentUser.
  destruct (Http.user req) as [u |]; [| ext_done].
  destruct (User.findById _ _ _ _) as [[user |] us] eqn:Hf;
    apply UsersExtend_findById in Hf; ext_done.
Qed.

Lemma updateProfile_extends (st : Store) (now : Z) (req : Http.Request) :
  Extends st (snd (updateProfile st now req)).
Proof.
  unfold updateProfile.
  destruct (Http.user req) as [u |]; [| ext_done].
  destruct (User.findById _ _ _ _) as [[user |] us] eqn:Hf;
    apply UsersExtend_findById in Hf; [| ext_done].
  destruct (_ ++ _); [| ext_done].
  cbn [users withUsers].
  destruct (existsb _ us) eqn:Hfree; [ext_done |].
  cbn [snd]. extends; auto using EntriesExtend_refl, SessionsExtend_refl.
  eapply UsersExtend_trans; [exact Hf |].
  unfold User.findByIdAndUpdate.
  refine (UsersExtend_update_email _ _ _ _ _ _ Hfree); [| reflexivity].
  intros d. repeat split; cbn; lia.
Qed.

Lemma getActiveSessions_extends (st : Store) (now : Z) (req : Http.Request) :
  Extends st (snd (getActiveSessions st now req)).
Proof. unfold getActiveSessions. destruct (Http.user req); ext_done. Qed.

Lemma protected_extends (h : Store -> Z -> Http.Request -> Http.Outcome * Store)
    (st : Store) (nowAuth now : Z) (req : Http.Request) :
  (forall st now req, Extends st (snd (h st now req))) ->
  Extends st (snd (protected jwt_decode SESSION_TIMEOUT_MINUTES h st nowAuth now req)).
Proof.
  intros Hh. unfold protected.
  pose proof (requireSignIn_extends st nowAuth req) as Hr.
  destruct (requireSignIn' st nowAuth req) as [[] st1]; try exact Hr.
  eapply Extends_trans; [exact Hr | apply Hh].
Qed.

Lemma handle_extends (st : Store) (c : Call) : Extends st (snd (handle' st c)).
Proof.
  destruct c; cbn [handle].
  - apply signup_extends.
  - apply login_extends.
  - apply adminLogin_extends.
  - apply refreshToken_extends.
  - apply (protected_extends getCurrentUser). intros. apply getCurrentUser_extends.
  - apply (protected_extends updateProfile). intros. apply updateProfile_extends.
  - apply (protected_extends (fun st now req => changePassword' st now rnd req)).
    intros. apply changePassword_extends.
  - apply (protected_extends logout'). intros. apply logout_extends.
  - apply (protected_extends logoutAll). intros. apply logoutAll_extends.
  - apply (protected_extends getActiveSessions). intros. apply getActiveSessions_extends.
  - apply requireSignIn_extends.
  - apply optionalAuth_extends.
Qed.

Lemma serve_extends (calls : list Call) :
  forall st, Extends st (snd (serve handle' st calls)).
Proof.
  induction calls as [| c calls IH]; intros st; cbn [serve]; [apply Extends_refl |].
  pose proof (handle_extends st c) as Hc.
  destruct (handle' st c) as [o st1]. specialize (IH st1).
  destruct (serve handle' st1 calls) as [os st2]. cbn [snd] in *.
  eapply Extends_trans; eassumption.
Qed.

(** X25. No call of the routes of [routes/Auth.js] (signup, login, admin
    login, refresh, the current user, the profile update, the password
    change, logout, logout of all devices, the active sessions), of request
    authentication or of optional authentication, in any order and number,
    deletes a user, a blacklist entry or a session, changes the [_id] or
    the role of a user, lowers the token version of a user, changes the
    [_id], the token or the expiry of a session, or rewrites a blacklist
    entry; every user added has the role [user]; the posts are untouched;
    and the unique indexes that held before hold after: each one by
    itself, but for the one on the email of the users, which the profile
    update may rewrite and which holds after when it and the one on the
    [_id] held before. *)
Theorem calls_extend_store (st : Store) (calls : list Call) :
  Extends st (snd (serve handle' st calls)).
Proof. apply serve_extends. Qed.

(** ** Tokens of a version that is behind *)

(** A token whose version is behind the version of its stored user is not
    let through. *)
Lemma stale_token_not_let_through (st : Store) (now : Z) (req : Http.Request)
    (tok : string) (p : Jwt.Payload) (v : Z) (u : User.t) :
  extractToken req = Some tok -> jwt_decode tok = Some p ->
  Jwt.tokenVersion p = Some v ->
  List.find (User.hasId (Jwt.id p)) (users st) = Some u ->
  v < User.tokenVersion u ->
  Refused (fst (requireSignIn' st now req)).
Proof.
  intros He Hdec Hver Hu Hlt. unfold requireSignIn, Refused. rewrite He.
  destruct (negb (Js.truthy (Some tok))); [cbn; eauto |]. cbn [Js.str].
  destruct (TokenBlacklist.isBlacklisted tok now (blacklist st)); [cbn; eauto |].
  unfold verifyToken. rewrite Hdec.
  destruct (Jwt.exp p <=? now / 1000); [cbn; eauto |].
  destruct (Jwt.typeEqb (Jwt.type p) Jwt.access).
  2:{ case_ifs; cbn; eauto. }
  destruct (findById_found (Jwt.id p) (posts st) now (users st) u Hu)
    as (u' & us' & Hf & _ & _ & _ & Hv' & _).
  rewrite Hf, Hver. unfold User.isTokenVersionValid. rewrite Hv'.
  destruct (Z.eqb_spec (User.tokenVersion u) v); [lia |]. cbn [negb].
  destruct (TokenBlacklist.blacklistToken _ _ _ _ _ _ _ _); cbn; eauto.
Qed.

(** And it is not let through after any calls: no call lowers a version. *)
Lemma stale_token_after_calls (st : Store) (calls : list Call) (now : Z)
    (req : Http.Request) (tok : string) (p : Jwt.Payload) (v : Z) (u : User.t) :
  extractToken req = Some tok -> jwt_decode tok = Some p ->
  Jwt.tokenVersion p = Some v ->
  List.find (User.hasId (Jwt.id p)) (users st) = Some u ->
  v < User.tokenVersion u ->
  Refused (fst (requireSignIn' (snd (serve handle' st calls)) now req)).
Proof.
  intros He Hdec Hver Hu Hlt.
  destruct (serve_extends calls st) as (Hext & _).
  destruct (find_extended _ _ _ _ Hext Hu) as (u1 & Hu1 & _ & Hv1).
  apply (stale_token_not_let_through _ now req tok p v u1); auto. lia.
Qed.

(** X23. [blacklistAllUserTokens] revokes by the token version: it
    increments the version of the stored user, whatever the reason given,
    and from then on [requireSignIn] lets no request through that presents
    a token of that user with a version up to the old one: after any calls
    of the routes of [routes/Auth.js] and at any time, it answers 401 or
    passes what it throws to the error handler. *)
Theorem blacklistAllUserTokens_revokes (st : Store) (uid : Z) (why : string)
    (u : User.t) (tok : string) (p : Jwt.Payload) (v : Z) (calls : list Call)
    (now : Date) (req : Http.Request) :
  List.find (User.hasId uid) (users st) = Some u ->
  jwt_decode tok = Some p -> Jwt.id p = uid ->
  Jwt.tokenVersion p = Some v -> v <= User.tokenVersion u ->
  extractToken req = Some tok ->
  let st1 := withUsers (TokenBlacklist.blacklistAllUserTokens uid why (users st)) st in
  List.find (User.hasId uid) (users st1) = Some (User.incTokenVersion u)
  /\ Refused (fst (requireSignIn' (snd (serve handle' st1 calls)) now req)).
Proof.
  intros Hu Hdec Hid Hver Hle He st1.
  assert (Hf : List.find (User.hasId uid) (users st1) = Some (User.incTokenVersion u)).
  { subst st1. cbn [users withUsers].
    unfold TokenBlacklist.blacklistAllUserTokens, User.findByIdAndUpdate.
    rewrite find_updateFirst by (intros d Hd; exact Hd). now rewrite Hu. }
  split; [exact Hf |].
  apply (stale_token_after_calls st1 calls now req tok p v (User.incTokenVersion u));
    auto; [now rewrite Hid | cbn; lia].
Qed.

(** X30. A password change that answers with a response and whose new
    password is not the string stored as the password increments the
    token version of the user, and from then on [requireSignIn] lets no
    request through that presents a token of that user with a version up
    to the old one: after any calls of the routes of [routes/Auth.js] and
    at any time, it answers 401 or passes what it throws to the error
    handler. *)
Theorem changePassword_revokes_tokens (st st' : Store) (now : Date) (rnd : Entropy)
    (req : Http.Request) (reqUser user : User.t) (newPassword : string)
    (status : Z) (payload : Http.Body) (setCookies : list (string * string))
    (tok : string) (p : Jwt.Payload) (v : Z) (calls : list Call) (now' : Date)
    (req' : Http.Request) :
  changePassword' st now rnd req = (Http.Respond status payload setCookies, st') ->
  Http.user req = Some reqUser ->
  List.find (User.hasId (User._id reqUser)) (users st) = Some user ->
  Http.body req !! "newPassword" = Some newPassword ->
  newPassword <> User.password user ->
  jwt_decode tok = Some p -> Jwt.id p = User._id reqUser ->
  Jwt.tokenVersion p = Some v -> v <= User.tokenVersion user ->
  extractToken req' = Some tok ->
  (exists user',
     List.find (User.hasId (User._id reqUser)) (users st') = Some user'
     /\ User.tokenVersion user' = User.tokenVersion user + 1)
  /\ Refused (fst (requireSignIn' (snd (serve handle' st' calls)) now' req')).
Proof.
  intros Hrun Hreq Hfind Hbody Hne Hdec Hid Hver Hle He.
  destruct (changePassword_success bcrypt_hash bcrypt_compare _ _ _ _ _ _ _ _ _ _ _
              Hrun Hreq Hfind Hbody Hne) as [(user' & Hu' & Hv') _].
  split; [eauto |].
  apply (stale_token_after_calls st' calls now' req' tok p v user'); auto;
    [now rewrite Hid | lia].
Qed.

(** The user that the middleware attaches is the stored one of that [_id],
    with its role. *)
Lemma requireSignIn_role (st st' : Store) (now : Z) (req req' : Http.Request)
    (u' : User.t) :
  requireSignIn' st now req = (Http.Next req', st') -> Http.user req' = Some u' ->
  exists u, List.find (User.hasId (User._id u')) (users st) = Some u
            /\ User.role u' = User.role u.
Proof.
  unfold requireSignIn.
  destruct (negb _); [discriminate |].
  destruct (TokenBlacklist.isBlacklisted _ _ _); [discriminate |].
  destruct (verifyToken' _ _ _) as [decoded | e].
  2:{ case_ifs; discriminate. }
  destruct (User.findById _ _ _ _) as [[user |] us] eqn:Hf; [| discriminate].
  assert (Hid : User._id user = Jwt.id decoded).
  { unfold User.findById in Hf. injection Hf as Hf _.
    apply List.find_some in Hf as [_ Hf]. now apply Z.eqb_eq in Hf. }
  apply findById_role in Hf. rewrite <- Hid in Hf.
  destruct (match Jwt.tokenVersion decoded with Some _ => _ | None => _ end).
  { destruct (TokenBlacklist.blacklistToken _ _ _ _ _ _ _ _); discriminate. }
  destruct (User.isBlocked user); [discriminate |].
  destruct (User.isLocked user now); [discriminate |].
  destruct (Session.findActive _ _ _) as [s |].
  - destruct (Session.isInactive _ _ _).
    + destruct (Session.invalidate _ _ _ _ _) as [ss [bl | e]]; discriminate.
    + cbn. intros [= <- <-]. cbn. intros [= <-]. exact Hf.
  - intros [= <- <-]. cbn. intros [= <-]. exact Hf.
Qed.

(** X27. No sequence of calls of the routes of [routes/Auth.js], the
    profile update included, makes an administrator of an account: a user
    who is stored without the role [admin] and authenticates after the
    calls is refused with 403 by [alowedTo] of [admin], the guard of the
    admin routes. *)
Theorem no_call_makes_an_admin (st : Store) (u : User.t) (calls : list Call)
    (now : Date) (req req' : Http.Request) (st' : Store) (u' : User.t) :
  List.find (User.hasId (User._id u')) (users st) = Some u ->
  User.role u <> "admin" ->
  requireSignIn' (snd (serve handle' st calls)) now req = (Http.Next req', st') ->
  Http.user req' = Some u' ->
  alowedTo ["admin"] req'
  = Http.NextError "You are not allowed to access this route" 403.
Proof.
  intros Hu Hrole Hrun Hreq.
  destruct (serve_extends calls st) as (Hext & _).
  destruct (find_extended _ _ _ _ Hext Hu) as (u1 & Hu1 & Hr1 & _).
  destruct (requireSignIn_role _ _ _ _ _ _ Hrun Hreq) as (u2 & Hu2 & Hr2).
  assert (u2 = u1) by congruence. subst u2.
  unfold alowedTo. rewrite Hreq. cbn [existsb]. rewrite Hr2, Hr1.
  destruct (String.eqb_spec (User.role u) "admin"); [contradiction | reflexivity].
Qed.

(** X28. Who has signed up can log in.  After a signup that answers with a
    response, the user is stored under the email of the request with the
    hash of the password of the request, and a login with that email and
    password, on the store the signup left, answers 200 whenever the new
    session can be issued, the hash function and the comparison of bcrypt
    agreeing on that password. *)
Theorem signup_then_login (st st1 : Store) (now : Date) (rnd : Entropy)
    (req : Http.Request) (status : Z) (payload : Http.Body)
    (setCookies : list (string * string)) (e pw : string) :
  signup' st now rnd req = (Http.Respond status payload setCookies, st1) ->
  Http.body req !! "email" = Some e -> Http.body req !! "password" = Some pw ->
  bcrypt_compare pw (bcrypt_hash pw (salt rnd)) = true ->
  exists user,
    User.findOneByEmail (Some e) (users st1) = Some user
    /\ User.password user = bcrypt_hash pw (salt rnd)
    /\ forall now' rnd' req',
         Http.body req' !! "email" = Some e -> Http.body req' !! "password" = Some pw ->
         Issuable jwt_sign JWT_EXPIRES_IN JWT_REFRESH_EXPIRES_IN user req' now' rnd'
           (sessions st1) ->
         exists payload' setCookies' st2,
           login' st1 now' rnd' req' = (Http.Respond 200 payload' setCookies', st2).
Proof.
  unfold signup. intros Hrun He Hpw Hcmp. rewrite He, Hpw in Hrun.
  destruct (negb _); [discriminate |].
  destruct (User_create _ _ _ _ _ _ _ _ _) as [[doc us] | ex] eqn:Hc; [| discriminate].
  destruct (issueSession _ _ _ _ _ _ _ _) as [[[acc ref] ss] | ex] eqn:Hi; [| discriminate].
  injection Hrun as _ _ _ <-.
  unfold User_create in Hc. cbn [option_map Js.str] in Hc.
  destruct (_ ++ _); [| discriminate].
  destruct (existsb _ (users st)) eqn:Hdup; [discriminate |].
  injection Hc as <- <-.
  eexists. split.
  { cbn [users withSessions withUsers User.findOneByEmail].
    apply find_app_last; [exact Hdup | apply String.eqb_refl]. }
  split; [reflexivity |].
  - intros now' rnd' req' He' Hpw' Hissue.
    destruct (issueSession_ok jwt_sign JWT_EXPIRES_IN JWT_REFRESH_EXPIRES_IN _ _ _ _ _ Hissue)
      as (a & r & ss' & Hok).
    unfold login. rewrite He', Hpw'.
    cbn [users withSessions withUsers User.findOneByEmail].
    rewrite find_app_last; [| exact Hdup | apply String.eqb_refl].
    cbn [User.isLocked User.lockUntil User.isBlocked User.password].
    rewrite Hcmp. cbn [negb sessions withUsers withSessions] in *. rewrite Hok. eauto.
Qed.

(** ** Records that do not expire before their token, along calls *)

Section Coherence.

(** The codec is sound: what decodes from a signed payload is that
    payload. *)
Hypothesis codec : forall q p, jwt_decode (jwt_sign q) = Some p -> p = q.

Lemma adminLogin_coherent (st : Store) (now : Z) (rnd : Entropy) (req : Http.Request) :
  (now + lagAccess rnd) / 1000 <= now / 1000 ->
  Coherent jwt_decode st -> Coherent jwt_decode (snd (adminLogin' st now rnd req)).
Proof.
  intros Hlag Hc. unfold adminLogin.
  destruct (User.findOneByEmail _ _) as [user |]; [| exact Hc].
  destruct (negb (String.eqb _ _)); [exact Hc |].
  destruct (User.isLocked user now); [exact Hc |].
  destruct (User.isBlocked user); [exact Hc |].
  destruct (Http.body req !! "password"); [| exact Hc].
  destruct (negb _); [exact Hc |].
  destruct (issueSession _ _ _ _ _ _ _ _) as [[[acc ref] ss] | e] eqn:Hi; [| exact Hc].
  destruct Hc as [Hbl Hss]. split; [exact Hbl |].
  exact (issueSession_coherent jwt_sign jwt_decode JWT_EXPIRES_IN JWT_REFRESH_EXPIRES_IN
           _ _ _ _ _ _ _ _ codec Hlag Hss Hi).
Qed.

Lemma optionalAuth_coherent (st : Store) (now : Z) (req : Http.Request) :
  Coherent jwt_decode st -> Coherent jwt_decode (snd (optionalAuth' st now req)).
Proof.
  intros Hc. unfold optionalAuth.
  destruct (negb _); [exact Hc |].
  destruct (TokenBlacklist.isBlacklisted _ _ _); [exact Hc |].
  destruct (verifyToken' _ _ _) as [decoded | e]; [| exact Hc].
  destruct (User.findById _ _ _ _) as [[user |] us]; [| exact Hc].
  destruct (negb (User.isBlocked user) && negb (User.isLocked user now)); [| exact Hc].
  destruct (match Jwt.tokenVersion decoded with Some _ => _ | None => _ end);
    [| exact Hc].
  destruct (Session.findActive _ _ _) as [s |]; [| exact Hc].
  destruct (negb (Session.isInactive _ _ _)); [| exact Hc].
  destruct Hc as [Hbl Hss]. split; [exact Hbl |].
  cbn [snd sessions withSessions Session.updateActivity].
  apply Forall_updateFirst; [| exact Hss]. intros x Hx. exact Hx.
Qed.

Lemma getCurrentUser_coherent (st : Store) (now : Z) (req : Http.Request) :
  Coherent jwt_decode st -> Coherent jwt_decode (snd (getCurrentUser st now req)).
Proof.
  intros Hc. unfold getCurrentUser.
  destruct (Http.user req); [| exact Hc].
  destruct (User.findById _ _ _ _) as [[user |] us]; exact Hc.
Qed.

Lemma updateProfile_coherent (st : Store) (now : Z) (req : Http.Request) :
  Coherent jwt_decode st -> Coherent jwt_decode (snd (updateProfile st now req)).
Proof.
  intros Hc. unfold updateProfile.
  destruct (Http.user req); [| exact Hc].
  destruct (User.findById _ _ _ _) as [[user |] us]; [| exact Hc].
  destruct (_ ++ _); [| exact Hc].
  destruct (existsb _ _); exact Hc.
Qed.

Lemma getActiveSessions_coherent (st : Store) (now : Z) (req : Http.Request) :
  Coherent jwt_decode st -> Coherent jwt_decode (snd (getActiveSessions st now req)).
Proof. intros Hc. unfold getActiveSessions. destruct (Http.user req); exact Hc. Qed.

Lemma logoutAll_coherent (st : Store) (now : Z) (req : Http.Request) :
  Coherent jwt_decode st -> Coherent jwt_decode (snd (logoutAll st now req)).
Proof.
  intros Hc. unfold logoutAll.
  destruct (Http.user req) as [u |]; [| exact Hc].
  destruct Hc as [Hbl Hss]. unfold Session.invalidateAllUserSessions.
  assert (Hfound : Forall (SessionOk jwt_decode)
            (List.filter (fun s => (Session.userId s =? User._id u) && Session.isActive s)
               (sessions st))).
  { rewrite List.Forall_forall in *. intros x Hx.
    apply List.filter_In in Hx as [Hx _]. auto. }
  destruct (invalidateEach_coherent jwt_decode _ (User._id u) "logout_all" now
              Hfound (sessions st) (blacklist st) Hss Hbl) as [H1 H2].
  destruct (Session.invalidateEach _ _ _ _ _ _) as [[ss bl] [e |]]; now split.
Qed.

(** The session that the middleware attaches is a stored one, touched. *)
Lemma requireSignIn_session (st st' : Store) (now : Z) (req req' : Http.Request)
    (s : Session.t) :
  requireSignIn' st now req = (Http.Next req', st') ->
  Http.session req' = Some s ->
  exists s0, In s0 (sessions st) /\ s = Session.setLastActivity now s0.
Proof.
  unfold requireSignIn.
  destruct (negb _); [discriminate |].
  destruct (TokenBlacklist.isBlacklisted _ _ _); [discriminate |].
  destruct (verifyToken' _ _ _) as [decoded | e].
  2:{ case_ifs; discriminate. }
  destruct (User.findById _ _ _ _) as [[user |] us]; [| discriminate].
  destruct (match Jwt.tokenVersion decoded with Some _ => _ | None => _ end).
  { destruct (TokenBlacklist.blacklistToken _ _ _ _ _ _ _ _); discriminate. }
  destruct (User.isBlocked user); [discriminate |].
  destruct (User.isLocked user now); [discriminate |].
  destruct (Session.findActive _ _ _) as [s0 |] eqn:Hs.
  - destruct (Session.isInactive _ _ _).
    + destruct (Session.invalidate _ _ _ _ _) as [ss [bl | e]]; discriminate.
    + cbn. intros [= <- <-]. cbn. intros [= <-]. exists s0. split; [| reflexivity].
      unfold Session.findActive in Hs. now apply List.find_some in Hs as [Hin _].
  - intros [= <- <-]. discriminate.
Qed.

Lemma protected_coherent (h : Store -> Z -> Http.Request -> Http.Outcome * Store)
    (st : Store) (nowAuth now : Z) (req : Http.Request) :
  (forall st now req,
     Coherent jwt_decode st ->
     (forall s, Http.session req = Some s -> SessionOk jwt_decode s) ->
     Coherent jwt_decode (snd (h st now req))) ->
  Coherent jwt_decode st ->
  Coherent jwt_decode
    (snd (protected jwt_decode SESSION_TIMEOUT_MINUTES h st nowAuth now req)).
Proof.
  intros Hh Hc. unfold protected.
  pose proof (requireSignIn_coherent jwt_decode SESSION_TIMEOUT_MINUTES st nowAuth req Hc)
    as Hr.
  destruct (requireSignIn' st nowAuth req) as [[| | | req'] st1] eqn:Hrun; try exact Hr.
  apply Hh; [exact Hr |].
  intros s Hs. destruct (requireSignIn_session _ _ _ _ _ _ Hrun Hs) as (s0 & Hin & ->).
  destruct Hc as [_ Hss]. rewrite List.Forall_forall in Hss. exact (Hss s0 Hin).
Qed.

Lemma handle_coherent (st : Store) (c : Call) :
  SignsInSecond c ->
  Coherent jwt_decode st -> Coherent jwt_decode (snd (handle' st c)).
Proof.
  intros Hlag Hc. destruct c; cbn [handle]; cbn [SignsInSecond] in Hlag.
  - now apply signup_coherent.
  - now apply login_coherent.
  - now apply adminLogin_coherent.
  - now apply refreshToken_coherent.
  - apply (protected_coherent getCurrentUser); [| exact Hc].
    intros. now apply getCurrentUser_coherent.
  - apply (protected_coherent updateProfile); [| exact Hc].
    intros. now apply updateProfile_coherent.
  - apply (protected_coherent (fun st now req => changePassword' st now rnd req));
      [| exact Hc].
    intros. now apply changePassword_coherent.
  - apply (protected_coherent logout'); [| exact Hc].
    intros. now apply logout_coherent.
  - apply (protected_coherent logoutAll); [| exact Hc].
    intros. now apply logoutAll_coherent.
  - apply (protected_coherent getActiveSessions); [| exact Hc].
    intros. now apply getActiveSessions_coherent.
  - now apply requireSignIn_coherent.
  - now apply optionalAuth_coherent.
Qed.

Lemma serve_coherent (calls : list Call) :
  Forall SignsInSecond calls ->
  forall st, Coherent jwt_decode st -> Coherent jwt_decode (snd (serve handle' st calls)).
Proof.
  induction 1 as [| c calls Hlag _ IH]; intros st Hc; cbn [serve]; [exact Hc |].
  pose proof (handle_coherent st c Hlag Hc) as H1.
  destruct (handle' st c) as [o st1]. specialize (IH st1 H1).
  now destruct (serve handle' st1 calls) as [os st2].
Qed.

(** X24. Under a sound codec, the calls of the routes of [routes/Auth.js],
    of request authentication and of optional authentication, in any order
    and number, keep the records coherent with the tokens, as long as
    every signup and login signs its access token no later than in the
    second of the clock reading from which the expiry time of the session
    counts: if no session and no blacklist entry of the store expires
    before the token it carries, none does after the calls. *)
Theorem calls_keep_records_coherent (st : Store) (calls : list Call) :
  Forall SignsInSecond calls ->
  Coherent jwt_decode st -> Coherent jwt_decode (snd (serve handle' st calls)).
Proof. intros Hlag. now apply serve_coherent. Qed.

End Coherence.

(** X26. Once revoked, never accepted again.  A token with a blacklist
    entry that does not expire before the token does is answered 401 by
    [requireSignIn] at any time and after any calls of the routes of
    [routes/Auth.js], and that request writes nothing: no call deletes or
    rewrites the entry, and while the entry counts the token is refused as
    revoked, after that as expired. *)
Theorem revoked_token_never_authenticates (st : Store) (tok : string)
    (b : TokenBlacklist.t) (calls : list Call) (now : Date) (req : Http.Request) :
  In b (blacklist st) -> TokenBlacklist.token b = tok ->
  (forall p, jwt_decode tok = Some p ->
             Jwt.exp p * 1000 <= TokenBlacklist.expiresAt b) ->
  extractToken req = Some tok ->
  exists m,
    requireSignIn' (snd (serve handle' st calls)) now req
    = (Http.NextError m 401, snd (serve handle' st calls)).
Proof.
  intros Hin Ht Hexp He.
  destruct (serve_extends calls st) as (_ & (new & Hnew & _) & _).
  set (st' := snd (serve handle' st calls)) in *.
  assert (Hin' : In b (blacklist st')) by (rewrite Hnew; apply in_or_app; now left).
  unfold requireSignIn. rewrite He.
  destruct (negb (Js.truthy (Some tok))); [eauto |]. cbn [Js.str].
  destruct (TokenBlacklist.isBlacklisted tok now (blacklist st')) eqn:Hb'; [eauto |].
  unfold verifyToken.
  destruct (jwt_decode tok) as [p |] eqn:Hdec; [| cbn; eauto].
  destruct (Z.leb_spec (Jwt.exp p) (now / 1000)); [cbn; eauto |].
  exfalso. specialize (Hexp p eq_refl).
  rewrite (isBlacklisted_of_entry tok now b (blacklist st')) in Hb'; auto;
    [discriminate |].
  pose proof (Z.div_mod now 1000). pose proof (Z.mod_pos_bound now 1000). lia.
Qed.

End MoreProperties.

(** * The further properties at concrete inputs *)

(** The codec of the table is sound. *)
Lemma sameOption_eq {A : Type} (eqb : A -> A -> bool) (a b : option A) :
  (forall x y, eqb x y = true -> x = y) -> Demo.sameOption eqb a b = true -> a = b.
Proof.
  intros Heq. destruct a as [x |], b as [y |]; cbn; try discriminate; [| reflexivity].
  intros H. f_equal. now apply Heq.
Qed.

Lemma samePayload_eq (p q : Jwt.Payload) : Demo.samePayload p q = true -> p = q.
Proof.
  destruct p as [i1 t1 v1 j1 a1 e1 ip1 ua1], q as [i2 t2 v2 j2 a2 e2 ip2 ua2].
  unfold Demo.samePayload. cbn. intros H.
  repeat (apply andb_prop in H as [H ?]).
  apply Z.eqb_eq in H as ->.
  repeat match goal with
         | H : (_ =? _) = true |- _ => apply Z.eqb_eq in H as ->
         | H : String.eqb _ _ = true |- _ => apply String.eqb_eq in H as ->
         | H : Demo.sameOption Z.eqb _ _ = true |- _ =>
             apply sameOption_eq in H as ->; [| intros x y; apply Z.eqb_eq]
         | H : Demo.sameOption String.eqb _ _ = true |- _ =>
             apply sameOption_eq in H as ->; [| intros x y; apply String.eqb_eq]
         end.
  destruct t1, t2; try discriminate; reflexivity.
Qed.

Lemma decode_sign (q p : Jwt.Payload) : Demo.decode (Demo.sign q) = Some p -> p = q.
Proof.
  unfold Demo.sign, Demo.tokenTable. cbn [List.find snd fst].
  repeat match goal with
         | |- context [Demo.samePayload ?e q] =>
             let E := fresh "E" in
             destruct (Demo.samePayload e q) eqn:E;
               [apply samePayload_eq in E; subst q; vm_compute; congruence |]
         end.
  vm_compute. intros Hd. discriminate Hd.
Qed.

Lemma store0_coherent : Coherent Demo.decode Demo.store0.
Proof.
  split; [constructor |]. constructor; [| constructor].
  intros p Hp. vm_compute in Hp. injection Hp as <-. vm_compute. discriminate.
Qed.

(** X1 at a concrete input: the password of Bob. *)
Lemma valid_password_rated_moderate_witness :
  56 <= PasswordValidator.score
          (PasswordValidator.calculatePasswordStrength (Some "C0rrect!Horse"))
  /\ In (PasswordValidator.strength
           (PasswordValidator.calculatePasswordStrength (Some "C0rrect!Horse")))
        ["Moderate"; "Strong"; "Very Strong"].
Proof.
  apply (valid_password_rated_moderate "C0rrect!Horse"). vm_compute. reflexivity.
Defined.

(** X4 at a concrete input: the password of Bob has no line terminator. *)
Lemma lookaheads_single_line_witness :
  Js.testAt PasswordValidator.allClassesAhead "C0rrect!Horse"
  = Js.test Js.isLower "C0rrect!Horse" && Js.test Js.isUpper "C0rrect!Horse"
    && Js.test Js.isDigit "C0rrect!Horse" && Js.test Js.isOther "C0rrect!Horse".
Proof.
  apply (lookaheads_single_line "C0rrect!Horse"). vm_compute. reflexivity.
Defined.

(** X5 at a concrete input: fifteen minutes. *)
Lemma parseExpiration_round_trip_witness :
  Jwt.parseExpiration (Js.ofZ 15 +:+ String "m" EmptyString) = Ok (15 * 60000).
Proof.
  apply (parseExpiration_round_trip 15 60000 "m"); [lia | reflexivity | lia].
Defined.

(** X6 at concrete inputs: an access token for Alice, with the default
    life time of two hours.  Signed 400 milliseconds after the first clock
    reading, in the same second, its [exp] is the expiry time returned;
    signed a millisecond after a first reading at the end of a second, its
    [exp] is later than the expiry time returned. *)
Lemma token_expiry_agrees_witness :
  (exists p : Jwt.Payload,
     "jwt.access.a2" = Demo.jwt_sign p
     /\ Jwt.iat p = 3000600
     /\ Jwt.exp p * 1000 <= 3007800000 < Jwt.exp p * 1000 + 1000)
  /\ (exists p : Jwt.Payload,
        "jwt.access.a2" = Demo.jwt_sign p
        /\ Jwt.iat p = 3000601
        /\ 3007800999 < Jwt.exp p * 1000).
Proof.
  split.
  - destruct (token_expiry_agrees Demo.jwt_sign None None Jwt.access 1 0
                (getClientMetadata Demo.accessRequest) Demo.now (Demo.now + 400) "a2"
                "jwt.access.a2" 3007800000)
      as (p & H1 & _ & _ & _ & _ & H6 & _ & _ & _ & Hsame & _).
    + left. split; [reflexivity | vm_compute; reflexivity].
    + exists p. split; [exact H1 |]. split; [exact H6 | exact (Hsame eq_refl)].
  - destruct (token_expiry_agrees Demo.jwt_sign None None Jwt.access 1 0
                (getClientMetadata Demo.accessRequest) (Demo.now + 999)
                (Demo.now + 1000) "a2" "jwt.access.a2" 3007800999)
      as (p & H1 & _ & _ & _ & _ & H6 & _ & _ & _ & _ & Hlater).
    + left. split; [reflexivity | vm_compute; reflexivity].
    + exists p. split; [exact H1 |]. split; [exact H6 | exact (Hlater eq_refl)].
Defined.

(** X7 at a concrete input: Alice's access token in a Bearer header. *)
Lemma extractToken_bearer_witness :
  extractToken Demo.bearerRequest = Some "jwt.access.a1".
Proof.
  apply (extractToken_bearer Demo.bearerRequest "jwt.access.a1");
    vm_compute; reflexivity.
Defined.

(** X8 at a concrete input: Alice's refresh token in the cookie of the
    access token. *)
Lemma requireSignIn_refuses_refresh_token_witness :
  exists m,
    requireSignIn Demo.jwt_decode 120 Demo.store0 Demo.now Demo.refreshAsAccess
    = (Http.NextError m 401, Demo.store0).
Proof.
  apply (requireSignIn_refuses_refresh_token Demo.jwt_decode 120 Demo.store0 Demo.now
           Demo.refreshAsAccess "jwt.refresh.r1" Demo.refreshA);
    [vm_compute; reflexivity | reflexivity | reflexivity].
Defined.

(** X9 at a concrete input: Alice's access token in the cookie of the
    refresh token. *)
Lemma refreshToken_refuses_access_token_witness :
  exists m,
    refreshToken Demo.jwt_sign Demo.jwt_decode None None Demo.store0 Demo.now Demo.rnd
      Demo.accessAsRefresh
    = (Http.NextError m 401, Demo.store0).
Proof.
  apply (refreshToken_refuses_access_token Demo.jwt_sign Demo.jwt_decode None None
           Demo.store0 Demo.now Demo.rnd Demo.accessAsRefresh "jwt.access.a1"
           Demo.accessA);
    [vm_compute; reflexivity | discriminate | reflexivity | reflexivity].
Defined.

(** X12 at a concrete input: Alice's access token, with her session. *)
Lemma optionalAuth_agrees_with_requireSignIn_witness :
  optionalAuth Demo.jwt_decode 120 Demo.store0 Demo.now Demo.accessRequest
  = (Http.Next Demo.authenticatedRequest, Demo.storeTouched).
Proof.
  apply (optionalAuth_agrees_with_requireSignIn Demo.jwt_decode 120 Demo.store0
           Demo.storeTouched Demo.now Demo.accessRequest Demo.authenticatedRequest);
    [vm_compute; reflexivity | reflexivity].
Defined.

(** X13 at a concrete input: the user that optional authentication
    attaches to Alice's request is Alice, fully authenticated. *)
Lemma optionalAuth_attaches_authenticated_witness :
  exists tok p,
    extractToken Demo.accessRequest = Some tok /\ tok <> EmptyString
    /\ Http.token Demo.authenticatedRequest = Some tok
    /\ TokenBlacklist.isBlacklisted tok Demo.now (blacklist Demo.store0) = false
    /\ Demo.jwt_decode tok = Some p /\ Demo.now / 1000 < Jwt.exp p
    /\ Jwt.type p = Jwt.access
    /\ User._id Demo.alice = Jwt.id p /\ In Demo.alice (users Demo.storeTouched)
    /\ (forall v, Jwt.tokenVersion p = Some v -> User.tokenVersion Demo.alice = v)
    /\ User.isBlocked Demo.alice = false /\ User.isLocked Demo.alice Demo.now = false.
Proof.
  apply (optionalAuth_attaches_authenticated Demo.jwt_decode 120 Demo.store0
           Demo.storeTouched Demo.now Demo.accessRequest Demo.authenticatedRequest
           Demo.alice);
    [vm_compute; reflexivity | reflexivity | reflexivity].
Defined.

(** X14 at a concrete input: under a timeout of five minutes the session of
    Alice, idle for ten, does not keep optional authentication from
    attaching her. *)
Lemma optionalAuth_ignores_idle_session_witness :
  optionalAuth Demo.jwt_decode Demo.shortTimeout Demo.store0 Demo.now Demo.accessRequest
  = (Http.Next
       (Http.attach Demo.accessRequest Demo.alice "jwt.access.a1"
          (Http.session Demo.accessRequest)),
     withUsers [Demo.alice] Demo.store0).
Proof.
  apply (optionalAuth_ignores_idle_session Demo.jwt_decode Demo.shortTimeout Demo.store0
           Demo.now Demo.accessRequest "jwt.access.a1" Demo.accessA Demo.alice
           [Demo.alice] Demo.sessionA).
  - vm_compute. reflexivity.
  - discriminate.
  - reflexivity.
  - reflexivity.
  - reflexivity.
  - intros v [= <-]. reflexivity.
  - reflexivity.
  - reflexivity.
  - reflexivity.
  - reflexivity.
Defined.

(** X15 at a concrete input: Alice, a user, at a route of the
    administrators. *)
Lemma alowedTo_after_requireSignIn_witness :
  exists u,
    Http.user Demo.authenticatedRequest = Some u /\ In u (users Demo.storeTouched)
    /\ alowedTo ["admin"] Demo.authenticatedRequest
       = if existsb (String.eqb (User.role u)) ["admin"]
         then Http.Next Demo.authenticatedRequest
         else Http.NextError "You are not allowed to access this route" 403.
Proof.
  apply (alowedTo_after_requireSignIn Demo.jwt_decode 120 Demo.store0 Demo.storeTouched
           Demo.now Demo.accessRequest Demo.authenticatedRequest ["admin"]).
  vm_compute. reflexivity.
Defined.

(** X16 at a concrete input: Alice, authenticated. *)
Lemma isBlocked_after_requireSignIn_witness :
  isBlocked Demo.authenticatedRequest = Http.Next Demo.authenticatedRequest.
Proof.
  apply (isBlocked_after_requireSignIn Demo.jwt_decode 120 Demo.store0
           Demo.storeTouched Demo.now Demo.accessRequest Demo.authenticatedRequest).
  vm_compute. reflexivity.
Defined.

(** X18 at a concrete input: Alice, authenticated with her one session,
    logs out of all devices and gets 500. *)
Lemma logoutAll_outcome_witness :
  logoutAll Demo.storeTouched Demo.now Demo.authenticatedRequest
  = (Http.NextError msgLogoutAllFailed 500,
     withSessions
       (Session.save (Session.setLastActivity Demo.now Demo.sessionA)
          (Session.setIsActive false) (sessions Demo.storeTouched))
       Demo.storeTouched).
Proof.
  destruct (logoutAll_outcome Demo.storeTouched Demo.now Demo.authenticatedRequest
              Demo.alice) as [_ H].
  - reflexivity.
  - constructor; [discriminate | constructor].
  - apply (H (Session.setLastActivity Demo.now Demo.sessionA) []). reflexivity.
Defined.

(** X19 at a concrete input: under a timeout of five minutes, the request
    of Alice whose session has been idle for ten. *)
Lemma inactivity_timeout_throws_witness :
  requireSignIn Demo.jwt_decode Demo.shortTimeout Demo.store0 Demo.now
    Demo.accessRequest
  = (Http.NextThrown
       (ValidationError "TokenBlacklist"
          [("reason",
            "`inactivity_timeout` is not a valid enum value for path `reason`.")]),
     withSessions
       (Session.save Demo.sessionA (Session.setIsActive false) (sessions Demo.store0))
       (withUsers [Demo.alice] Demo.store0)).
Proof.
  apply (inactivity_timeout_throws Demo.jwt_decode Demo.shortTimeout Demo.store0
           Demo.now Demo.accessRequest "jwt.access.a1" Demo.accessA Demo.alice
           [Demo.alice] Demo.sessionA).
  - vm_compute. reflexivity.
  - discriminate.
  - reflexivity.
  - reflexivity.
  - reflexivity.
  - intros v [= <-]. reflexivity.
  - reflexivity.
  - reflexivity.
  - reflexivity.
  - reflexivity.
Defined.

(** X20 at a concrete input: the same request of Alice a second later is
    let through. *)
Lemma inactivity_timeout_refuses_once_witness :
  requireSignIn Demo.jwt_decode Demo.shortTimeout
    (withSessions
       (Session.save Demo.sessionA (Session.setIsActive false) (sessions Demo.store0))
       (withUsers [Demo.alice] Demo.store0))
    (Demo.now + 1000) Demo.accessRequest
  = (Http.Next (Http.attach Demo.accessRequest Demo.alice "jwt.access.a1" None),
     withUsers [Demo.alice]
       (withSessions
          (Session.save Demo.sessionA (Session.setIsActive false)
             (sessions Demo.store0))
          (withUsers [Demo.alice] Demo.store0))).
Proof.
  apply (inactivity_timeout_refuses_once Demo.jwt_decode Demo.shortTimeout Demo.store0
           Demo.now (Demo.now + 1000) Demo.accessRequest "jwt.access.a1" Demo.accessA
           Demo.alice Demo.alice [Demo.alice] [Demo.alice] Demo.sessionA).
  - apply List.NoDup_cons; [intros [] | apply List.NoDup_nil].
  - apply List.NoDup_cons; [intros [] | apply List.NoDup_nil].
  - vm_compute. reflexivity.
  - discriminate.
  - reflexivity.
  - reflexivity.
  - reflexivity.
  - reflexivity.
  - vm_compute. discriminate.
  - reflexivity.
  - intros v [= <-]. reflexivity.
  - reflexivity.
  - reflexivity.
Defined.

(** X23 at a concrete input: the tokens of Alice are revoked; after a login
    of hers, the signup of Bob and an update of her profile that presents
    her old access token, that token is refused as a revoked one: the
    refusal of the update has put it on the blacklist. *)
Lemma blacklistAllUserTokens_revokes_witness :
  (List.find (User.hasId 1)
     (users (withUsers
               (TokenBlacklist.blacklistAllUserTokens 1 "password_change"
                  (users Demo.store0))
               Demo.store0))
   = Some (User.incTokenVersion Demo.alice)
   /\ Refused
        (fst (requireSignIn Demo.jwt_decode 120
                (snd (serve (handle Demo.jwt_sign Demo.jwt_decode Demo.bcrypt_hash
                               Demo.bcrypt_compare None None 120)
                        (withUsers
                           (TokenBlacklist.blacklistAllUserTokens 1 "password_change"
                              (users Demo.store0))
                           Demo.store0)
                        Demo.moreCalls))
                (Demo.now + 5000) Demo.accessRequest)))
  /\ fst (requireSignIn Demo.jwt_decode 120
            (snd (serve (handle Demo.jwt_sign Demo.jwt_decode Demo.bcrypt_hash
                           Demo.bcrypt_compare None None 120)
                    (withUsers
                       (TokenBlacklist.blacklistAllUserTokens 1 "password_change"
                          (users Demo.store0))
                       Demo.store0)
                    Demo.moreCalls))
            (Demo.now + 5000) Demo.accessRequest)
     = Http.NextError msgRevoked 401.
Proof.
  split; [| vm_compute; reflexivity].
  apply (blacklistAllUserTokens_revokes Demo.jwt_sign Demo.jwt_decode Demo.bcrypt_hash
           Demo.bcrypt_compare None None 120 Demo.store0 1 "password_change" Demo.alice
           "jwt.access.a1" Demo.accessA 0 Demo.moreCalls (Demo.now + 5000)
           Demo.accessRequest).
  - reflexivity.
  - reflexivity.
  - reflexivity.
  - reflexivity.
  - vm_compute. discriminate.
  - reflexivity.
Defined.

(** X30 at a concrete input: Alice changes her password; after a login of
    hers, the signup of Bob and an update of her profile, her old access
    token is refused. *)
Lemma changePassword_revokes_tokens_witness :
  (exists user',
     List.find (User.hasId (User._id Demo.alice)) (users Demo.afterChange) = Some user'
     /\ User.tokenVersion user' = User.tokenVersion Demo.alice + 1)
  /\ Refused
       (fst (requireSignIn Demo.jwt_decode 120
               (snd (serve (handle Demo.jwt_sign Demo.jwt_decode Demo.bcrypt_hash
                              Demo.bcrypt_compare None None 120)
                       Demo.afterChange Demo.moreCalls))
               (Demo.now + 5000) Demo.accessRequest)).
Proof.
  apply (changePassword_revokes_tokens Demo.jwt_sign Demo.jwt_decode Demo.bcrypt_hash
           Demo.bcrypt_compare None None 120 Demo.store0 Demo.afterChange Demo.now
           Demo.rnd (Demo.changeRequest "Br4nd!NewPass") Demo.alice Demo.alice
           "Br4nd!NewPass" 200
           (messageBody
              "Password changed successfully. Please login again with your new password.")
           clearTokenCookies "jwt.access.a1" Demo.accessA 0 Demo.moreCalls
           (Demo.now + 5000) Demo.accessRequest).
  - vm_compute. reflexivity.
  - reflexivity.
  - reflexivity.
  - reflexivity.
  - vm_compute. intros H. discriminate H.
  - reflexivity.
  - reflexivity.
  - reflexivity.
  - vm_compute. discriminate.
  - reflexivity.
Defined.

(** X24 at a concrete input: a login of Alice, the signup of Bob and an
    update of the profile of Alice, under the codec of the table; the
    tokens are signed at the clock reading of the expiry time. *)
Lemma calls_keep_records_coherent_witness :
  Coherent Demo.decode
    (snd (serve (handle Demo.sign Demo.decode Demo.bcrypt_hash Demo.bcrypt_compare
                   None None 120)
            Demo.store0 Demo.moreCalls)).
Proof.
  apply (calls_keep_records_coherent Demo.sign Demo.decode Demo.bcrypt_hash
           Demo.bcrypt_compare None None 120 decode_sign Demo.store0 Demo.moreCalls).
  - repeat constructor; vm_compute; discriminate.
  - exact store0_coherent.
Defined.

(** X26 at a concrete input: Alice's access token, in the blacklist with
    the expiry of the token, is refused after a login of hers, the signup
    of Bob and an update of her profile. *)
Lemma revoked_token_never_authenticates_witness :
  exists m,
    requireSignIn Demo.decode 120
      (snd (serve (handle Demo.sign Demo.decode Demo.bcrypt_hash Demo.bcrypt_compare
                     None None 120)
              Demo.storeRevokedAccess Demo.moreCalls))
      (Demo.now + 5000) Demo.accessRequest
    = (Http.NextError m 401,
       snd (serve (handle Demo.sign Demo.decode Demo.bcrypt_hash Demo.bcrypt_compare
                     None None 120)
              Demo.storeRevokedAccess Demo.moreCalls)).
Proof.
  apply (revoked_token_never_authenticates Demo.sign Demo.decode Demo.bcrypt_hash
           Demo.bcrypt_compare None None 120 Demo.storeRevokedAccess
           "jwt.access.a1" Demo.revokedAccess Demo.moreCalls (Demo.now + 5000)
           Demo.accessRequest).
  - now left.
  - reflexivity.
  - intros p Hp. vm_compute in Hp. injection Hp as <-. vm_compute. discriminate.
  - reflexivity.
Defined.

(** X27 at a concrete input: after a login of hers, the signup of Bob, who
    asks to be an administrator, and an update of her profile in which she
    asks the same, Alice authenticates and is refused at a route of the
    administrators. *)
Lemma no_call_makes_an_admin_witness :
  exists req' st',
    requireSignIn Demo.jwt_decode 120
      (snd (serve (handle Demo.jwt_sign Demo.jwt_decode Demo.bcrypt_hash
                     Demo.bcrypt_compare None None 120)
              Demo.store0 Demo.moreCalls))
      (Demo.now + 5000) Demo.accessRequest
    = (Http.Next req', st')
    /\ alowedTo ["admin"] req'
       = Http.NextError "You are not allowed to access this route" 403.
Proof.
  eexists _, _. split; [vm_compute; reflexivity |].
  eapply (no_call_makes_an_admin Demo.jwt_sign Demo.jwt_decode Demo.bcrypt_hash
            Demo.bcrypt_compare None None 120 Demo.store0 Demo.alice Demo.moreCalls
            (Demo.now + 5000) Demo.accessRequest).
  3: vm_compute; reflexivity.
  3: reflexivity.
  - reflexivity.
  - discriminate.
Defined.

(** X28 at a concrete input: Bob signs up and can log in. *)
Lemma signup_then_login_witness :
  exists user,
    User.findOneByEmail (Some "bob@example.com") (users Demo.afterSignup) = Some user
    /\ User.password user = Demo.bcrypt_hash "C0rrect!Horse" (salt Demo.rnd)
    /\ forall now' rnd' req',
         Http.body req' !! "email" = Some "bob@example.com" ->
         Http.body req' !! "password" = Some "C0rrect!Horse" ->
         Issuable Demo.jwt_sign None None user req' now' rnd'
           (sessions Demo.afterSignup) ->
         exists payload' setCookies' st2,
           login Demo.jwt_sign Demo.bcrypt_compare None None Demo.afterSignup now' rnd'
             req'
           = (Http.Respond 200 payload' setCookies', st2).
Proof.
  apply (signup_then_login Demo.jwt_sign Demo.bcrypt_hash Demo.bcrypt_compare None None
           Demo.store0 Demo.afterSignup Demo.now Demo.rnd (Demo.signupRequest []) 201
           (tokenBody "jwt.access.a2" "jwt.refresh.r2"
              (Some (delete "password" (toObject Demo.bob))))
           (setTokenCookies "jwt.access.a2" "jwt.refresh.r2")
           "bob@example.com" "C0rrect!Horse").
  - vm_compute. reflexivity.
  - reflexivity.
  - reflexivity.
  - reflexivity.
Defined.

